(** * Marketplace workflow: the route handlers of the backend over a model
      of the relational store

    The backend is a set of Express route handlers
    (backend/routes/{projects,submissions,tasks,requests,users}.js) that read
    and write five PostgreSQL tables through Prisma.  This development embeds

    - the tables of the migration (users, projects, requests, tasks,
      submissions) as lists of rows in creation order, together with the
      constraints the migration declares (primary keys, the unique indexes
      [requests_projectId_solverId_key] and [submissions_taskId_key], the
      foreign keys);
    - the Prisma calls the handlers make ([findUnique], [findMany],
      [create], [update], [updateMany]) with the errors they throw, and the
      values the store refuses in a row (a text with the character of code
      0, a date outside the years 0000 to 9999, an integer outside 32
      bits);
    - every handler that writes to the store, statement by statement, as a
      function from the store and the request to the response and the next
      store.  A handler is not a transaction: a call that throws after some
      writes leaves those writes in place, and so does the model.  What the
      environment supplies to a request (the identifier Prisma draws for a
      created row, the clock) is an argument of the handler.

    Columns no handler branches on and no statement below speaks about
    (name, email, password, budget, createdAt, updatedAt) are left out of
    the rows, and the upload directory is not part of the state. *)

From Stdlib Require Import Ascii String List Bool Arith ZArith Lia.
Import ListNotations.
Open Scope string_scope.
Open Scope list_scope.

Set Implicit Arguments.

(** ** Values as the JavaScript code tests them *)

Module Js.

(** [if (v)] on a value that is a string or undefined/null. *)
Definition truthy (v : option string) : bool :=
  match v with
  | Some s => negb (s =? "")
  | None => false
  end.

(** [v1 || v2] on such values. *)
Definition or_else (v1 v2 : option string) : option string :=
  if truthy v1 then v1 else v2.

(** [list.includes(s)]. *)
Definition includes (l : list string) (s : string) : bool :=
  existsb (String.eqb s) l.

(** [a !== b] where [a] is a nullable column and [b] a string. *)
Definition differs (a : option string) (b : string) : bool :=
  match a with
  | Some s => negb (s =? b)
  | None => true
  end.

(** [a === b] on two nullable columns. *)
Definition same (a b : option string) : bool :=
  match a, b with
  | Some x, Some y => x =? y
  | None, None => true
  | _, _ => false
  end.

End Js.

(** ** express-validator chains used by the routes *)

Module Validator.

(** [body(f).notEmpty()]: an absent field is validated as the empty
    string. *)
Definition notEmpty (v : option string) : bool :=
  match v with
  | Some s => negb (s =? "")
  | None => false
  end.

(** [body(f).isIn(l)]. *)
Definition isIn (l : list string) (v : option string) : bool :=
  match v with
  | Some s => Js.includes l s
  | None => false
  end.

(** [body(f).optional().isIn(l)]: only an absent field skips the check. *)
Definition optional_isIn (l : list string) (v : option string) : bool :=
  match v with
  | Some s => Js.includes l s
  | None => true
  end.

End Validator.

(** ** Rows *)

Module User.
Record t := mk {
  id : string;
  role : string;
  bio : option string;
  skills : list string;
  experience : option string;
  portfolio : option string
}.

Definition with_role (r : string) (u : t) : t :=
  mk (id u) r (bio u) (skills u) (experience u) (portfolio u).

Definition key (i : string) (u : t) : bool := id u =? i.
End User.

Module Project.
Record t := mk {
  id : string;
  title : string;
  description : string;
  buyerId : string;
  assignedSolverId : option string;
  status : string;
  deadline : option Z
}.

Definition with_status (s : string) (p : t) : t :=
  mk (id p) (title p) (description p) (buyerId p) (assignedSolverId p) s
     (deadline p).

Definition assign (solver : string) (p : t) : t :=
  mk (id p) (title p) (description p) (buyerId p) (Some solver) "assigned"
     (deadline p).

Definition key (i : string) (p : t) : bool := id p =? i.
End Project.

Module Request.
Record t := mk {
  id : string;
  projectId : string;
  solverId : string;
  message : option string;
  status : string
}.

Definition with_status (s : string) (r : t) : t :=
  mk (id r) (projectId r) (solverId r) (message r) s.

Definition key (i : string) (r : t) : bool := id r =? i.

(** The compound key [projectId_solverId]. *)
Definition pair_key (p s : string) (r : t) : bool :=
  (projectId r =? p) && (solverId r =? s).
End Request.

Module Task.
Record t := mk {
  id : string;
  projectId : string;
  userId : string;
  title : string;
  description : string;
  deadline : Z;
  status : string
}.

Definition with_status (s : string) (k : t) : t :=
  mk (id k) (projectId k) (userId k) (title k) (description k)
     (deadline k) s.

Definition key (i : string) (k : t) : bool := id k =? i.
End Task.

Module Submission.
Record t := mk {
  id : string;
  taskId : string;
  projectId : string;
  solverId : string;
  filePath : string;
  fileName : string;
  fileSize : Z;
  message : option string;
  status : string;
  reviewedAt : option Z
}.

Definition replace_file (path name : string) (size : Z)
    (msg : option string) (b : t) : t :=
  mk (id b) (taskId b) (projectId b) (solverId b) path name size msg
     "pending" (reviewedAt b).

Definition review (s : string) (now : Z) (b : t) : t :=
  mk (id b) (taskId b) (projectId b) (solverId b) (filePath b)
     (fileName b) (fileSize b) (message b) s (Some now).

Definition key (i : string) (b : t) : bool := id b =? i.
Definition task_key (i : string) (b : t) : bool := taskId b =? i.
End Submission.

(** ** The store *)

Record Store := mkStore {
  users : list User.t;
  projects : list Project.t;
  requests : list Request.t;
  tasks : list Task.t;
  submissions : list Submission.t
}.

Definition set_users (l : list User.t) (st : Store) : Store :=
  mkStore l (projects st) (requests st) (tasks st) (submissions st).
Definition set_projects (l : list Project.t) (st : Store) : Store :=
  mkStore (users st) l (requests st) (tasks st) (submissions st).
Definition set_requests (l : list Request.t) (st : Store) : Store :=
  mkStore (users st) (projects st) l (tasks st) (submissions st).
Definition set_tasks (l : list Task.t) (st : Store) : Store :=
  mkStore (users st) (projects st) (requests st) l (submissions st).
Definition set_submissions (l : list Submission.t) (st : Store) : Store :=
  mkStore (users st) (projects st) (requests st) (tasks st) l.

(** ** Prisma calls

    [findUnique] returns the row or null; [update] throws P2025 when no row
    matches; [create] and [update] throw P2002 on a unique index and P2003
    on a foreign key, the unique indexes being checked first and a foreign
    key only when its column is written with a new value. *)

Module Prisma.

Inductive Error := P2002 | P2003 | P2025.

Definition Result := (Store + Error)%type.

(** *** Values the store refuses

    PostgreSQL has no character of code 0 in a TEXT value; Prisma sends a
    DateTime as an RFC 3339 string, whose year has four digits, so a date
    before the year 0000 or after the year 9999 is refused (the bounds are
    in milliseconds since 1970); an Int column takes 32 bits.  A call that
    carries such a value throws before any row is read or written.  The
    identifiers written with a row are drawn by Prisma or were read from
    the store, so only the columns filled from the request are looked
    at. *)

Definition text_ok (s : string) : bool :=
  negb (existsb (Ascii.eqb Ascii.zero) (list_ascii_of_string s)).

Definition opt_text_ok (v : option string) : bool :=
  match v with
  | Some s => text_ok s
  | None => true
  end.

Definition date_ok (z : Z) : bool :=
  ((-62167219200000 <=? z) && (z <=? 253402300799999))%Z.

Definition opt_date_ok (v : option Z) : bool :=
  match v with
  | Some z => date_ok z
  | None => true
  end.

Definition int_ok (z : Z) : bool :=
  ((-2147483648 <=? z) && (z <=? 2147483647))%Z.

Definition project_data_ok (p : Project.t) : bool :=
  text_ok (Project.title p) && text_ok (Project.description p)
  && opt_date_ok (Project.deadline p).

Definition request_data_ok (r : Request.t) : bool :=
  opt_text_ok (Request.message r).

Definition task_data_ok (k : Task.t) : bool :=
  text_ok (Task.title k) && text_ok (Task.description k)
  && date_ok (Task.deadline k).

Definition file_data_ok (path name : string) (size : Z)
    (message : option string) : bool :=
  text_ok path && text_ok name && int_ok size && opt_text_ok message.

Definition submission_data_ok (b : Submission.t) : bool :=
  file_data_ok (Submission.filePath b) (Submission.fileName b)
    (Submission.fileSize b) (Submission.message b).

(** [UPDATE ... WHERE w]. *)
Definition rewrite_rows (A : Type) (w : A -> bool) (f : A -> A)
    (l : list A) : list A :=
  map (fun x => if w x then f x else x) l.

Definition user_exists (st : Store) (i : string) : bool :=
  existsb (User.key i) (users st).

Definition fk_user (st : Store) (v : option string) : bool :=
  match v with
  | Some i => user_exists st i
  | None => true
  end.

(** *** users *)

Definition user_findUnique (st : Store) (i : string) : option User.t :=
  find (User.key i) (users st).

Definition user_update (st : Store) (i : string) (f : User.t -> User.t)
    : Result :=
  match user_findUnique st i with
  | None => inr P2025
  | Some _ => inl (set_users (rewrite_rows (User.key i) f (users st)) st)
  end.

(** *** projects *)

Definition project_findUnique (st : Store) (i : string)
    : option Project.t :=
  find (Project.key i) (projects st).

Definition project_create (st : Store) (p : Project.t) : Result :=
  if existsb (Project.key (Project.id p)) (projects st) then inr P2002
  else if negb (user_exists st (Project.buyerId p)
                && fk_user st (Project.assignedSolverId p)) then inr P2003
  else inl (set_projects (projects st ++ [p]) st).

Definition project_update (st : Store) (i : string)
    (f : Project.t -> Project.t) : Result :=
  match project_findUnique st i with
  | None => inr P2025
  | Some p =>
      if negb (Js.same (Project.assignedSolverId (f p))
                       (Project.assignedSolverId p)
               || fk_user st (Project.assignedSolverId (f p)))
      then inr P2003
      else inl (set_projects
                  (rewrite_rows (Project.key i) f (projects st)) st)
  end.

(** *** requests *)

Definition request_findUnique_projectId_solverId (st : Store)
    (p s : string) : option Request.t :=
  find (Request.pair_key p s) (requests st).

Definition request_findMany (st : Store) (w : Request.t -> bool)
    : list Request.t :=
  filter w (requests st).

Definition request_create (st : Store) (r : Request.t) : Result :=
  if existsb (Request.key (Request.id r)) (requests st)
     || existsb (Request.pair_key (Request.projectId r)
                                  (Request.solverId r)) (requests st)
  then inr P2002
  else if negb (existsb (Project.key (Request.projectId r)) (projects st)
                && user_exists st (Request.solverId r)) then inr P2003
  else inl (set_requests (requests st ++ [r]) st).

Definition request_updateMany (st : Store) (w : Request.t -> bool)
    (f : Request.t -> Request.t) : Store :=
  set_requests (rewrite_rows w f (requests st)) st.

(** *** tasks *)

Definition task_findUnique (st : Store) (i : string) : option Task.t :=
  find (Task.key i) (tasks st).

Definition task_findMany (st : Store) (w : Task.t -> bool)
    : list Task.t :=
  filter w (tasks st).

Definition task_create (st : Store) (k : Task.t) : Result :=
  if existsb (Task.key (Task.id k)) (tasks st) then inr P2002
  else if negb (existsb (Project.key (Task.projectId k)) (projects st)
                && user_exists st (Task.userId k)) then inr P2003
  else inl (set_tasks (tasks st ++ [k]) st).

Definition task_update (st : Store) (i : string) (f : Task.t -> Task.t)
    : Result :=
  match task_findUnique st i with
  | None => inr P2025
  | Some _ => inl (set_tasks (rewrite_rows (Task.key i) f (tasks st)) st)
  end.

(** *** submissions *)

Definition submission_findUnique (st : Store) (i : string)
    : option Submission.t :=
  find (Submission.key i) (submissions st).

Definition submission_findUnique_taskId (st : Store) (i : string)
    : option Submission.t :=
  find (Submission.task_key i) (submissions st).

Definition submission_create (st : Store) (b : Submission.t) : Result :=
  if existsb (Submission.key (Submission.id b)) (submissions st)
     || existsb (Submission.task_key (Submission.taskId b))
                (submissions st)
  then inr P2002
  else if negb (existsb (Task.key (Submission.taskId b)) (tasks st)
                && existsb (Project.key (Submission.projectId b))
                           (projects st)
                && user_exists st (Submission.solverId b)) then inr P2003
  else inl (set_submissions (submissions st ++ [b]) st).

Definition submission_update (st : Store) (i : string)
    (f : Submission.t -> Submission.t) : Result :=
  match submission_findUnique st i with
  | None => inr P2025
  | Some _ =>
      inl (set_submissions
             (rewrite_rows (Submission.key i) f (submissions st)) st)
  end.

Definition submission_update_taskId (st : Store) (i : string)
    (f : Submission.t -> Submission.t) : Result :=
  match submission_findUnique_taskId st i with
  | None => inr P2025
  | Some _ =>
      inl (set_submissions
             (rewrite_rows (Submission.task_key i) f (submissions st)) st)
  end.

End Prisma.

(** ** Requests and responses *)

(** [req.user], as the [protect] middleware leaves it. *)
Record ReqUser := mkReqUser {
  req_id : string;
  req_role : string
}.

(** Modelled from the spec: [authorize(...roles)] of middleware/auth.js is
    not among the sources.  The spec's Authorization Guard "checks actor
    role" before an action is permitted: the request goes on to the handler
    only when the role of [req.user] is one of the listed roles. *)
Definition authorize (roles : list string) (u : ReqUser) : bool :=
  Js.includes roles (req_role u).

Inductive Response :=
| Json (code : nat) (message : string)
    (** [res.status(code).json({ message, ... })]; the message is empty
        when the body carries only the entity. *)
| ValidationErrors
    (** [res.status(400).json({ errors: errors.array() })]. *)
| RoleDenied.
    (** The refusal of [authorize]. *)

Definition code (r : Response) : nat :=
  match r with
  | Json c _ => c
  | ValidationErrors => 400
  | RoleDenied => 403
  end.

Definition succeeded (r : Response) : bool := (code r <? 400)%nat.

Definition server_error (st : Store) : Response * Store :=
  (Json 500 "Server error", st).

(** The value of a body field once its validator has passed. *)
Definition field (v : option string) : string :=
  match v with
  | Some s => s
  | None => ""
  end.

(** [req.file] as multer's [upload.single('file')] leaves it. *)
Record File := mkFile {
  path : string;
  originalname : string;
  size : Z
}.

Record ProjectBody := mkProjectBody {
  pb_title : option string;
  pb_description : option string;
  pb_deadline : option string
}.

Record TaskBody := mkTaskBody {
  tb_projectId : option string;
  tb_title : option string;
  tb_description : option string;
  tb_deadline : option string
}.

(** Body of [PUT /api/tasks/:id], and the [updateData] object built from
    it. *)
Record TaskPatch := mkTaskPatch {
  tp_title : option string;
  tp_description : option string;
  tp_deadline : option string;
  tp_status : option string
}.

Definition no_update : TaskPatch := mkTaskPatch None None None None.

Record ProfileBody := mkProfileBody {
  pr_bio : option string;
  pr_skills : option (list string);
  pr_experience : option string;
  pr_portfolio : option string
}.

(** ** The handlers that write to the store *)

Section Handlers.

(** validator.js [trim] and the [Date] constructor of the runtime
    ([None] is Invalid Date, which Prisma refuses as an argument). *)
Variable trim : string -> string.
Variable parse_date : string -> option Z.

(** [body(f).trim()]: the sanitised field. *)
Definition trimmed (v : option string) : option string :=
  option_map trim v.

(** *** POST /api/projects *)
Definition createProject (st : Store) (u : ReqUser) (b : ProjectBody)
    (newId : string) : Response * Store :=
  if negb (authorize ["buyer"] u) then (RoleDenied, st)
  else if negb (Validator.notEmpty (trimmed (pb_title b))
                && Validator.notEmpty (trimmed (pb_description b)))
  then (ValidationErrors, st)
  else
    let deadline :=
      if Js.truthy (pb_deadline b)
      then Some (parse_date (field (pb_deadline b))) else None in
    match deadline with
    | Some None => server_error st
    | _ =>
        let row :=
          Project.mk newId (field (trimmed (pb_title b)))
            (field (trimmed (pb_description b))) (req_id u) None "open"
            (match deadline with Some d => d | None => None end) in
        if negb (Prisma.project_data_ok row) then server_error st
        else
          match Prisma.project_create st row with
          | inr _ => server_error st
          | inl st1 => (Json 201 "", st1)
          end
    end.

(** *** PUT /api/projects/:id/assign *)
Definition assignSolver (st : Store) (u : ReqUser) (id : string)
    (solverId : option string) : Response * Store :=
  if negb (authorize ["buyer"] u) then (RoleDenied, st)
  else if negb (Validator.notEmpty solverId) then (ValidationErrors, st)
  else
    let solver := field solverId in
    match Prisma.project_findUnique st id with
    | None => (Json 404 "Project not found", st)
    | Some project =>
        if negb (Project.buyerId project =? req_id u)
        then (Json 403 "Not authorized", st)
        else
          match Prisma.project_update st id (Project.assign solver) with
          | inr _ => server_error st
          | inl st1 =>
              let st2 :=
                Prisma.request_updateMany st1
                  (fun r => (Request.projectId r =? Project.id project)
                            && (Request.solverId r =? solver))
                  (Request.with_status "accepted") in
              let st3 :=
                Prisma.request_updateMany st2
                  (fun r => (Request.projectId r =? Project.id project)
                            && negb (Request.solverId r =? solver))
                  (Request.with_status "rejected") in
              (Json 200 "Project assigned successfully", st3)
          end
    end.

(** *** POST /api/submissions *)
Definition createSubmission (st : Store) (u : ReqUser)
    (file : option File) (taskId message : option string)
    (newId : string) : Response * Store :=
  if negb (authorize ["problem_solver"] u) then (RoleDenied, st)
  else if negb (Validator.notEmpty taskId) then (ValidationErrors, st)
  else
    match file with
    | None => (Json 400 "ZIP file is required", st)
    | Some f =>
        let taskId := field taskId in
        match Prisma.task_findUnique st taskId with
        | None => (Json 404 "Task not found", st)
        | Some task =>
            match Prisma.project_findUnique st (Task.projectId task) with
            | None => server_error st
            | Some project =>
                if Js.differs (Project.assignedSolverId project) (req_id u)
                then (Json 403 "Not authorized", st)
                else
                  match Prisma.submission_findUnique_taskId st taskId with
                  | Some existingSubmission =>
                      let kept_message :=
                        Js.or_else message
                          (Submission.message existingSubmission) in
                      if negb (Prisma.file_data_ok (path f) (originalname f)
                                 (size f) kept_message)
                      then server_error st
                      else
                        match
                          Prisma.submission_update_taskId st taskId
                            (Submission.replace_file (path f)
                               (originalname f) (size f) kept_message)
                        with
                        | inr _ => server_error st
                        | inl st1 =>
                            match Prisma.task_update st1 taskId
                                    (Task.with_status "submitted") with
                            | inr _ => server_error st1
                            | inl st2 =>
                                (Json 200 "Submission updated successfully",
                                 st2)
                            end
                        end
                  | None =>
                      let row :=
                        Submission.mk newId taskId (Task.projectId task)
                          (req_id u) (path f) (originalname f) (size f)
                          message "pending" None in
                      if negb (Prisma.submission_data_ok row)
                      then server_error st
                      else
                        match Prisma.submission_create st row with
                        | inr _ => server_error st
                        | inl st1 =>
                            match Prisma.task_update st1 taskId
                                    (Task.with_status "submitted") with
                            | inr _ => server_error st1
                            | inl st2 =>
                                (Json 201 "Submission created successfully",
                                 st2)
                            end
                        end
                  end
            end
        end
    end.

(** *** PUT /api/submissions/:id/review *)
Definition reviewSubmission (st : Store) (u : ReqUser) (id : string)
    (status : option string) (now : Z) : Response * Store :=
  if negb (authorize ["buyer"] u) then (RoleDenied, st)
  else if negb (Validator.isIn ["accepted"; "rejected"] status)
  then (ValidationErrors, st)
  else
    let status := field status in
    let done := Json 200 ("Submission " ++ status ++ " successfully") in
    match Prisma.submission_findUnique st id with
    | None => (Json 404 "Submission not found", st)
    | Some submission =>
        match Prisma.project_findUnique st
                (Submission.projectId submission) with
        | None => server_error st
        | Some project =>
            if negb (Project.buyerId project =? req_id u)
            then (Json 403 "Not authorized", st)
            else
              match Prisma.submission_update st id
                      (Submission.review status now) with
              | inr _ => server_error st
              | inl st1 =>
                  if status =? "accepted" then
                    match Prisma.task_update st1
                            (Submission.taskId submission)
                            (Task.with_status "completed") with
                    | inr _ => server_error st1
                    | inl st2 =>
                        let allTasks :=
                          Prisma.task_findMany st2
                            (fun t => Task.projectId t
                                      =? Submission.projectId submission) in
                        let allCompleted :=
                          forallb (fun t => Task.status t =? "completed")
                                  allTasks in
                        if allCompleted && (0 <? length allTasks)%nat then
                          match Prisma.project_update st2
                                  (Submission.projectId submission)
                                  (Project.with_status "completed") with
                          | inr _ => server_error st2
                          | inl st3 => (done, st3)
                          end
                        else (done, st2)
                    end
                  else if status =? "rejected" then
                    match Prisma.task_update st1
                            (Submission.taskId submission)
                            (Task.with_status "rejected") with
                    | inr _ => server_error st1
                    | inl st2 => (done, st2)
                    end
                  else (done, st1)
              end
        end
    end.

(** *** POST /api/tasks *)
Definition createTask (st : Store) (u : ReqUser) (b : TaskBody)
    (newId : string) : Response * Store :=
  if negb (authorize ["problem_solver"] u) then (RoleDenied, st)
  else if negb (Validator.notEmpty (tb_projectId b)
                && Validator.notEmpty (trimmed (tb_title b))
                && Validator.notEmpty (trimmed (tb_description b))
                && Validator.notEmpty (tb_deadline b))
  then (ValidationErrors, st)
  else
    let projectId := field (tb_projectId b) in
    match Prisma.project_findUnique st projectId with
    | None => (Json 404 "Project not found", st)
    | Some project =>
        if negb (Js.truthy (Project.assignedSolverId project))
        then (Json 400 "Project is not assigned yet", st)
        else if Js.differs (Project.assignedSolverId project) (req_id u)
        then (Json 403 "Not authorized to create tasks for this project",
              st)
        else
          match parse_date (field (tb_deadline b)) with
          | None => server_error st
          | Some deadline =>
              let row :=
                Task.mk newId projectId (req_id u)
                  (field (trimmed (tb_title b)))
                  (field (trimmed (tb_description b))) deadline
                  "pending" in
              if negb (Prisma.task_data_ok row) then server_error st
              else
                match Prisma.task_create st row with
                | inr _ => server_error st
                | inl st1 =>
                    if Project.status project =? "assigned" then
                      match Prisma.project_update st1 projectId
                              (Project.with_status "in_progress") with
                      | inr _ => server_error st1
                      | inl st2 => (Json 201 "", st2)
                      end
                    else (Json 201 "", st1)
                end
          end
    end.

(** *** PUT /api/tasks/:id *)

(** The write [prisma.task.update({ data: updateData })]: a key absent
    from [updateData] leaves its column as it is. *)
Definition task_apply (d : TaskPatch) (deadline : option Z) (k : Task.t)
    : Task.t :=
  Task.mk (Task.id k) (Task.projectId k) (Task.userId k)
    (match tp_title d with Some v => v | None => Task.title k end)
    (match tp_description d with
     | Some v => v
     | None => Task.description k
     end)
    (match deadline with Some z => z | None => Task.deadline k end)
    (match tp_status d with Some v => v | None => Task.status k end).

(** The block guarded by [req.user.role === 'problem_solver']; [inr] is
    an early return. *)
Definition solver_block (u : ReqUser) (project : option Project.t)
    (b : TaskPatch) (updateData : TaskPatch) : TaskPatch + Response :=
  if req_role u =? "problem_solver" then
    match project with
    | None => inr (Json 500 "Server error")
    | Some p =>
        if Js.differs (Project.assignedSolverId p) (req_id u)
        then inr (Json 403 "Not authorized")
        else
          inl (mkTaskPatch
                 (if Js.truthy (tp_title b) then tp_title b
                  else tp_title updateData)
                 (if Js.truthy (tp_description b) then tp_description b
                  else tp_description updateData)
                 (if Js.truthy (tp_deadline b) then tp_deadline b
                  else tp_deadline updateData)
                 (if Js.truthy (tp_status b)
                     && Js.includes ["pending"; "in_progress"; "submitted"]
                                    (field (tp_status b))
                  then tp_status b else tp_status updateData))
    end
  else inl updateData.

(** The block guarded by [req.user.role === 'buyer']. *)
Definition buyer_block (u : ReqUser) (project : option Project.t)
    (b : TaskPatch) (updateData : TaskPatch) : TaskPatch + Response :=
  if req_role u =? "buyer" then
    match project with
    | None => inr (Json 500 "Server error")
    | Some p =>
        if negb (Project.buyerId p =? req_id u)
        then inr (Json 403 "Not authorized")
        else
          inl (mkTaskPatch (tp_title updateData)
                 (tp_description updateData) (tp_deadline updateData)
                 (if Js.truthy (tp_status b)
                     && Js.includes ["completed"; "rejected"]
                                    (field (tp_status b))
                  then tp_status b else tp_status updateData))
    end
  else inl updateData.

Definition updateTask (st : Store) (u : ReqUser) (id : string)
    (b : TaskPatch) : Response * Store :=
  if negb (Validator.optional_isIn
             ["pending"; "in_progress"; "submitted"; "completed";
              "rejected"] (tp_status b))
  then (ValidationErrors, st)
  else
    match Prisma.task_findUnique st id with
    | None => (Json 404 "Task not found", st)
    | Some task =>
        let project :=
          Prisma.project_findUnique st (Task.projectId task) in
        match solver_block u project b no_update with
        | inr r => (r, st)
        | inl updateData =>
            match buyer_block u project b updateData with
            | inr r => (r, st)
            | inl updateData =>
                let deadline := option_map parse_date
                                  (tp_deadline updateData) in
                match deadline with
                | Some None => server_error st
                | _ =>
                    let deadline :=
                      match deadline with
                      | Some d => d
                      | None => None
                      end in
                    if negb (Prisma.opt_text_ok (tp_title updateData)
                             && Prisma.opt_text_ok
                                  (tp_description updateData)
                             && Prisma.opt_date_ok deadline)
                    then server_error st
                    else
                      match
                        Prisma.task_update st id
                          (task_apply updateData deadline)
                      with
                      | inr _ => server_error st
                      | inl st1 => (Json 200 "", st1)
                      end
                end
            end
        end
    end.

(** *** POST /api/requests

    The route reads the project, looks for a request of the caller and
    inserts the row in three round trips to the store, and the server may
    answer other requests between them.  [createRequest_at] takes the
    store as each of the three calls finds it: [st_project] when the
    project is read, [st_existing] when the request of the caller is
    looked for, [st] when the row is inserted.  The route writes nothing
    but that row, so the store it leaves is [st] or [st] with the row.
    [createRequest] is the route served with no other request in
    between. *)
Definition createRequest_at (st_project st_existing st : Store)
    (u : ReqUser) (projectId message : option string) (newId : string)
    : Response * Store :=
  if negb (authorize ["problem_solver"] u) then (RoleDenied, st)
  else if negb (Validator.notEmpty projectId) then (ValidationErrors, st)
  else
    let projectId := field projectId in
    match Prisma.project_findUnique st_project projectId with
    | None => (Json 404 "Project not found", st)
    | Some project =>
        if negb (Project.status project =? "open")
        then (Json 400 "Project is not open for requests", st)
        else
          match Prisma.request_findUnique_projectId_solverId st_existing
                  projectId (req_id u) with
          | Some existingRequest => (Json 400 "Request already exists", st)
          | None =>
              let row :=
                Request.mk newId projectId (req_id u) message "pending" in
              if negb (Prisma.request_data_ok row) then server_error st
              else
                match Prisma.request_create st row with
                | inl st1 => (Json 201 "", st1)
                | inr Prisma.P2002 =>
                    (Json 400 "Request already exists", st)
                | inr _ => server_error st
                end
          end
    end.

Definition createRequest (st : Store) (u : ReqUser)
    (projectId message : option string) (newId : string)
    : Response * Store :=
  createRequest_at st st st u projectId message newId.

(** *** PUT /api/users/:id/assign-buyer *)
Definition assignBuyer (st : Store) (u : ReqUser) (id : string)
    : Response * Store :=
  if negb (authorize ["admin"] u) then (RoleDenied, st)
  else
    match Prisma.user_update st id (User.with_role "buyer") with
    | inl st1 => (Json 200 "Buyer role assigned successfully", st1)
    | inr Prisma.P2025 => (Json 404 "User not found", st)
    | inr _ => server_error st
    end.

(** *** PUT /api/users/profile *)
Definition profile_apply (b : ProfileBody) (x : User.t) : User.t :=
  User.mk (User.id x) (User.role x)
    (match trimmed (pr_bio b) with
     | Some v => Some v
     | None => User.bio x
     end)
    (match pr_skills b with Some v => v | None => User.skills x end)
    (match trimmed (pr_experience b) with
     | Some v => Some v
     | None => User.experience x
     end)
    (match trimmed (pr_portfolio b) with
     | Some v => Some v
     | None => User.portfolio x
     end).

(** The values of the [data] object of the update that the store takes. *)
Definition profile_data_ok (b : ProfileBody) : bool :=
  Prisma.opt_text_ok (trimmed (pr_bio b))
  && match pr_skills b with
     | Some l => forallb Prisma.text_ok l
     | None => true
     end
  && Prisma.opt_text_ok (trimmed (pr_experience b))
  && Prisma.opt_text_ok (trimmed (pr_portfolio b)).

Definition updateProfile (st : Store) (u : ReqUser) (b : ProfileBody)
    : Response * Store :=
  if negb (profile_data_ok b) then server_error st
  else
    match Prisma.user_update st (req_id u) (profile_apply b) with
    | inl st1 => (Json 200 "Profile updated successfully", st1)
    | inr _ => server_error st
    end.

(** ** Runs of the server *)

(** One request to a writing route, with what the environment supplies
    (the identifier of a created row, the clock). *)
Inductive Action :=
| CreateProject (u : ReqUser) (b : ProjectBody) (newId : string)
| AssignSolver (u : ReqUser) (id : string) (solverId : option string)
| CreateSubmission (u : ReqUser) (file : option File)
    (taskId message : option string) (newId : string)
| ReviewSubmission (u : ReqUser) (id : string) (status : option string)
    (now : Z)
| CreateTask (u : ReqUser) (b : TaskBody) (newId : string)
| UpdateTask (u : ReqUser) (id : string) (b : TaskPatch)
| CreateRequest (u : ReqUser) (projectId message : option string)
    (newId : string)
| AssignBuyer (u : ReqUser) (id : string)
| UpdateProfile (u : ReqUser) (b : ProfileBody).

Definition handle (st : Store) (a : Action) : Response * Store :=
  match a with
  | CreateProject u b newId => createProject st u b newId
  | AssignSolver u id solverId => assignSolver st u id solverId
  | CreateSubmission u file taskId message newId =>
      createSubmission st u file taskId message newId
  | ReviewSubmission u id status now => reviewSubmission st u id status now
  | CreateTask u b newId => createTask st u b newId
  | UpdateTask u id b => updateTask st u id b
  | CreateRequest u projectId message newId =>
      createRequest st u projectId message newId
  | AssignBuyer u id => assignBuyer st u id
  | UpdateProfile u b => updateProfile st u b
  end.

Definition step (st : Store) (a : Action) : Store := snd (handle st a).

Definition run (st : Store) (l : list Action) : Store :=
  fold_left step l st.

(** The store before any project exists: registered users only. *)
Definition initial (st : Store) : Prop :=
  NoDup (map User.id (users st))
  /\ projects st = [] /\ requests st = [] /\ tasks st = []
  /\ submissions st = [].

Inductive reachable : Store -> Prop :=
| reach_initial : forall st, initial st -> reachable st
| reach_step : forall st a, reachable st -> reachable (step st a).

End Handlers.

Arguments reachable : clear implicits.

(** ** Integrity of the store

    The constraints of the migration that the proofs rely on, and two
    facts about the workflow that every handler maintains. *)

Record wf (st : Store) : Prop := mkWf {
  (** [projects_pkey] *)
  pk_projects : NoDup (map Project.id (projects st));
  (** [requests_projectId_solverId_key] *)
  uq_requests :
    NoDup (map (fun r => (Request.projectId r, Request.solverId r))
               (requests st));
  (** [submissions_taskId_key] *)
  uq_submissions : NoDup (map Submission.taskId (submissions st));
  (** [projects_assignedSolverId_fkey] *)
  fk_solver :
    forall p, In p (projects st) ->
      Prisma.fk_user st (Project.assignedSolverId p) = true;
  (** [submissions_taskId_fkey] *)
  fk_task :
    forall b, In b (submissions st) ->
      existsb (Task.key (Submission.taskId b)) (tasks st) = true;
  (** [submissions_projectId_fkey], and the project has a solver *)
  submitted_assigned :
    forall b, In b (submissions st) ->
      exists p, In p (projects st)
                /\ Project.id p = Submission.projectId b
                /\ Project.assignedSolverId p <> None;
  (** a project is open exactly when it has no solver *)
  open_unassigned :
    forall p, In p (projects st) ->
      (Project.status p = "open" <-> Project.assignedSolverId p = None)
}.

(** How a row of [users] may differ after a request: the same user, with
    the role it had or with the role buyer. *)
Definition role_step (x x' : User.t) : Prop :=
  User.id x' = User.id x
  /\ (User.role x' = User.role x \/ User.role x' = "buyer").

(** The allow-lists of [PUT /api/tasks/:id]: the statuses a solver and a
    buyer may write. *)
Definition may_set (u : ReqUser) (s : string) : bool :=
  (req_role u =? "problem_solver")
  && Js.includes ["pending"; "in_progress"; "submitted"] s
  || (req_role u =? "buyer") && Js.includes ["completed"; "rejected"] s.

(** The same body without its [status] key. *)
Definition without_status (b : TaskPatch) : TaskPatch :=
  mkTaskPatch (tp_title b) (tp_description b) (tp_deadline b) None.

(** The requests of a project, and how many of them have a status. *)
Definition requests_of (st : Store) (projectId : string) : list Request.t :=
  Prisma.request_findMany st (fun r => Request.projectId r =? projectId).

Definition count_status (s : string) (l : list Request.t) : nat :=
  length (filter (fun r => Request.status r =? s) l).

(** What the two [updateMany] of the assign route make of a request of the
    project. *)
Definition decided (solver : string) (r : Request.t) : Request.t :=
  if Request.solverId r =? solver then Request.with_status "accepted" r
  else Request.with_status "rejected" r.

(** ** A small marketplace, used for the closed examples *)

Module Demo.

(** An instance of validator.js [trim] on ASCII text: white space is
    removed at both ends. *)
Definition is_space (c : Ascii.ascii) : bool :=
  let n := Ascii.nat_of_ascii c in
  ((9 <=? n) && (n <=? 13) || (n =? 32))%nat.

Fixpoint ltrim (s : string) : string :=
  match s with
  | String c r => if is_space c then ltrim r else s
  | EmptyString => EmptyString
  end.

Fixpoint rtrim (s : string) : string :=
  match s with
  | String c r =>
      let r' := rtrim r in
      if is_space c && (r' =? "") then "" else String c r'
  | EmptyString => EmptyString
  end.

Definition trim (s : string) : string := rtrim (ltrim s).

(** An instance of [new Date(s)] on the one date string the examples
    send: midnight UTC of 1 January 2030, in milliseconds. *)
Definition parse_date (s : string) : option Z :=
  if s =? "2030-01-01" then Some 1893456000000%Z else None.

Definition person (id role : string) : User.t :=
  User.mk id role None [] None None.

Definition admin1 := mkReqUser "admin1" "admin".
Definition buyer1 := mkReqUser "buyer1" "buyer".
Definition solver1 := mkReqUser "solver1" "problem_solver".
Definition solver2 := mkReqUser "solver2" "problem_solver".

(** Registered users, no project yet. *)
Definition st0 : Store :=
  mkStore
    [person "admin1" "admin"; person "buyer1" "buyer";
     person "solver1" "problem_solver"; person "solver2" "problem_solver";
     person "solver3" "problem_solver"]
    [] [] [] [].

Definition p1 (solver : option string) (status : string) : Project.t :=
  Project.mk "p1" "Landing page" "Build it" "buyer1" solver status None.

Definition r1 (status : string) : Request.t :=
  Request.mk "r1" "p1" "solver1" None status.

Definition r2 (status : string) : Request.t :=
  Request.mk "r2" "p1" "solver2" (Some "I can help") status.

Definition t1 (status : string) : Task.t :=
  Task.mk "t1" "p1" "solver1" "Header" "Top of the page" 1893456000000
    status.

Definition s1 (status : string) (reviewedAt : option Z) : Submission.t :=
  Submission.mk "s1" "t1" "p1" "solver1" "uploads/submission-1.zip"
    "work.zip" 2048 None status reviewedAt.

Definition zip : File := mkFile "uploads/submission-1.zip" "work.zip" 2048.

Definition zip2 : File :=
  mkFile "uploads/submission-2.zip" "work-v2.zip" 4096.

(** The workflow of the README, one request after the other. *)
Definition posting : list Action :=
  [CreateProject buyer1
     (mkProjectBody (Some " Landing page ") (Some "Build it") None) "p1";
   CreateRequest solver1 (Some "p1") None "r1";
   CreateRequest solver2 (Some "p1") (Some "I can help") "r2"].

Definition assigning : list Action :=
  posting ++ [AssignSolver buyer1 "p1" (Some "solver1")].

Definition planning : list Action :=
  assigning
  ++ [CreateTask solver1
        (mkTaskBody (Some "p1") (Some "Header") (Some "Top of the page")
           (Some "2030-01-01")) "t1"].

Definition delivering : list Action :=
  planning ++ [CreateSubmission solver1 (Some zip) (Some "t1") None "s1"].

Definition reviewing : list Action :=
  delivering ++ [ReviewSubmission buyer1 "s1" (Some "accepted") 1000%Z].

Definition after (l : list Action) : Store := run trim parse_date st0 l.

(** The stores after each stage, written out. *)
Definition st_open : Store := Eval vm_compute in after posting.
Definition st_assigned : Store := Eval vm_compute in after assigning.
Definition st_planned : Store := Eval vm_compute in after planning.
Definition st_delivered : Store := Eval vm_compute in after delivering.
Definition st_reviewed : Store := Eval vm_compute in after reviewing.

(** The project alone, before any request for it. *)
Definition st_posted : Store :=
  Eval vm_compute in
    after [CreateProject buyer1
             (mkProjectBody (Some " Landing page ") (Some "Build it") None)
             "p1"].

(** A project with two tasks, the first of them delivered. *)
Definition t2 (status : string) : Task.t :=
  Task.mk "t2" "p1" "solver1" "Footer" "Links" 1893456000000 status.

Definition two_tasks : list Action :=
  planning
  ++ [CreateTask solver1
        (mkTaskBody (Some "p1") (Some "Footer") (Some "Links")
           (Some "2030-01-01")) "t2";
      CreateSubmission solver1 (Some zip) (Some "t1") None "s1"].

Definition st_two_tasks : Store := Eval vm_compute in after two_tasks.

End Demo.

(** ** The handlers that only read

    A read route answers with the rows it selected or refuses.  Rows are
    kept in creation order, so [orderBy: { createdAt: 'desc' }] is the
    reverse of the table order.  The relations a route joins in
    ([include]) are columns of other tables and are looked up by the
    properties below where they matter. *)

Inductive Reply (A : Type) : Type :=
| Sent (payload : A)
| Refused (r : Response).

Arguments Sent {A} payload.
Arguments Refused {A} r.

Definition newest_first (A : Type) (l : list A) : list A := rev l.

(** The Prisma filter [{ column: value }] on a nullable column. *)
Definition column_is (a : option string) (b : string) : bool :=
  negb (Js.differs a b).

(** *** GET /api/projects *)
Definition listProjects (st : Store) (u : ReqUser) : list Project.t :=
  let where_ (p : Project.t) :=
    if req_role u =? "buyer" then Project.buyerId p =? req_id u
    else if req_role u =? "problem_solver"
    then (Project.status p =? "open")
         || column_is (Project.assignedSolverId p) (req_id u)
    else true in
  newest_first (filter where_ (projects st)).

(** *** GET /api/projects/:id *)
Definition getProject (st : Store) (u : ReqUser) (id : string)
    : Reply (Project.t * list Request.t * list Task.t) :=
  match Prisma.project_findUnique st id with
  | None => Refused (Json 404 "Project not found")
  | Some project =>
      if (req_role u =? "buyer")
         && negb (Project.buyerId project =? req_id u)
      then Refused (Json 403 "Not authorized")
      else
        let requests :=
          newest_first
            (Prisma.request_findMany st
               (fun r => Request.projectId r =? Project.id project)) in
        let tasks :=
          if Js.truthy (Project.assignedSolverId project)
          then newest_first
                 (Prisma.task_findMany st
                    (fun t => Task.projectId t =? Project.id project))
          else [] in
        Sent (project, requests, tasks)
  end.

(** [where.projectId = { in: projects.map(p => p.id) }] for the projects
    selected by [w]. *)
Definition in_projects (st : Store) (w : Project.t -> bool)
    (projectId : string) : bool :=
  Js.includes (map Project.id (filter w (projects st))) projectId.

(** *** GET /api/tasks *)
Definition listTasks (st : Store) (u : ReqUser) : list Task.t :=
  let where_ (t : Task.t) :=
    if req_role u =? "buyer"
    then in_projects st (fun p => Project.buyerId p =? req_id u)
           (Task.projectId t)
    else if req_role u =? "problem_solver"
    then in_projects st
           (fun p => column_is (Project.assignedSolverId p) (req_id u))
           (Task.projectId t)
    else true in
  newest_first (filter where_ (tasks st)).

(** *** GET /api/tasks/project/:projectId *)
Definition tasksByProject (st : Store) (u : ReqUser) (projectId : string)
    : Reply (list Task.t) :=
  match Prisma.project_findUnique st projectId with
  | None => Refused (Json 404 "Project not found")
  | Some project =>
      if (req_role u =? "buyer")
         && negb (Project.buyerId project =? req_id u)
      then Refused (Json 403 "Not authorized")
      else if (req_role u =? "problem_solver")
              && Js.differs (Project.assignedSolverId project) (req_id u)
      then Refused (Json 403 "Not authorized")
      else
        Sent (newest_first
                (Prisma.task_findMany st
                   (fun t => Task.projectId t =? projectId)))
  end.

(** *** GET /api/tasks/:id *)
Definition getTask (st : Store) (u : ReqUser) (id : string)
    : Reply Task.t :=
  match Prisma.task_findUnique st id with
  | None => Refused (Json 404 "Task not found")
  | Some task => Sent task
  end.

(** *** GET /api/requests *)
Definition listRequests (st : Store) (u : ReqUser) : list Request.t :=
  let where_ (r : Request.t) :=
    if req_role u =? "buyer"
    then in_projects st (fun p => Project.buyerId p =? req_id u)
           (Request.projectId r)
    else if req_role u =? "problem_solver"
    then Request.solverId r =? req_id u
    else true in
  newest_first (filter where_ (requests st)).

(** *** GET /api/requests/project/:projectId *)
Definition requestsByProject (st : Store) (u : ReqUser)
    (projectId : string) : Reply (list Request.t) :=
  match Prisma.project_findUnique st projectId with
  | None => Refused (Json 404 "Project not found")
  | Some project =>
      if (req_role u =? "buyer")
         && negb (Project.buyerId project =? req_id u)
      then Refused (Json 403 "Not authorized")
      else
        Sent (newest_first
                (Prisma.request_findMany st
                   (fun r => Request.projectId r =? projectId)))
  end.

(** *** GET /api/users *)
Definition listUsers (st : Store) (u : ReqUser) : Reply (list User.t) :=
  if negb (authorize ["admin"] u) then Refused RoleDenied
  else Sent (newest_first (users st)).

(** *** GET /api/users/:id *)
Definition getUser (st : Store) (u : ReqUser) (id : string)
    : Reply User.t :=
  match Prisma.user_findUnique st id with
  | None => Refused (Json 404 "User not found")
  | Some user => Sent user
  end.

(** *** GET /api/submissions *)
Definition listSubmissions (st : Store) (u : ReqUser)
    : list Submission.t :=
  let where_ (b : Submission.t) :=
    if req_role u =? "buyer"
    then in_projects st (fun p => Project.buyerId p =? req_id u)
           (Submission.projectId b)
    else if req_role u =? "problem_solver"
    then Submission.solverId b =? req_id u
    else true in
  newest_first (filter where_ (submissions st)).

(** The two access tests shared by the task-scoped submission routes read
    [task.project] or [submission.project]; on a row whose project is
    missing the property access throws and the route answers 500. *)
Definition guarded (role : string) (u : ReqUser)
    (project : option Project.t) (denied : Project.t -> bool)
    : option Response :=
  if req_role u =? role then
    match project with
    | None => Some (Json 500 "Server error")
    | Some p => if denied p then Some (Json 403 "Not authorized") else None
    end
  else None.

(** *** GET /api/submissions/task/:taskId *)
Definition submissionByTask (st : Store) (u : ReqUser) (taskId : string)
    : Reply Submission.t :=
  match Prisma.task_findUnique st taskId with
  | None => Refused (Json 404 "Task not found")
  | Some task =>
      let project := Prisma.project_findUnique st (Task.projectId task) in
      match guarded "buyer" u project
              (fun p => negb (Project.buyerId p =? req_id u)) with
      | Some r => Refused r
      | None =>
          match guarded "problem_solver" u project
                  (fun p => Js.differs (Project.assignedSolverId p)
                                       (req_id u)) with
          | Some r => Refused r
          | None =>
              (* [prisma.submission.findUnique] is called with both
                 [select] and [include] under [include.task]: Prisma
                 refuses these arguments, the call throws, and neither
                 the 404 for a task without submission nor the answer
                 with the submission is reached. *)
              Refused (Json 500 "Server error")
          end
      end
  end.

(** *** GET /api/submissions/:id/download

    [on_disk] is [fs.existsSync]; the answer is the pair handed to
    [res.download]. *)
Definition download (on_disk : string -> bool) (st : Store) (u : ReqUser)
    (id : string) : Reply (string * string) :=
  match Prisma.submission_findUnique st id with
  | None => Refused (Json 404 "Submission not found")
  | Some submission =>
      let project :=
        Prisma.project_findUnique st (Submission.projectId submission) in
      match guarded "buyer" u project
              (fun p => negb (Project.buyerId p =? req_id u)) with
      | Some r => Refused r
      | None =>
          if (req_role u =? "problem_solver")
             && negb (Submission.solverId submission =? req_id u)
          then Refused (Json 403 "Not authorized")
          else if negb (on_disk (Submission.filePath submission))
          then Refused (Json 404 "File not found")
          else Sent (Submission.filePath submission,
                     Submission.fileName submission)
      end
  end.

(** ** What the handlers maintain beyond [wf] *)

Definition project_statuses : list string :=
  ["open"; "assigned"; "in_progress"; "completed"].
Definition request_statuses : list string :=
  ["pending"; "accepted"; "rejected"].
Definition task_statuses : list string :=
  ["pending"; "in_progress"; "submitted"; "completed"; "rejected"].
Definition submission_statuses : list string :=
  ["pending"; "accepted"; "rejected"].

Record sound (st : Store) : Prop := mkSound {
  sound_wf : wf st;
  (** [users_pkey], [requests_pkey], [tasks_pkey], [submissions_pkey] *)
  pk_users : NoDup (map User.id (users st));
  pk_requests : NoDup (map Request.id (requests st));
  pk_tasks : NoDup (map Task.id (tasks st));
  pk_submissions : NoDup (map Submission.id (submissions st));
  (** [requests_projectId_fkey] *)
  fk_request_project :
    forall r, In r (requests st) ->
      existsb (Project.key (Request.projectId r)) (projects st) = true;
  (** [tasks_projectId_fkey], and the project has a solver *)
  task_assigned :
    forall t, In t (tasks st) ->
      exists p, In p (projects st)
                /\ Project.id p = Task.projectId t
                /\ Project.assignedSolverId p <> None;
  (** a submission is filed under the project of its task *)
  submission_project :
    forall b, In b (submissions st) ->
      exists t, In t (tasks st)
                /\ Task.id t = Submission.taskId b
                /\ Task.projectId t = Submission.projectId b;
  (** an accepted request is the request of the project's solver *)
  accepted_assigned :
    forall r, In r (requests st) -> Request.status r = "accepted" ->
      exists p, In p (projects st)
                /\ Project.id p = Request.projectId r
                /\ Project.assignedSolverId p = Some (Request.solverId r);
  (** work has started only where there is a task *)
  started_has_task :
    forall p, In p (projects st) ->
      Project.status p = "in_progress" \/ Project.status p = "completed" ->
      exists t, In t (tasks st) /\ Task.projectId t = Project.id p;
  (** the status columns hold the documented values *)
  project_status_ok :
    forall p, In p (projects st) -> In (Project.status p) project_statuses;
  request_status_ok :
    forall r, In r (requests st) -> In (Request.status r) request_statuses;
  task_status_ok :
    forall t, In t (tasks st) -> In (Task.status t) task_statuses;
  submission_status_ok :
    forall b, In b (submissions st) ->
      In (Submission.status b) submission_statuses;
  (** the solver of a project is never the empty identifier *)
  solver_named :
    forall p, In p (projects st) -> Project.assignedSolverId p <> Some ""
}.

(** ** How a table may differ after a run *)

(** Every row of [l] is still there, in its place and related by [R] to
    what it was; rows may have been appended. *)
Definition grown (A : Type) (R : A -> A -> Prop) (l l' : list A) : Prop :=
  exists kept added, l' = kept ++ added /\ Forall2 R l kept.

Definition project_step (p p' : Project.t) : Prop :=
  Project.id p' = Project.id p
  /\ Project.buyerId p' = Project.buyerId p
  /\ Project.title p' = Project.title p
  /\ Project.description p' = Project.description p
  /\ Project.deadline p' = Project.deadline p
  /\ (Project.assignedSolverId p <> None ->
      Project.assignedSolverId p' <> None)
  /\ (Project.status p' = "open" -> Project.status p = "open").

Definition request_step (r r' : Request.t) : Prop :=
  Request.id r' = Request.id r
  /\ Request.projectId r' = Request.projectId r
  /\ Request.solverId r' = Request.solverId r
  /\ Request.message r' = Request.message r
  /\ (Request.status r' = "pending" -> Request.status r = "pending").

Definition task_step (t t' : Task.t) : Prop :=
  Task.id t' = Task.id t
  /\ Task.projectId t' = Task.projectId t
  /\ Task.userId t' = Task.userId t.

Definition submission_step (b b' : Submission.t) : Prop :=
  Submission.id b' = Submission.id b
  /\ Submission.taskId b' = Submission.taskId b
  /\ Submission.projectId b' = Submission.projectId b
  /\ Submission.solverId b' = Submission.solverId b.

(** What a run keeps of the four tables. *)
Definition kept (st st' : Store) : Prop :=
  grown project_step (projects st) (projects st')
  /\ grown request_step (requests st) (requests st')
  /\ grown task_step (tasks st) (tasks st')
  /\ grown submission_step (submissions st) (submissions st').

(** * Properties *)

(** ** Rows rewritten in place *)

Section Rows.

Variable A : Type.
Variables (w k : A -> bool) (f : A -> A).

Lemma rewrite_rows_column (B : Type) (g : A -> B) (l : list A) :
  (forall x, g (f x) = g x) ->
  map g (Prisma.rewrite_rows w f l) = map g l.
Proof.
  intros Hg. unfold Prisma.rewrite_rows. rewrite map_map.
  apply map_ext. intros x. destruct (w x); auto.
Qed.

Lemma rewrite_rows_in (l : list A) (y : A) :
  In y (Prisma.rewrite_rows w f l) ->
  exists x, In x l /\ y = (if w x then f x else x).
Proof.
  unfold Prisma.rewrite_rows. rewrite in_map_iff.
  intros (x & Hx & Hin). exists x. auto.
Qed.

Lemma rewrite_rows_intro (l : list A) (x : A) :
  In x l -> In (if w x then f x else x) (Prisma.rewrite_rows w f l).
Proof.
  intros Hin. unfold Prisma.rewrite_rows.
  apply in_map with (f := fun x => if w x then f x else x). exact Hin.
Qed.

Hypothesis k_stable : forall x, k (f x) = k x.

Lemma rewrite_rows_find (l : list A) :
  find k (Prisma.rewrite_rows w f l)
  = option_map (fun x => if w x then f x else x) (find k l).
Proof.
  induction l as [|x l IH]; simpl; [reflexivity|].
  destruct (w x) eqn:Hw.
  - rewrite k_stable. destruct (k x); simpl; [now rewrite Hw | exact IH].
  - destruct (k x); simpl; [now rewrite Hw | exact IH].
Qed.

Lemma rewrite_rows_existsb (l : list A) :
  existsb k (Prisma.rewrite_rows w f l) = existsb k l.
Proof.
  induction l as [|x l IH]; simpl; [reflexivity|].
  rewrite IH. destruct (w x); [rewrite k_stable|]; reflexivity.
Qed.

Lemma rewrite_rows_filter (l : list A) :
  filter k (Prisma.rewrite_rows w f l)
  = Prisma.rewrite_rows w f (filter k l).
Proof.
  induction l as [|x l IH]; simpl; [reflexivity|].
  destruct (w x) eqn:Hw.
  - rewrite k_stable. destruct (k x); simpl; rewrite ?Hw, IH; reflexivity.
  - destruct (k x); simpl; rewrite ?Hw, IH; reflexivity.
Qed.

End Rows.

Lemma find_existsb (A : Type) (k : A -> bool) (l : list A) :
  existsb k l = match find k l with Some _ => true | None => false end.
Proof.
  induction l as [|x l IH]; simpl; [reflexivity|].
  destruct (k x); simpl; auto.
Qed.

Lemma find_in (A : Type) (k : A -> bool) (l : list A) (x : A) :
  find k l = Some x -> In x l /\ k x = true.
Proof. apply find_some. Qed.

(** Under a unique index a row is the one [findUnique] returns. *)
Lemma find_unique (A : Type) (g : A -> string) (l : list A) (x : A) :
  NoDup (map g l) -> In x l ->
  find (fun y => g y =? g x) l = Some x.
Proof.
  induction l as [|y l IH]; simpl; intros Hnd Hin; [contradiction|].
  inversion Hnd as [|? ? Hnotin Hnd']; subst.
  destruct Hin as [-> | Hin].
  - now rewrite String.eqb_refl.
  - destruct (g y =? g x) eqn:E.
    + apply String.eqb_eq in E. exfalso. apply Hnotin. rewrite E.
      now apply in_map.
    + auto.
Qed.

Lemma existsb_app_l (A : Type) (k : A -> bool) (l l' : list A) :
  existsb k l = true -> existsb k (l ++ l') = true.
Proof. intros H. rewrite existsb_app, H. reflexivity. Qed.

Lemma existsb_false_notin (A : Type) (g : A -> string) (l : list A)
    (i : string) :
  existsb (fun y => g y =? i) l = false -> ~ In i (map g l).
Proof.
  intros H Hin. apply in_map_iff in Hin. destruct Hin as (y & Hy & Hin).
  assert (existsb (fun y => g y =? i) l = true) as H'.
  { apply existsb_exists. exists y. split; [exact Hin|].
    now apply String.eqb_eq. }
  congruence.
Qed.

Lemma NoDup_snoc (B : Type) (l : list B) (x : B) :
  NoDup l -> ~ In x l -> NoDup (l ++ [x]).
Proof.
  intros Hnd Hx. apply NoDup_app; [exact Hnd | repeat constructor; auto |].
  intros y Hy [<- | []]. contradiction.
Qed.

(** ** The Prisma calls keep the store well formed *)

Lemma existsb_column (A : Type) (g : A -> string) (i : string)
    (l : list A) :
  existsb (fun x => g x =? i) l = existsb (fun s => s =? i) (map g l).
Proof.
  induction l as [|x l IH]; simpl; [reflexivity | now rewrite IH].
Qed.

Lemma user_exists_ids (st st' : Store) :
  map User.id (users st') = map User.id (users st) ->
  forall i, Prisma.user_exists st' i = Prisma.user_exists st i.
Proof.
  unfold Prisma.user_exists, User.key. intros H i.
  rewrite (existsb_column User.id i (users st')).
  rewrite (existsb_column User.id i (users st)). now rewrite H.
Qed.

Lemma fk_user_ids (st st' : Store) :
  map User.id (users st') = map User.id (users st) ->
  forall v, Prisma.fk_user st' v = Prisma.fk_user st v.
Proof.
  intros H [i|]; simpl; [now apply user_exists_ids | reflexivity].
Qed.

Lemma user_update_wf (st st' : Store) (i : string) (f : User.t -> User.t) :
  (forall x, User.id (f x) = User.id x) ->
  Prisma.user_update st i f = inl st' -> wf st -> wf st'.
Proof.
  unfold Prisma.user_update. intros Hf H W.
  destruct (Prisma.user_findUnique st i); [|discriminate].
  injection H as <-. destruct W. constructor; simpl; auto.
  intros p Hp. rewrite fk_user_ids with (st := st); auto.
  simpl. now apply rewrite_rows_column.
Qed.

Lemma project_create_wf (st st' : Store) (p : Project.t) :
  Project.assignedSolverId p = None -> Project.status p = "open" ->
  Prisma.project_create st p = inl st' -> wf st -> wf st'.
Proof.
  unfold Prisma.project_create. intros Hs Ho H W.
  destruct (existsb _ (projects st)) eqn:Hpk; [discriminate|].
  destruct (negb _); [discriminate|]. injection H as <-.
  destruct W. constructor; simpl; auto.
  - rewrite map_app. simpl. apply NoDup_snoc; [assumption|].
    now apply existsb_false_notin.
  - intros q Hq. apply in_app_or in Hq. destruct Hq as [Hq | [<- | []]].
    + rewrite fk_user_ids with (st := st); auto.
    + rewrite Hs. reflexivity.
  - intros b Hb. destruct (submitted_assigned0 b Hb) as (q & Hq & Hid & Ha).
    exists q. split; [apply in_or_app; now left | auto].
  - intros q Hq. apply in_app_or in Hq. destruct Hq as [Hq | [<- | []]].
    + auto.
    + rewrite Hs, Ho. tauto.
Qed.

Lemma project_update_wf (st st' : Store) (i : string)
    (f : Project.t -> Project.t) :
  (forall p, Project.id (f p) = Project.id p) ->
  (forall p, In p (projects st) ->
     Project.assignedSolverId p <> None ->
     Project.assignedSolverId (f p) <> None) ->
  (forall p, In p (projects st) -> Project.id p = i ->
     (Project.status (f p) = "open"
      <-> Project.assignedSolverId (f p) = None)) ->
  Prisma.project_update st i f = inl st' -> wf st -> wf st'.
Proof.
  unfold Prisma.project_update, Prisma.project_findUnique.
  intros Hid Hkeep Hnew H W.
  destruct (find (Project.key i) (projects st)) as [p0|] eqn:Hfind;
    [|discriminate].
  destruct (negb _) eqn:Hfk; [discriminate|]. injection H as <-.
  apply negb_false_iff in Hfk.
  apply find_in in Hfind. destruct Hfind as [Hin0 Hk0].
  unfold Project.key in Hk0. apply String.eqb_eq in Hk0.
  destruct W. constructor; simpl; auto.
  - now rewrite rewrite_rows_column.
  - intros q Hq. apply rewrite_rows_in in Hq.
    destruct Hq as (p & Hp & ->).
    change (Prisma.fk_user (set_projects
              (Prisma.rewrite_rows (Project.key i) f (projects st)) st))
      with (Prisma.fk_user st).
    destruct (Project.key i p) eqn:Hk; [|auto].
    unfold Project.key in Hk. apply String.eqb_eq in Hk.
    assert (p = p0) as ->.
    { pose proof (@find_unique _ Project.id _ _ pk_projects0 Hp) as F1.
      pose proof (@find_unique _ Project.id _ _ pk_projects0 Hin0) as F2.
      rewrite Hk in F1. rewrite Hk0 in F2. congruence. }
    apply orb_true_iff in Hfk. destruct Hfk as [Hsame | Hfk]; [|exact Hfk].
    specialize (fk_solver0 p0 Hin0).
    destruct (Project.assignedSolverId (f p0)) as [a|],
             (Project.assignedSolverId p0) as [a0|];
      simpl in *; try discriminate; auto.
    apply String.eqb_eq in Hsame. now subst.
  - intros b Hb. destruct (submitted_assigned0 b Hb) as (q & Hq & Hqid & Ha).
    exists (if Project.key i q then f q else q). split; [|split].
    + now apply rewrite_rows_intro.
    + destruct (Project.key i q); [rewrite Hid|]; exact Hqid.
    + destruct (Project.key i q); [apply Hkeep|]; assumption.
  - intros q Hq. apply rewrite_rows_in in Hq.
    destruct Hq as (p & Hp & ->).
    destruct (Project.key i p) eqn:Hk; [|auto].
    unfold Project.key in Hk. apply String.eqb_eq in Hk. auto.
Qed.

Lemma request_create_wf (st st' : Store) (r : Request.t) :
  Prisma.request_create st r = inl st' -> wf st -> wf st'.
Proof.
  unfold Prisma.request_create. intros H W.
  destruct (_ || _) eqn:Huq; [discriminate|].
  destruct (negb _); [discriminate|]. injection H as <-.
  apply orb_false_iff in Huq. destruct Huq as [_ Huq].
  destruct W. constructor; simpl; auto.
  rewrite map_app. simpl. apply NoDup_snoc; [assumption|].
  intros Hin. apply in_map_iff in Hin. destruct Hin as (y & Hy & Hin).
  injection Hy as Hp Hs.
  assert (existsb (Request.pair_key (Request.projectId r)
                     (Request.solverId r)) (requests st) = true) as E.
  { apply existsb_exists. exists y. split; [exact Hin|].
    unfold Request.pair_key. rewrite Hp, Hs, !String.eqb_refl.
    reflexivity. }
  congruence.
Qed.

Lemma request_updateMany_wf (st : Store) (w : Request.t -> bool)
    (s : string) :
  wf st -> wf (Prisma.request_updateMany st w (Request.with_status s)).
Proof.
  intros W. destruct W. constructor; simpl; auto.
  now rewrite rewrite_rows_column.
Qed.

Lemma task_create_wf (st st' : Store) (k : Task.t) :
  Prisma.task_create st k = inl st' -> wf st -> wf st'.
Proof.
  unfold Prisma.task_create. intros H W.
  destruct (existsb _ (tasks st)); [discriminate|].
  destruct (negb _); [discriminate|]. injection H as <-.
  destruct W. constructor; simpl; auto.
  intros b Hb. apply existsb_app_l. auto.
Qed.

Lemma task_update_wf (st st' : Store) (i : string) (f : Task.t -> Task.t) :
  (forall k, Task.id (f k) = Task.id k) ->
  Prisma.task_update st i f = inl st' -> wf st -> wf st'.
Proof.
  unfold Prisma.task_update. intros Hid H W.
  destruct (Prisma.task_findUnique st i); [|discriminate].
  injection H as <-. destruct W. constructor; simpl; auto.
  intros b Hb. rewrite rewrite_rows_existsb; auto.
  intros x. unfold Task.key. now rewrite Hid.
Qed.

Lemma submission_create_wf (st st' : Store) (b : Submission.t) :
  (exists p, In p (projects st)
             /\ Project.id p = Submission.projectId b
             /\ Project.assignedSolverId p <> None) ->
  Prisma.submission_create st b = inl st' -> wf st -> wf st'.
Proof.
  unfold Prisma.submission_create. intros Hp H W.
  destruct (_ || _) eqn:Huq; [discriminate|].
  destruct (negb _) eqn:Hfk; [discriminate|]. injection H as <-.
  apply orb_false_iff in Huq. destruct Huq as [_ Huq].
  apply negb_false_iff in Hfk. apply andb_true_iff in Hfk.
  destruct Hfk as [Hfk _]. apply andb_true_iff in Hfk.
  destruct Hfk as [Hfk _].
  destruct W. constructor; simpl; auto.
  - rewrite map_app. simpl. apply NoDup_snoc; [assumption|].
    now apply existsb_false_notin.
  - intros c Hc. apply in_app_or in Hc.
    destruct Hc as [Hc | [<- | []]]; auto.
  - intros c Hc. apply in_app_or in Hc.
    destruct Hc as [Hc | [<- | []]]; auto.
Qed.

Lemma submission_rewrite_wf (st : Store) (w : Submission.t -> bool)
    (f : Submission.t -> Submission.t) :
  (forall b, Submission.taskId (f b) = Submission.taskId b) ->
  (forall b, Submission.projectId (f b) = Submission.projectId b) ->
  wf st ->
  wf (set_submissions (Prisma.rewrite_rows w f (submissions st)) st).
Proof.
  intros Ht Hp W. destruct W. constructor; simpl; auto.
  - now rewrite rewrite_rows_column.
  - intros c Hc. apply rewrite_rows_in in Hc. destruct Hc as (b & Hb & ->).
    destruct (w b); [rewrite Ht|]; auto.
  - intros c Hc. apply rewrite_rows_in in Hc. destruct Hc as (b & Hb & ->).
    destruct (w b); [rewrite Hp|]; auto.
Qed.

Lemma submission_update_wf (st st' : Store) (i : string)
    (f : Submission.t -> Submission.t) :
  (forall b, Submission.taskId (f b) = Submission.taskId b) ->
  (forall b, Submission.projectId (f b) = Submission.projectId b) ->
  Prisma.submission_update st i f = inl st' -> wf st -> wf st'.
Proof.
  unfold Prisma.submission_update. intros Ht Hp H W.
  destruct (Prisma.submission_findUnique st i); [|discriminate].
  injection H as <-. now apply submission_rewrite_wf.
Qed.

Lemma submission_update_taskId_wf (st st' : Store) (i : string)
    (f : Submission.t -> Submission.t) :
  (forall b, Submission.taskId (f b) = Submission.taskId b) ->
  (forall b, Submission.projectId (f b) = Submission.projectId b) ->
  Prisma.submission_update_taskId st i f = inl st' -> wf st -> wf st'.
Proof.
  unfold Prisma.submission_update_taskId. intros Ht Hp H W.
  destruct (Prisma.submission_findUnique_taskId st i); [|discriminate].
  injection H as <-. now apply submission_rewrite_wf.
Qed.

(** What a successful call wrote. *)

Lemma project_update_inl (st st' : Store) (i : string)
    (f : Project.t -> Project.t) :
  Prisma.project_update st i f = inl st' ->
  st' = set_projects (Prisma.rewrite_rows (Project.key i) f (projects st)) st.
Proof.
  unfold Prisma.project_update. intros H.
  destruct (Prisma.project_findUnique st i); [|discriminate].
  destruct (negb _); [discriminate|]. now injection H as <-.
Qed.

Lemma task_create_inl (st st' : Store) (k : Task.t) :
  Prisma.task_create st k = inl st' -> st' = set_tasks (tasks st ++ [k]) st.
Proof.
  unfold Prisma.task_create. intros H.
  destruct (existsb _ (tasks st)); [discriminate|].
  destruct (negb _); [discriminate|]. now injection H as <-.
Qed.

Lemma task_update_inl (st st' : Store) (i : string) (f : Task.t -> Task.t) :
  Prisma.task_update st i f = inl st' ->
  st' = set_tasks (Prisma.rewrite_rows (Task.key i) f (tasks st)) st.
Proof.
  unfold Prisma.task_update. intros H.
  destruct (Prisma.task_findUnique st i); [|discriminate].
  now injection H as <-.
Qed.

Lemma submission_create_inl (st st' : Store) (b : Submission.t) :
  Prisma.submission_create st b = inl st' ->
  st' = set_submissions (submissions st ++ [b]) st.
Proof.
  unfold Prisma.submission_create. intros H.
  destruct (_ || _); [discriminate|].
  destruct (negb _); [discriminate|]. now injection H as <-.
Qed.

Lemma submission_update_inl (st st' : Store) (i : string)
    (f : Submission.t -> Submission.t) :
  Prisma.submission_update st i f = inl st' ->
  st' = set_submissions
          (Prisma.rewrite_rows (Submission.key i) f (submissions st)) st.
Proof.
  unfold Prisma.submission_update. intros H.
  destruct (Prisma.submission_findUnique st i); [|discriminate].
  now injection H as <-.
Qed.

Lemma submission_update_taskId_inl (st st' : Store) (i : string)
    (f : Submission.t -> Submission.t) :
  Prisma.submission_update_taskId st i f = inl st' ->
  st' = set_submissions
          (Prisma.rewrite_rows (Submission.task_key i) f (submissions st))
          st.
Proof.
  unfold Prisma.submission_update_taskId. intros H.
  destruct (Prisma.submission_findUnique_taskId st i); [|discriminate].
  now injection H as <-.
Qed.

Lemma request_create_inl (st st' : Store) (r : Request.t) :
  Prisma.request_create st r = inl st' ->
  st' = set_requests (requests st ++ [r]) st.
Proof.
  unfold Prisma.request_create. intros H.
  destruct (_ || _); [discriminate|].
  destruct (negb _); [discriminate|]. now injection H as <-.
Qed.

Lemma user_update_inl (st st' : Store) (i : string) (f : User.t -> User.t) :
  Prisma.user_update st i f = inl st' ->
  st' = set_users (Prisma.rewrite_rows (User.key i) f (users st)) st.
Proof.
  unfold Prisma.user_update. intros H.
  destruct (Prisma.user_findUnique st i); [|discriminate].
  now injection H as <-.
Qed.

(** Two rows of a table with the same primary key are one row. *)
Lemma pk_same_row (st : Store) (p q : Project.t) :
  wf st -> In p (projects st) -> In q (projects st) ->
  Project.id p = Project.id q -> p = q.
Proof.
  intros W Hp Hq E.
  pose proof (@find_unique _ Project.id _ _ (pk_projects W) Hp) as F1.
  pose proof (@find_unique _ Project.id _ _ (pk_projects W) Hq) as F2.
  rewrite E in F1. congruence.
Qed.

Lemma project_found (st : Store) (i : string) (p : Project.t) :
  Prisma.project_findUnique st i = Some p ->
  In p (projects st) /\ Project.id p = i.
Proof.
  intros H. apply find_in in H. destruct H as [Hin Hk]. split; [exact Hin|].
  now apply String.eqb_eq.
Qed.

(** ** Every handler keeps the store well formed *)

(** Case analysis on the next test of a handler. *)
Ltac next_case :=
  match goal with
  | |- context [if ?c then _ else _] => destruct c eqn:?
  | |- context [match ?x with _ => _ end] => destruct x eqn:?
  end.

Section Preservation.

Variable trim : string -> string.
Variable parse_date : string -> option Z.

Lemma createProject_wf st u b newId :
  wf st -> wf (snd (createProject trim parse_date st u b newId)).
Proof.
  intros W. unfold createProject, server_error.
  repeat next_case; simpl; auto;
    eapply project_create_wf; eauto; reflexivity.
Qed.

Lemma assignSolver_wf st u id solverId :
  wf st -> wf (snd (assignSolver st u id solverId)).
Proof.
  intros W. unfold assignSolver, server_error.
  repeat next_case; simpl; auto.
  do 2 apply request_updateMany_wf.
  eapply project_update_wf; eauto; simpl; try discriminate;
    [reflexivity | intros; split; discriminate].
Qed.

Lemma createSubmission_wf st u file taskId message newId :
  wf st -> wf (snd (createSubmission st u file taskId message newId)).
Proof.
  intros W. unfold createSubmission, server_error.
  repeat next_case; simpl; auto;
    repeat match goal with
           | H : Prisma.task_update ?a _ _ = inl ?b |- wf ?b =>
               refine (@task_update_wf a b _ _ _ H _); [reflexivity|]
           | H : Prisma.submission_update_taskId ?a _ _ = inl ?b
             |- wf ?b =>
               refine (@submission_update_taskId_wf a b _ _ _ _ H W);
               reflexivity
           | H : Prisma.submission_create ?a _ = inl ?b |- wf ?b =>
               refine (@submission_create_wf a b _ _ H W)
           end;
    match goal with
    | H : Prisma.project_findUnique _ _ = Some ?p |- _ =>
        apply project_found in H; destruct H as [Hin Hid]; exists p
    end;
    simpl; repeat split; auto;
    match goal with
    | H : Js.differs ?a _ = false |- _ => destruct a; [discriminate|]
    end;
    discriminate.
Qed.

Lemma reviewSubmission_wf st u id status now :
  wf st -> wf (snd (reviewSubmission st u id status now)).
Proof.
  intros W. unfold reviewSubmission, server_error.
  assert (forall s st1,
            Prisma.submission_update st id (Submission.review s now)
            = inl st1 -> wf st1) as W1.
  { intros s st1 H.
    eapply submission_update_wf; eauto; reflexivity. }
  assert (forall s i st1 st2, wf st1 ->
            Prisma.task_update st1 i (Task.with_status s) = inl st2 ->
            wf st2) as W2.
  { intros s i st1 st2 Hst1 H.
    eapply task_update_wf; eauto; reflexivity. }
  repeat next_case; simpl; eauto.
  match goal with
  | H : Prisma.project_update ?st2 _ _ = inl _ |- _ =>
      assert (wf st2) as Wst2 by eauto;
      assert (projects st2 = projects st /\ submissions st2
              = Prisma.rewrite_rows (Submission.key id)
                  (Submission.review (field status) now) (submissions st))
        as [Hpr Hsu]
  end.
  { repeat match goal with
           | H : Prisma.task_update _ _ _ = inl _ |- _ =>
               apply task_update_inl in H
           | H : Prisma.submission_update _ _ _ = inl _ |- _ =>
               apply submission_update_inl in H
           end.
    subst. split; reflexivity. }
  eapply project_update_wf; eauto; simpl; try reflexivity; auto.
  intros p Hp Hid. split; [discriminate|]. intros Hnone. exfalso.
  match goal with
  | H : Prisma.submission_findUnique st id = Some ?b |- _ =>
      apply find_in in H; destruct H as [Hb _];
      destruct (submitted_assigned W b Hb) as (q & Hq & Hqid & Ha)
  end.
  rewrite Hpr in Hp.
  assert (p = q) by (eapply pk_same_row; eauto; congruence).
  subst. contradiction.
Qed.

Lemma createTask_wf st u b newId :
  wf st -> wf (snd (createTask trim parse_date st u b newId)).
Proof.
  intros W. unfold createTask, server_error.
  repeat next_case; simpl; auto;
    try (eapply task_create_wf; now eauto).
  match goal with
  | H : Prisma.task_create st _ = inl ?st1 |- _ =>
      assert (wf st1) as W1 by (eapply task_create_wf; eauto);
      apply task_create_inl in H
  end.
  eapply project_update_wf; eauto; simpl; try reflexivity; auto.
  intros p Hp Hid. split; [discriminate|]. intros Hnone. exfalso.
  subst. simpl in Hp.
  match goal with
  | H : Prisma.project_findUnique st _ = Some ?q |- _ =>
      apply project_found in H; destruct H as [Hq Hqid];
      assert (p = q) by (eapply pk_same_row; eauto; congruence)
  end.
  subst.
  match goal with
  | H : negb (Js.truthy _) = false |- _ => rewrite Hnone in H
  end.
  discriminate.
Qed.

Lemma updateTask_wf st u id b :
  wf st -> wf (snd (updateTask parse_date st u id b)).
Proof.
  intros W. unfold updateTask, server_error.
  repeat next_case; simpl; auto;
    eapply task_update_wf; eauto; reflexivity.
Qed.

Lemma createRequest_wf st u projectId message newId :
  wf st -> wf (snd (createRequest st u projectId message newId)).
Proof.
  intros W. unfold createRequest, createRequest_at, server_error.
  repeat next_case; simpl; auto.
  eapply request_create_wf; eauto.
Qed.

Lemma assignBuyer_wf st u id :
  wf st -> wf (snd (assignBuyer st u id)).
Proof.
  intros W. unfold assignBuyer, server_error.
  repeat next_case; simpl; auto.
  eapply user_update_wf; eauto; reflexivity.
Qed.

Lemma updateProfile_wf st u b :
  wf st -> wf (snd (updateProfile trim st u b)).
Proof.
  intros W. unfold updateProfile, server_error.
  repeat next_case; simpl; auto.
  eapply user_update_wf; eauto; reflexivity.
Qed.

Lemma step_wf st a :
  wf st -> wf (step trim parse_date st a).
Proof.
  intros W. unfold step, handle. destruct a.
  - now apply createProject_wf.
  - now apply assignSolver_wf.
  - now apply createSubmission_wf.
  - now apply reviewSubmission_wf.
  - now apply createTask_wf.
  - now apply updateTask_wf.
  - now apply createRequest_wf.
  - now apply assignBuyer_wf.
  - now apply updateProfile_wf.
Qed.

Lemma initial_wf st : initial st -> wf st.
Proof.
  intros (_ & Hp & Hr & Ht & Hs).
  constructor; rewrite ?Hp, ?Hr, ?Hs; simpl;
    first [apply NoDup_nil | intros ? []].
Qed.

Lemma reachable_wf st : reachable trim parse_date st -> wf st.
Proof.
  induction 1 as [st Hi | st a _ IH].
  - now apply initial_wf.
  - now apply step_wf.
Qed.

End Preservation.

Lemma reachable_run trim parse_date st l :
  reachable trim parse_date st ->
  reachable trim parse_date (run trim parse_date st l).
Proof.
  revert st. induction l as [|a l IH]; simpl; intros st H; [exact H|].
  apply IH. now apply reach_step.
Qed.

Lemma demo_initial : initial Demo.st0.
Proof.
  unfold initial. simpl. repeat split; auto.
  repeat constructor; simpl; intuition discriminate.
Qed.

Lemma demo_reachable l : reachable Demo.trim Demo.parse_date (Demo.after l).
Proof. apply reachable_run, reach_initial, demo_initial. Qed.

Lemma demo_wf l : wf (Demo.after l).
Proof. eapply reachable_wf, demo_reachable. Qed.

(** ** Project status and assignment *)

(** C2: in every store reachable from the registered users by any sequence
    of requests to the writing routes (project creation, assignment, task
    creation and update, submission, review, requests, role and profile
    updates), a project has status open if and only if its
    [assignedSolverId] is unset. *)
Theorem C2_open_iff_unassigned trim parse_date st :
  reachable trim parse_date st ->
  forall p, In p (projects st) ->
    (Project.status p = "open" <-> Project.assignedSolverId p = None).
Proof.
  intros R p Hp. exact (open_unassigned (reachable_wf R) p Hp).
Qed.

Lemma C2_open_iff_unassigned_witness :
  reachable Demo.trim Demo.parse_date Demo.st_assigned
  /\ In (Demo.p1 (Some "solver1") "assigned") (projects Demo.st_assigned)
  /\ (Project.status (Demo.p1 (Some "solver1") "assigned") = "open"
      <-> Project.assignedSolverId (Demo.p1 (Some "solver1") "assigned")
          = None).
Proof.
  assert (reachable Demo.trim Demo.parse_date Demo.st_assigned) as R
    by exact (demo_reachable Demo.assigning).
  assert (In (Demo.p1 (Some "solver1") "assigned")
             (projects Demo.st_assigned)) as Hin
    by (left; reflexivity).
  split; [exact R | split; [exact Hin|]].
  exact (C2_open_iff_unassigned R _ Hin).
Defined.

(** What the assign route asks for: the buyer role, a solver id in the
    body, a project of the caller, and a solver id that is a user.  The
    status of the project and the requests it has are not read. *)
Lemma assignSolver_checks_ownership_only st u id solver p :
  authorize ["buyer"] u = true ->
  solver <> "" ->
  Prisma.project_findUnique st id = Some p ->
  Project.buyerId p = req_id u ->
  Prisma.user_exists st solver = true ->
  fst (assignSolver st u id (Some solver))
  = Json 200 "Project assigned successfully"
  /\ Prisma.project_findUnique (snd (assignSolver st u id (Some solver))) id
     = Some (Project.assign solver p).
Proof.
  intros Ha Hs Hp Ho Hu. unfold assignSolver.
  apply String.eqb_neq in Hs.
  rewrite Ha, Hp, Ho, String.eqb_refl. simpl Validator.notEmpty.
  rewrite Hs. cbn [negb field].
  unfold Prisma.project_update. rewrite Hp.
  cbn [Project.assign Project.assignedSolverId Prisma.fk_user].
  rewrite Hu, orb_true_r. cbn [negb fst snd]. split; [reflexivity|].
  unfold Prisma.project_findUnique, Prisma.request_updateMany.
  cbn [projects set_projects set_requests].
  rewrite rewrite_rows_find by reflexivity.
  fold (Prisma.project_findUnique st id). rewrite Hp. simpl.
  apply project_found in Hp. destruct Hp as [_ Hid].
  unfold Project.key. rewrite Hid, String.eqb_refl. reflexivity.
Qed.

(** C1, at an input where the claim fails.  The project is in progress
    with solver1 assigned, and solver3 never sent a request: the route
    answers 200, hands the project to solver3, puts its status back to
    assigned and rejects the request it had accepted. *)
Theorem C1_assign_on_in_progress_project :
  Prisma.project_findUnique Demo.st_planned "p1"
  = Some (Demo.p1 (Some "solver1") "in_progress")
  /\ Prisma.request_findUnique_projectId_solverId Demo.st_planned "p1"
       "solver3" = None
  /\ requests Demo.st_planned
     = [Demo.r1 "accepted"; Demo.r2 "rejected"]
  /\ assignSolver Demo.st_planned Demo.buyer1 "p1" (Some "solver3")
     = (Json 200 "Project assigned successfully",
        set_requests [Demo.r1 "rejected"; Demo.r2 "rejected"]
          (set_projects [Demo.p1 (Some "solver3") "assigned"]
             Demo.st_planned)).
Proof. repeat split; reflexivity. Qed.

(** ** Roles *)

Lemma project_create_inl (st st' : Store) (p : Project.t) :
  Prisma.project_create st p = inl st' ->
  st' = set_projects (projects st ++ [p]) st.
Proof.
  unfold Prisma.project_create. intros H.
  destruct (existsb _ (projects st)); [discriminate|].
  destruct (negb _); [discriminate|]. now injection H as <-.
Qed.

(** Replace every store a successful Prisma call returned by what the call
    wrote. *)
Ltac written :=
  repeat match goal with
         | H : Prisma.project_create _ _ = inl _ |- _ =>
             apply project_create_inl in H; subst
         | H : Prisma.project_update _ _ _ = inl _ |- _ =>
             apply project_update_inl in H; subst
         | H : Prisma.request_create _ _ = inl _ |- _ =>
             apply request_create_inl in H; subst
         | H : Prisma.task_create _ _ = inl _ |- _ =>
             apply task_create_inl in H; subst
         | H : Prisma.task_update _ _ _ = inl _ |- _ =>
             apply task_update_inl in H; subst
         | H : Prisma.submission_create _ _ = inl _ |- _ =>
             apply submission_create_inl in H; subst
         | H : Prisma.submission_update _ _ _ = inl _ |- _ =>
             apply submission_update_inl in H; subst
         | H : Prisma.submission_update_taskId _ _ _ = inl _ |- _ =>
             apply submission_update_taskId_inl in H; subst
         | H : Prisma.user_update _ _ _ = inl _ |- _ =>
             apply user_update_inl in H; subst
         end.

Lemma role_step_refl (l : list User.t) : Forall2 role_step l l.
Proof.
  induction l; constructor; auto. split; auto.
Qed.

Lemma role_step_trans (l1 l2 l3 : list User.t) :
  Forall2 role_step l1 l2 -> Forall2 role_step l2 l3 ->
  Forall2 role_step l1 l3.
Proof.
  intros H. revert l3. induction H as [|x y l1 l2 [Hid Hr] _ IH];
    intros l3 H23; inversion H23 as [|? z ? l3' [Hid' Hr'] H']; subst;
    constructor; auto.
  split; [congruence|]. destruct Hr' as [E | E]; [rewrite E|]; auto.
Qed.

Lemma role_step_rewrite (w : User.t -> bool) (f : User.t -> User.t)
    (l : list User.t) :
  (forall x, role_step x (f x)) ->
  Forall2 role_step l (Prisma.rewrite_rows w f l).
Proof.
  intros Hf. induction l as [|x l IH]; simpl; constructor; auto.
  destruct (w x); [apply Hf | split; auto].
Qed.

Lemma step_roles trim parse_date st a :
  Forall2 role_step (users st) (users (step trim parse_date st a)).
Proof.
  unfold step, handle.
  destruct a; cbv beta iota zeta delta
    [createProject assignSolver createSubmission reviewSubmission
     createTask updateTask createRequest createRequest_at assignBuyer
     updateProfile
     server_error];
    repeat next_case; written; simpl; try apply role_step_refl;
    apply role_step_rewrite; intros x; split; simpl; auto.
Qed.

(** C9, as the code has it: over every sequence of requests, each user
    keeps its identifier and has either the role it started with or the
    role buyer.  A role is never changed to problem_solver or to admin, so
    no buyer goes back to problem_solver; admin to buyer is possible, and
    the route does not look at whose account it changes. *)
Theorem C9_roles_only_become_buyer trim parse_date st l :
  Forall2 role_step (users st) (users (run trim parse_date st l)).
Proof.
  revert st. induction l as [|a l IH]; intros st; simpl.
  - apply role_step_refl.
  - eapply role_step_trans; [apply step_roles | apply IH].
Qed.

(** C9 fails as stated: the admin calls assign-buyer on its own account,
    the route answers 200, and the admin is a buyer afterwards. *)
Lemma C9_admin_promotes_itself :
  Prisma.user_findUnique Demo.st0 (req_id Demo.admin1)
  = Some (Demo.person "admin1" "admin")
  /\ fst (assignBuyer Demo.st0 Demo.admin1 (req_id Demo.admin1))
     = Json 200 "Buyer role assigned successfully"
  /\ Prisma.user_findUnique
       (snd (assignBuyer Demo.st0 Demo.admin1 (req_id Demo.admin1)))
       (req_id Demo.admin1)
     = Some (Demo.person "admin1" "buyer").
Proof. repeat split; reflexivity. Qed.

(** ** Assignment *)

Lemma filter_split_length (A : Type) (k : A -> bool) (l : list A) :
  length (filter k l) + length (filter (fun x => negb (k x)) l) = length l.
Proof.
  induction l as [|x l IH]; simpl; [reflexivity|].
  destruct (k x); simpl; lia.
Qed.

Lemma filter_none (A : Type) (k : A -> bool) (l : list A) :
  (forall x, In x l -> k x = false) -> filter k l = [].
Proof.
  induction l as [|x l IH]; simpl; intros H; [reflexivity|].
  rewrite (H x) by now left. apply IH. intros y Hy. apply H. now right.
Qed.

(** A unique column holds a given value in exactly one row, if in any. *)
Lemma unique_column_count (A : Type) (g : A -> string) (l : list A)
    (x : A) :
  NoDup (map g l) -> In x l ->
  length (filter (fun y => g y =? g x) l) = 1.
Proof.
  induction l as [|y l IH]; simpl; intros Hnd Hin; [contradiction|].
  inversion Hnd as [|? ? Hnotin Hnd']; subst.
  destruct Hin as [-> | Hin].
  - rewrite String.eqb_refl. simpl. f_equal.
    assert (filter (fun y => g y =? g x) l = []) as ->; [|reflexivity].
    apply filter_none. intros z Hz.
    apply String.eqb_neq. intros E. apply Hnotin. rewrite <- E.
    now apply in_map.
  - destruct (g y =? g x) eqn:E; [|auto].
    apply String.eqb_eq in E. exfalso. apply Hnotin. rewrite E.
    now apply in_map.
Qed.

(** Among the requests of one project the solver is a unique column. *)
Lemma requests_of_unique (st : Store) (projectId : string) :
  wf st -> NoDup (map Request.solverId (requests_of st projectId)).
Proof.
  intros W. pose proof (uq_requests W) as H.
  unfold requests_of, Prisma.request_findMany.
  induction (requests st) as [|r l IH]; simpl in *; [constructor|].
  inversion H as [|? ? Hnotin Hnd]; subst.
  destruct (Request.projectId r =? projectId) eqn:E; simpl; auto.
  constructor; auto.
  intros Hin. apply Hnotin. apply in_map_iff in Hin.
  destruct Hin as (q & Hq & Hin). apply filter_In in Hin.
  destruct Hin as [Hin Hp]. apply in_map_iff. exists q. split; [|exact Hin].
  apply String.eqb_eq in E, Hp. now rewrite Hq, E, Hp.
Qed.

Lemma assign_requests (projectId solver : string) (l : list Request.t) :
  Forall (fun r => Request.projectId r = projectId) l ->
  Prisma.rewrite_rows
    (fun r => (Request.projectId r =? projectId)
              && negb (Request.solverId r =? solver))
    (Request.with_status "rejected")
    (Prisma.rewrite_rows
       (fun r => (Request.projectId r =? projectId)
                 && (Request.solverId r =? solver))
       (Request.with_status "accepted") l)
  = map (decided solver) l.
Proof.
  induction 1 as [|r l Hr _ IH]; simpl; [reflexivity|].
  rewrite IH. f_equal. unfold decided.
  destruct (Request.solverId r =? solver) eqn:E;
    rewrite Hr, String.eqb_refl; simpl;
    rewrite ?Hr, ?E, ?String.eqb_refl; reflexivity.
Qed.

Lemma decided_accepted (solver : string) (l : list Request.t) :
  count_status "accepted" (map (decided solver) l)
  = length (filter (fun r => Request.solverId r =? solver) l).
Proof.
  unfold count_status, decided.
  induction l as [|r l IH]; simpl; [reflexivity|].
  destruct (Request.solverId r =? solver); simpl; auto.
Qed.

Lemma decided_rejected (solver : string) (l : list Request.t) :
  count_status "rejected" (map (decided solver) l)
  = length (filter (fun r => negb (Request.solverId r =? solver)) l).
Proof.
  unfold count_status, decided.
  induction l as [|r l IH]; simpl; [reflexivity|].
  destruct (Request.solverId r =? solver); simpl; auto.
Qed.

Lemma requests_of_project (st : Store) (projectId : string) :
  Forall (fun r => Request.projectId r = projectId)
         (requests_of st projectId).
Proof.
  apply Forall_forall. intros r Hr. apply filter_In in Hr.
  destruct Hr as [_ Hr]. now apply String.eqb_eq.
Qed.

(** C3: a successful [assignSolver] on a project with N requests, one of
    them from the chosen solver, leaves the project at status assigned with
    the chosen solver, the chosen solver's request accepted and every other
    request of the project rejected: 1 accepted and N-1 rejected.  (The
    statuses the project and the requests had before play no part; for an
    open project all N are pending.) *)
Theorem C3_assign_accepts_one_rejects_rest st u id solverId r st' p q :
  wf st ->
  Prisma.project_findUnique st id = Some p ->
  In q (requests_of st id) ->
  Request.solverId q = field solverId ->
  assignSolver st u id solverId = (r, st') ->
  succeeded r = true ->
  Prisma.project_findUnique st' id
  = Some (Project.assign (field solverId) p)
  /\ requests_of st' id
     = map (decided (field solverId)) (requests_of st id)
  /\ count_status "accepted" (requests_of st' id) = 1
  /\ count_status "rejected" (requests_of st' id)
     = length (requests_of st id) - 1.
Proof.
  intros W Hp Hq Hqs H Hok.
  unfold assignSolver, server_error in H. rewrite Hp in H.
  destruct (negb (authorize ["buyer"] u));
    [injection H as <- <-; discriminate|].
  destruct (negb (Validator.notEmpty solverId));
    [injection H as <- <-; discriminate|].
  destruct (negb (Project.buyerId p =? req_id u));
    [injection H as <- <-; discriminate|].
  destruct (Prisma.project_update st id (Project.assign (field solverId)))
    as [st1|] eqn:Hup; [|injection H as <- <-; discriminate].
  injection H as _ <-. apply project_update_inl in Hup. subst st1.
  destruct (project_found _ _ Hp) as [Hin Hid].
  assert (requests_of
            (Prisma.request_updateMany
               (Prisma.request_updateMany
                  (set_projects
                     (Prisma.rewrite_rows (Project.key id)
                        (Project.assign (field solverId)) (projects st)) st)
                  (fun r0 => (Request.projectId r0 =? Project.id p)
                             && (Request.solverId r0 =? field solverId))
                  (Request.with_status "accepted"))
               (fun r0 => (Request.projectId r0 =? Project.id p)
                          && negb (Request.solverId r0 =? field solverId))
               (Request.with_status "rejected")) id
          = map (decided (field solverId)) (requests_of st id)) as Hreq.
  { unfold requests_of, Prisma.request_findMany, Prisma.request_updateMany.
    simpl. rewrite !rewrite_rows_filter by reflexivity. rewrite Hid.
    apply assign_requests. apply requests_of_project. }
  split; [|split; [exact Hreq | rewrite Hreq; split]].
  - unfold Prisma.project_findUnique, Prisma.request_updateMany. simpl.
    rewrite rewrite_rows_find by reflexivity.
    fold (Prisma.project_findUnique st id). rewrite Hp. simpl.
    unfold Project.key at 1. rewrite Hid, String.eqb_refl. reflexivity.
  - rewrite decided_accepted, <- Hqs.
    apply unique_column_count; [now apply requests_of_unique | exact Hq].
  - rewrite decided_rejected.
    pose proof (filter_split_length
                  (fun r0 => Request.solverId r0 =? field solverId)
                  (requests_of st id)) as Hsplit.
    assert (length (filter (fun r0 => Request.solverId r0 =? field solverId)
                           (requests_of st id)) = 1) as Hone.
    { rewrite <- Hqs.
      apply unique_column_count; [now apply requests_of_unique | exact Hq]. }
    cbv beta in Hsplit. lia.
Qed.

Lemma C3_assign_accepts_one_rejects_rest_witness :
  count_status "pending" (requests_of Demo.st_open "p1") = 2
  /\ Prisma.project_findUnique Demo.st_assigned "p1"
     = Some (Demo.p1 (Some "solver1") "assigned")
  /\ requests_of Demo.st_assigned "p1"
     = [Demo.r1 "accepted"; Demo.r2 "rejected"]
  /\ count_status "accepted" (requests_of Demo.st_assigned "p1") = 1
  /\ count_status "rejected" (requests_of Demo.st_assigned "p1") = 2 - 1.
Proof.
  split; [reflexivity|].
  refine (@C3_assign_accepts_one_rejects_rest Demo.st_open Demo.buyer1
            "p1" (Some "solver1") (Json 200 "Project assigned successfully")
            Demo.st_assigned (Demo.p1 None "open") (Demo.r1 "pending")
            (demo_wf Demo.posting) _ _ _ _ _).
  - reflexivity.
  - left. reflexivity.
  - reflexivity.
  - reflexivity.
  - reflexivity.
Defined.

(** ** Review *)

Lemma same_refl (a : option string) : Js.same a a = true.
Proof. destruct a; simpl; [apply String.eqb_refl | reflexivity]. Qed.

Lemma submission_update_found st id f b :
  Prisma.submission_findUnique st id = Some b ->
  Prisma.submission_update st id f
  = inl (set_submissions
           (Prisma.rewrite_rows (Submission.key id) f (submissions st)) st).
Proof. unfold Prisma.submission_update. now intros ->. Qed.

Lemma task_update_found st id f t :
  Prisma.task_findUnique st id = Some t ->
  Prisma.task_update st id f
  = inl (set_tasks (Prisma.rewrite_rows (Task.key id) f (tasks st)) st).
Proof. unfold Prisma.task_update. now intros ->. Qed.

Lemma project_update_status_found st id s p :
  Prisma.project_findUnique st id = Some p ->
  Prisma.project_update st id (Project.with_status s)
  = inl (set_projects
           (Prisma.rewrite_rows (Project.key id) (Project.with_status s)
              (projects st)) st).
Proof.
  unfold Prisma.project_update. intros ->. simpl.
  now rewrite same_refl.
Qed.

Lemma task_updated_row st id s t :
  Prisma.task_findUnique st id = Some t ->
  find (Task.key id)
       (Prisma.rewrite_rows (Task.key id) (Task.with_status s) (tasks st))
  = Some (Task.with_status s t).
Proof.
  intros H. rewrite rewrite_rows_find by reflexivity.
  unfold Prisma.task_findUnique in H. rewrite H. simpl.
  apply find_in in H. destruct H as [_ ->]. reflexivity.
Qed.

Lemma project_updated_row st id s p :
  Prisma.project_findUnique st id = Some p ->
  find (Project.key id)
       (Prisma.rewrite_rows (Project.key id) (Project.with_status s)
          (projects st))
  = Some (Project.with_status s p).
Proof.
  intros H. rewrite rewrite_rows_find by reflexivity.
  unfold Prisma.project_findUnique in H. rewrite H. simpl.
  apply find_in in H. destruct H as [_ ->]. reflexivity.
Qed.

Lemma submission_task_exists st b :
  wf st -> In b (submissions st) ->
  exists t, Prisma.task_findUnique st (Submission.taskId b) = Some t.
Proof.
  intros W Hb. pose proof (fk_task W b Hb) as H.
  rewrite find_existsb in H. unfold Prisma.task_findUnique.
  destruct (find _ (tasks st)) as [t|]; [now exists t | discriminate].
Qed.

(** The route on an accepted review, once its guards are passed. *)
Lemma review_accepted st u id now b p t :
  authorize ["buyer"] u = true ->
  Prisma.submission_findUnique st id = Some b ->
  Prisma.project_findUnique st (Submission.projectId b) = Some p ->
  Project.buyerId p = req_id u ->
  Prisma.task_findUnique st (Submission.taskId b) = Some t ->
  reviewSubmission st u id (Some "accepted") now
  = (Json 200 "Submission accepted successfully",
     let st2 :=
       set_tasks
         (Prisma.rewrite_rows (Task.key (Submission.taskId b))
            (Task.with_status "completed") (tasks st))
         (set_submissions
            (Prisma.rewrite_rows (Submission.key id)
               (Submission.review "accepted" now) (submissions st)) st) in
     let allTasks :=
       Prisma.task_findMany st2
         (fun k => Task.projectId k =? Submission.projectId b) in
     if forallb (fun k => Task.status k =? "completed") allTasks
        && (0 <? length allTasks)%nat
     then set_projects
            (Prisma.rewrite_rows (Project.key (Submission.projectId b))
               (Project.with_status "completed") (projects st)) st2
     else st2).
Proof.
  intros Ha Hb Hp Ho Ht. unfold reviewSubmission.
  rewrite Ha, Hb, Hp, Ho, String.eqb_refl.
  rewrite (submission_update_found _ _ _ Hb).
  cbn [negb Validator.isIn Js.includes existsb field orb].
  change ("accepted" =? "accepted") with true.
  cbn [negb orb].
  erewrite task_update_found by exact Ht.
  cbv zeta.
  cbn [tasks submissions projects set_submissions set_tasks set_projects].
  match goal with
  | |- context [if ?c then _ else _] => destruct c
  end; [|reflexivity].
  erewrite project_update_status_found by exact Hp. reflexivity.
Qed.

(** The route on a rejected review, once its guards are passed. *)
Lemma review_rejected st u id now b p t :
  authorize ["buyer"] u = true ->
  Prisma.submission_findUnique st id = Some b ->
  Prisma.project_findUnique st (Submission.projectId b) = Some p ->
  Project.buyerId p = req_id u ->
  Prisma.task_findUnique st (Submission.taskId b) = Some t ->
  reviewSubmission st u id (Some "rejected") now
  = (Json 200 "Submission rejected successfully",
     set_tasks
       (Prisma.rewrite_rows (Task.key (Submission.taskId b))
          (Task.with_status "rejected") (tasks st))
       (set_submissions
          (Prisma.rewrite_rows (Submission.key id)
             (Submission.review "rejected" now) (submissions st)) st)).
Proof.
  intros Ha Hb Hp Ho Ht. unfold reviewSubmission.
  rewrite Ha, Hb, Hp, Ho, String.eqb_refl.
  rewrite (submission_update_found _ _ _ Hb).
  cbn [negb Validator.isIn Js.includes existsb field orb].
  change ("rejected" =? "accepted") with false.
  change ("rejected" =? "rejected") with true.
  cbn [negb orb].
  erewrite task_update_found by exact Ht. reflexivity.
Qed.

Lemma submission_reviewed_row st id s now b :
  Prisma.submission_findUnique st id = Some b ->
  find (Submission.key id)
       (Prisma.rewrite_rows (Submission.key id) (Submission.review s now)
          (submissions st))
  = Some (Submission.review s now b).
Proof.
  intros H. rewrite rewrite_rows_find by reflexivity.
  unfold Prisma.submission_findUnique in H. rewrite H. simpl.
  apply find_in in H. destruct H as [_ ->]. reflexivity.
Qed.

(** What the route tests before it completes a project: the tasks of the
    project, as they are after the write of the task, are all completed
    and there is one. *)
Lemma all_completed_iff (l : list Task.t) (projectId : string) :
  forallb (fun k => Task.status k =? "completed")
          (filter (fun k => Task.projectId k =? projectId) l)
  && (0 <? length (filter (fun k => (Task.projectId k =? projectId)%string)
                          l))%nat
  = true
  <-> (forall k, In k l -> Task.projectId k = projectId ->
         Task.status k = "completed")
      /\ (exists k, In k l /\ Task.projectId k = projectId).
Proof.
  rewrite andb_true_iff, forallb_forall, Nat.ltb_lt. split.
  - intros [Hall Hlen]. split.
    + intros k Hk Hp. apply String.eqb_eq. apply Hall.
      apply filter_In. split; [exact Hk | now apply String.eqb_eq].
    + destruct (filter _ l) as [|k r] eqn:Hf; [simpl in Hlen; lia|].
      assert (In k (filter (fun k => Task.projectId k =? projectId) l))
        as Hin by (rewrite Hf; now left).
      apply filter_In in Hin. destruct Hin as [Hin Hk].
      exists k. split; [exact Hin | now apply String.eqb_eq].
  - intros [Hall (k & Hk & Hp)]. split.
    + intros x Hx. apply filter_In in Hx. destruct Hx as [Hx Hm].
      apply String.eqb_eq in Hm. apply String.eqb_eq. now apply Hall.
    + assert (In k (filter (fun k => Task.projectId k =? projectId) l))
        as Hin
        by (apply filter_In; split; [exact Hk | now apply String.eqb_eq]).
      destruct (filter _ l); [contradiction | simpl; lia].
Qed.

Lemma other_project_row st i j f :
  (forall x, Project.id (f x) = Project.id x) -> j <> i ->
  find (Project.key j) (Prisma.rewrite_rows (Project.key i) f (projects st))
  = find (Project.key j) (projects st).
Proof.
  intros Hf Hji. rewrite rewrite_rows_find.
  - destruct (find (Project.key j) (projects st)) as [x|] eqn:E;
      [|reflexivity].
    simpl. apply find_in in E. destruct E as [_ E].
    unfold Project.key in *. apply String.eqb_eq in E.
    rewrite E. apply String.eqb_neq in Hji. now rewrite Hji.
  - intros x. unfold Project.key. now rewrite Hf.
Qed.

(** C4: when the acting buyer owns the submission's project, a review with
    decision accepted sets the submission's task to completed and leaves
    every other task as it was; it then sets the project to completed
    exactly when, after that write, the project has at least one task and
    all its tasks are completed, and otherwise leaves the project row as
    it was.  A review with decision rejected sets the task to rejected,
    leaves every other task as it was and leaves the projects table as it
    was.  No other project is written by either decision. *)
Theorem C4_review_cascade st u id now b p :
  wf st ->
  authorize ["buyer"] u = true ->
  Prisma.submission_findUnique st id = Some b ->
  Prisma.project_findUnique st (Submission.projectId b) = Some p ->
  Project.buyerId p = req_id u ->
  exists t,
    Prisma.task_findUnique st (Submission.taskId b) = Some t
    /\ (let res := reviewSubmission st u id (Some "accepted") now in
        let all_completed :=
          forall k, In k (tasks (snd res)) ->
            Task.projectId k = Submission.projectId b ->
            Task.status k = "completed" in
        let has_task :=
          exists k, In k (tasks (snd res))
                    /\ Task.projectId k = Submission.projectId b in
        succeeded (fst res) = true
        /\ tasks (snd res)
           = map (fun k => if Task.id k =? Submission.taskId b
                           then Task.with_status "completed" k else k)
                 (tasks st)
        /\ Prisma.task_findUnique (snd res) (Submission.taskId b)
           = Some (Task.with_status "completed" t)
        /\ (all_completed /\ has_task ->
            Prisma.project_findUnique (snd res) (Submission.projectId b)
            = Some (Project.with_status "completed" p))
        /\ (~ (all_completed /\ has_task) ->
            Prisma.project_findUnique (snd res) (Submission.projectId b)
            = Some p)
        /\ (forall i, i <> Submission.projectId b ->
            Prisma.project_findUnique (snd res) i
            = Prisma.project_findUnique st i))
    /\ (let res := reviewSubmission st u id (Some "rejected") now in
        succeeded (fst res) = true
        /\ tasks (snd res)
           = map (fun k => if Task.id k =? Submission.taskId b
                           then Task.with_status "rejected" k else k)
                 (tasks st)
        /\ Prisma.task_findUnique (snd res) (Submission.taskId b)
           = Some (Task.with_status "rejected" t)
        /\ projects (snd res) = projects st).
Proof.
  intros W Ha Hb Hp Ho.
  pose proof Hb as Hin. apply find_in in Hin. destruct Hin as [Hin _].
  destruct (@submission_task_exists st b W Hin) as [t Ht].
  exists t. split; [exact Ht | split].
  - rewrite (@review_accepted st u id now b p t Ha Hb Hp Ho Ht). cbv zeta.
    cbn [fst snd]. unfold Prisma.task_findMany.
    cbn [tasks projects submissions set_projects set_tasks
         set_submissions].
    pose proof (all_completed_iff
                  (Prisma.rewrite_rows (Task.key (Submission.taskId b))
                     (Task.with_status "completed") (tasks st))
                  (Submission.projectId b)) as Hiff.
    match goal with
    | |- context [if ?c then _ else _] => destruct c eqn:Hc
    end;
      cbn [tasks projects submissions set_projects set_tasks
           set_submissions].
    + split; [reflexivity|]. split; [reflexivity|]. split.
      { unfold Prisma.task_findUnique. cbn [tasks set_tasks set_projects].
        now apply task_updated_row. }
      split.
      { intros _. unfold Prisma.project_findUnique.
        cbn [projects set_projects]. now apply project_updated_row. }
      split.
      { intros Hnot. exfalso. apply Hnot. now apply Hiff. }
      intros i Hi. unfold Prisma.project_findUnique.
      cbn [projects set_projects]. now apply other_project_row.
    + split; [reflexivity|]. split; [reflexivity|]. split.
      { unfold Prisma.task_findUnique. cbn [tasks set_tasks set_projects].
        now apply task_updated_row. }
      split.
      { intros Hyes. apply Hiff in Hyes. congruence. }
      split; [intros _; exact Hp | reflexivity].
  - rewrite (@review_rejected st u id now b p t Ha Hb Hp Ho Ht). cbn [fst snd].
    repeat split.
    unfold Prisma.task_findUnique. cbn [tasks set_tasks set_submissions].
    now apply task_updated_row.
Qed.

(** Two stores: a project with two tasks, where accepting the submission
    of the first leaves the second pending and the project in progress;
    and a project with one task, which the acceptance completes. *)
Lemma C4_review_cascade_witness :
  tasks Demo.st_two_tasks = [Demo.t1 "submitted"; Demo.t2 "pending"]
  /\ tasks (snd (reviewSubmission Demo.st_two_tasks Demo.buyer1 "s1"
                   (Some "accepted") 1000))
     = [Demo.t1 "completed"; Demo.t2 "pending"]
  /\ Prisma.project_findUnique
       (snd (reviewSubmission Demo.st_two_tasks Demo.buyer1 "s1"
               (Some "accepted") 1000)) "p1"
     = Some (Demo.p1 (Some "solver1") "in_progress")
  /\ tasks (snd (reviewSubmission Demo.st_delivered Demo.buyer1 "s1"
                   (Some "accepted") 1000))
     = [Demo.t1 "completed"]
  /\ Prisma.project_findUnique
       (snd (reviewSubmission Demo.st_delivered Demo.buyer1 "s1"
               (Some "accepted") 1000)) "p1"
     = Some (Demo.p1 (Some "solver1") "completed")
  /\ tasks (snd (reviewSubmission Demo.st_two_tasks Demo.buyer1 "s1"
                   (Some "rejected") 1000))
     = [Demo.t1 "rejected"; Demo.t2 "pending"]
  /\ projects (snd (reviewSubmission Demo.st_two_tasks Demo.buyer1 "s1"
                      (Some "rejected") 1000))
     = projects Demo.st_two_tasks.
Proof.
  destruct (@C4_review_cascade Demo.st_two_tasks Demo.buyer1 "s1" 1000%Z
              (Demo.s1 "pending" None)
              (Demo.p1 (Some "solver1") "in_progress")
              (demo_wf Demo.two_tasks) eq_refl eq_refl eq_refl eq_refl)
    as (t & Ht & (_ & Htasks & _ & _ & Hno & _) & (_ & Hrej & _ & Hpr)).
  destruct (@C4_review_cascade Demo.st_delivered Demo.buyer1 "s1" 1000%Z
              (Demo.s1 "pending" None)
              (Demo.p1 (Some "solver1") "in_progress")
              (demo_wf Demo.delivering) eq_refl eq_refl eq_refl eq_refl)
    as (t' & Ht' & (_ & Htasks' & _ & Hyes & _) & _).
  split; [reflexivity|].
  split; [rewrite Htasks; reflexivity|].
  split.
  { apply Hno. intros [Hall _].
    assert (Task.status (Demo.t2 "pending") = "completed") as E.
    { apply Hall; [|reflexivity]. rewrite Htasks. right. left.
      reflexivity. }
    discriminate E. }
  split; [rewrite Htasks'; reflexivity|].
  split.
  { apply Hyes. split.
    - intros k Hk _. rewrite Htasks' in Hk.
      destruct Hk as [<- | []]. reflexivity.
    - exists (Demo.t1 "completed"). split; [|reflexivity].
      rewrite Htasks'. left. reflexivity. }
  split; [rewrite Hrej; reflexivity | exact Hpr].
Defined.

(** C10: when the acting buyer owns the submission's project, a review
    with either decision succeeds whatever status the submission and its
    task have: the submission gets the decision as its status and the
    clock as [reviewedAt], and the task gets completed or rejected. *)
Theorem C10_review_regardless_of_status st u id decision now b p :
  wf st ->
  authorize ["buyer"] u = true ->
  Prisma.submission_findUnique st id = Some b ->
  Prisma.project_findUnique st (Submission.projectId b) = Some p ->
  Project.buyerId p = req_id u ->
  decision = "accepted" \/ decision = "rejected" ->
  let res := reviewSubmission st u id (Some decision) now in
  fst res = Json 200 ("Submission " ++ decision ++ " successfully")
  /\ (exists b',
        Prisma.submission_findUnique (snd res) id = Some b'
        /\ b' = Submission.review decision now b
        /\ Submission.status b' = decision
        /\ Submission.reviewedAt b' = Some now)
  /\ (exists t,
        Prisma.task_findUnique st (Submission.taskId b) = Some t
        /\ Prisma.task_findUnique (snd res) (Submission.taskId b)
           = Some (Task.with_status
                     (if decision =? "accepted" then "completed"
                      else "rejected") t)).
Proof.
  intros W Ha Hb Hp Ho Hd.
  pose proof Hb as Hin. apply find_in in Hin. destruct Hin as [Hin _].
  destruct (@submission_task_exists st b W Hin) as [t Ht].
  destruct Hd as [-> | ->]; cbv zeta.
  - rewrite (@review_accepted st u id now b p t Ha Hb Hp Ho Ht). cbv zeta. cbn [fst snd].
    split; [reflexivity|]. split.
    + exists (Submission.review "accepted" now b).
      split; [|repeat split].
      match goal with
      | |- context [if ?c then _ else _] => destruct c
      end; now apply submission_reviewed_row.
    + exists t. split; [exact Ht|].
      match goal with
      | |- context [if ?c then _ else _] => destruct c
      end; unfold Prisma.task_findUnique;
        cbn [tasks set_projects set_tasks set_submissions];
        now apply task_updated_row.
  - rewrite (@review_rejected st u id now b p t Ha Hb Hp Ho Ht). cbn [fst snd].
    split; [reflexivity|]. split.
    + exists (Submission.review "rejected" now b).
      split; [|repeat split]. now apply submission_reviewed_row.
    + exists t. split; [exact Ht|].
      unfold Prisma.task_findUnique.
      cbn [tasks set_projects set_tasks set_submissions].
      now apply task_updated_row.
Qed.

Lemma C10_review_regardless_of_status_witness :
  Prisma.submission_findUnique Demo.st_reviewed "s1"
  = Some (Demo.s1 "accepted" (Some 1000%Z))
  /\ Prisma.task_findUnique Demo.st_reviewed "t1"
     = Some (Demo.t1 "completed")
  /\ fst (reviewSubmission Demo.st_reviewed Demo.buyer1 "s1"
            (Some "rejected") 2000)
     = Json 200 "Submission rejected successfully"
  /\ Prisma.submission_findUnique
       (snd (reviewSubmission Demo.st_reviewed Demo.buyer1 "s1"
               (Some "rejected") 2000)) "s1"
     = Some (Demo.s1 "rejected" (Some 2000%Z))
  /\ Prisma.task_findUnique
       (snd (reviewSubmission Demo.st_reviewed Demo.buyer1 "s1"
               (Some "rejected") 2000)) "t1"
     = Some (Demo.t1 "rejected").
Proof.
  split; [reflexivity | split; [reflexivity|]].
  destruct (@C10_review_regardless_of_status Demo.st_reviewed Demo.buyer1
              "s1" "rejected" 2000%Z (Demo.s1 "accepted" (Some 1000%Z))
              (Demo.p1 (Some "solver1") "completed")
              (demo_wf Demo.reviewing) eq_refl eq_refl eq_refl eq_refl
              (or_intror eq_refl))
    as (Hr & (b' & Hb' & -> & _) & (t & Ht & Ht')).
  split; [exact Hr | split; [exact Hb'|]].
  vm_compute in Ht. injection Ht as <-. exact Ht'.
Defined.

(** ** Task updates *)

Lemma includes_nonempty (l : list string) (s : string) :
  Js.includes l s = true -> ~ In "" l -> Js.truthy (Some s) = true.
Proof.
  unfold Js.includes. intros H Hn. simpl.
  destruct (s =? "") eqn:E; [|reflexivity].
  apply String.eqb_eq in E. subst. exfalso. apply Hn.
  apply existsb_exists in H. destruct H as (x & Hx & Hs).
  apply String.eqb_eq in Hs. now subst.
Qed.

Lemma task_applied_row st id d dl t :
  Prisma.task_findUnique st id = Some t ->
  find (Task.key id)
       (Prisma.rewrite_rows (Task.key id) (task_apply d dl) (tasks st))
  = Some (task_apply d dl t).
Proof.
  intros H. rewrite rewrite_rows_find by reflexivity.
  unfold Prisma.task_findUnique in H. rewrite H. simpl.
  apply find_in in H. destruct H as [_ ->]. reflexivity.
Qed.

(** The status key of [updateData] after the two role blocks. *)
Lemma blocks_status u project b d1 d2 :
  solver_block u project b no_update = inl d1 ->
  buyer_block u project b d1 = inl d2 ->
  tp_status d2
  = match tp_status b with
    | Some s => if Js.truthy (Some s) && may_set u s then Some s else None
    | None => None
    end.
Proof.
  unfold solver_block, buyer_block, may_set. intros H1 H2.
  destruct (req_role u =? "problem_solver") eqn:E1;
    destruct (req_role u =? "buyer") eqn:E2.
  - apply String.eqb_eq in E1, E2. rewrite E1 in E2. discriminate.
  - destruct project as [p|]; [|discriminate].
    destruct (Js.differs _ _); [discriminate|].
    injection H1 as <-. injection H2 as <-.
    destruct (tp_status b) as [s|]; simpl; [|reflexivity].
    rewrite !orb_false_r. reflexivity.
  - destruct project as [p|]; [|discriminate].
    destruct (negb _); [discriminate|].
    injection H1 as <-. injection H2 as <-.
    destruct (tp_status b) as [s|]; simpl; [|reflexivity].
    rewrite ?orb_false_r. reflexivity.
  - injection H1 as <-. injection H2 as <-.
    destruct (tp_status b); simpl; rewrite ?andb_false_r; reflexivity.
Qed.

(** A status outside the actor's list does not reach [updateData]. *)
Lemma blocks_without_status u project b s :
  tp_status b = Some s -> may_set u s = false ->
  forall d,
    match solver_block u project b d with
    | inl d1 => buyer_block u project b d1
    | inr r => inr r
    end
    = match solver_block u project (without_status b) d with
      | inl d1 => buyer_block u project (without_status b) d1
      | inr r => inr r
      end.
Proof.
  unfold solver_block, buyer_block, may_set, without_status.
  intros Hs Hm d. rewrite Hs. simpl.
  apply orb_false_iff in Hm. destruct Hm as [Hm1 Hm2].
  destruct (req_role u =? "problem_solver") eqn:E1;
    destruct (req_role u =? "buyer") eqn:E2; simpl in *;
    rewrite ?Hm1, ?Hm2, ?andb_false_r;
    destruct project as [p|]; try reflexivity;
    repeat match goal with
           | |- context [if ?c then _ else _] => destruct c
           end; reflexivity.
Qed.

Lemma solver_block_refusal u project b d r :
  solver_block u project b d = inr r -> succeeded r = false.
Proof.
  unfold solver_block. intros H.
  repeat match type of H with
         | context [if ?c then _ else _] => destruct c
         | context [match ?x with _ => _ end] => destruct x
         end; try discriminate; injection H as <-; reflexivity.
Qed.

Lemma buyer_block_refusal u project b d r :
  buyer_block u project b d = inr r -> succeeded r = false.
Proof.
  unfold buyer_block. intros H.
  repeat match type of H with
         | context [if ?c then _ else _] => destruct c
         | context [match ?x with _ => _ end] => destruct x
         end; try discriminate; injection H as <-; reflexivity.
Qed.

(** C5, as the code has it: a task update that succeeds writes the
    requested status only when it is in the actor's list (pending,
    in_progress, submitted for a solver; completed, rejected for a buyer)
    and otherwise leaves the status as it was; a request that fails writes
    nothing; a request whose status is one of the five task statuses
    but outside the actor's list is handled exactly as the same request
    without a status: it is not refused, its status is dropped; and a
    request whose status is none of the five task statuses is refused by
    the validation with status 400, whoever sends it, and writes
    nothing. *)
Theorem C5_status_outside_list_is_dropped parse_date st u id b t :
  Prisma.task_findUnique st id = Some t ->
  let res := updateTask parse_date st u id b in
  (succeeded (fst res) = true ->
   exists t',
     Prisma.task_findUnique (snd res) id = Some t'
     /\ Task.status t'
        = match tp_status b with
          | Some s => if may_set u s then s else Task.status t
          | None => Task.status t
          end)
  /\ (succeeded (fst res) = false -> snd res = st)
  /\ (forall s,
        tp_status b = Some s ->
        Js.includes
          ["pending"; "in_progress"; "submitted"; "completed"; "rejected"]
          s = true ->
        may_set u s = false ->
        updateTask parse_date st u id b
        = updateTask parse_date st u id (without_status b))
  /\ (forall s,
        tp_status b = Some s ->
        Js.includes
          ["pending"; "in_progress"; "submitted"; "completed"; "rejected"]
          s = false ->
        res = (ValidationErrors, st) /\ code (fst res) = 400%nat).
Proof.
  intros Ht. cbv zeta.
  assert (forall s,
            tp_status b = Some s ->
            Js.includes
              ["pending"; "in_progress"; "submitted"; "completed";
               "rejected"] s = false ->
            updateTask parse_date st u id b = (ValidationErrors, st)
            /\ code (fst (updateTask parse_date st u id b)) = 400%nat)
    as Hrefused.
  { intros s Hs Hout. unfold updateTask. rewrite Hs.
    cbn [Validator.optional_isIn]. rewrite Hout. split; reflexivity. }
  unfold updateTask, server_error in *. rewrite Ht in *.
  split; [|split; [|split; [|exact Hrefused]]]; clear Hrefused.
  - destruct (negb (Validator.optional_isIn _ (tp_status b))) eqn:Hv;
      [discriminate|].
    apply negb_false_iff in Hv.
    destruct (solver_block u _ b no_update) as [d1|r1] eqn:H1.
    2:{ apply solver_block_refusal in H1. cbn [fst]. congruence. }
    destruct (buyer_block u _ b d1) as [d2|r2] eqn:H2.
    2:{ apply buyer_block_refusal in H2. cbn [fst]. congruence. }
    pose proof (blocks_status _ _ _ H1 H2) as Hd.
    assert (forall dl,
              Task.status (task_apply d2 dl t)
              = match tp_status b with
                | Some s => if may_set u s then s else Task.status t
                | None => Task.status t
                end) as Hstatus.
    { intros dl. simpl. rewrite Hd.
      destruct (tp_status b) as [s|]; [|reflexivity].
      rewrite (@includes_nonempty _ s Hv)
        by (simpl; intuition discriminate).
      simpl. destruct (may_set u s); reflexivity. }
    destruct (option_map parse_date (tp_deadline d2)) as [[dl|]|];
      [| discriminate |]; cbv zeta;
      (destruct (negb _); [discriminate|]).
    + erewrite task_update_found by exact Ht. cbn [fst snd]. intros _.
      exists (task_apply d2 (Some dl) t). split; [|apply Hstatus].
      unfold Prisma.task_findUnique. cbn [tasks set_tasks].
      now apply task_applied_row.
    + erewrite task_update_found by exact Ht. cbn [fst snd]. intros _.
      exists (task_apply d2 None t). split; [|apply Hstatus].
      unfold Prisma.task_findUnique. cbn [tasks set_tasks].
      now apply task_applied_row.
  - repeat next_case; cbn [fst snd]; try reflexivity.
    all: match goal with
         | H : Prisma.task_update _ _ _ = inl _ |- _ =>
             intros; discriminate
         end.
  - intros s Hs Hin Hm.
    assert (Validator.optional_isIn
              ["pending"; "in_progress"; "submitted"; "completed";
               "rejected"] (tp_status b) = true) as ->
      by (rewrite Hs; exact Hin).
    change (Validator.optional_isIn
              ["pending"; "in_progress"; "submitted"; "completed";
               "rejected"] (tp_status (without_status b))) with true.
    cbn [negb].
    pose proof (@blocks_without_status u
                  (Prisma.project_findUnique st (Task.projectId t)) b s
                  Hs Hm no_update) as E.
    destruct (solver_block u _ b no_update) as [d1|];
      destruct (solver_block u _ (without_status b) no_update) as [d1'|].
    + rewrite E. reflexivity.
    + rewrite E. reflexivity.
    + rewrite <- E. reflexivity.
    + now injection E as ->.
Qed.

Lemma C5_status_outside_list_is_dropped_witness :
  Prisma.task_findUnique Demo.st_planned "t1" = Some (Demo.t1 "pending")
  /\ (exists t',
        Prisma.task_findUnique
          (snd (updateTask Demo.parse_date Demo.st_planned Demo.solver1 "t1"
                  (mkTaskPatch (Some "Hero") None None (Some "completed"))))
          "t1" = Some t'
        /\ Task.status t' = "pending")
  /\ updateTask Demo.parse_date Demo.st_planned Demo.solver1 "t1"
       (mkTaskPatch (Some "Hero") None None (Some "completed"))
     = updateTask Demo.parse_date Demo.st_planned Demo.solver1 "t1"
         (mkTaskPatch (Some "Hero") None None None)
  /\ updateTask Demo.parse_date Demo.st_planned Demo.solver1 "t1"
       (mkTaskPatch (Some "Hero") None None (Some "done"))
     = (ValidationErrors, Demo.st_planned).
Proof.
  destruct (@C5_status_outside_list_is_dropped Demo.parse_date
              Demo.st_planned Demo.solver1 "t1"
              (mkTaskPatch (Some "Hero") None None (Some "completed"))
              (Demo.t1 "pending") eq_refl) as (Hset & _ & Hdrop & _).
  destruct (@C5_status_outside_list_is_dropped Demo.parse_date
              Demo.st_planned Demo.solver1 "t1"
              (mkTaskPatch (Some "Hero") None None (Some "done"))
              (Demo.t1 "pending") eq_refl) as (_ & _ & _ & Hrefused).
  split; [reflexivity | split; [|split]].
  - exact (Hset eq_refl).
  - exact (Hdrop "completed" eq_refl eq_refl eq_refl).
  - exact (proj1 (Hrefused "done" eq_refl eq_refl)).
Defined.

(** C5 fails as stated: the assigned solver asks for status completed,
    which is outside the solver's list.  The route answers 200 and the task
    keeps the status it had; nothing is refused. *)
Lemma C5_solver_asks_for_completed :
  Prisma.task_findUnique Demo.st_planned "t1" = Some (Demo.t1 "pending")
  /\ updateTask Demo.parse_date Demo.st_planned Demo.solver1 "t1"
       (mkTaskPatch None None None (Some "completed"))
     = (Json 200 "", Demo.st_planned).
Proof. split; reflexivity. Qed.

(** ** Task creation *)

Lemma differs_iff (a : option string) (b : string) :
  Js.differs a b = true <-> a <> Some b.
Proof.
  destruct a as [s|]; simpl.
  - rewrite negb_true_iff, String.eqb_neq. split; congruence.
  - split; [discriminate | reflexivity].
Qed.

(** C7: [createTask] fails, and writes nothing, when the project has no
    assigned solver or one that is not the creator; when it succeeds, the
    tasks table has one more row, the new task, with status pending, and
    the project has status in_progress if it had status assigned and is
    the row it was otherwise. *)
Theorem C7_createTask trim parse_date st u b newId p :
  Prisma.project_findUnique st (field (tb_projectId b)) = Some p ->
  let res := createTask trim parse_date st u b newId in
  (Project.assignedSolverId p <> Some (req_id u) ->
   succeeded (fst res) = false /\ snd res = st)
  /\ (succeeded (fst res) = true ->
      exists k,
        tasks (snd res) = tasks st ++ [k]
        /\ Task.id k = newId
        /\ Task.projectId k = Project.id p
        /\ Task.userId k = req_id u
        /\ Task.status k = "pending"
        /\ Prisma.project_findUnique (snd res) (Project.id p)
           = Some (if Project.status p =? "assigned"
                   then Project.with_status "in_progress" p
                   else p)).
Proof.
  intros Hp. cbv zeta. unfold createTask, server_error. rewrite Hp.
  destruct (project_found _ _ Hp) as [Hin Hid].
  split.
  - intros Hd. apply differs_iff in Hd. rewrite Hd.
    repeat next_case; cbn [fst snd]; split; reflexivity.
  - destruct (negb (authorize _ u)); [discriminate|].
    destruct (negb (_ && _)); [discriminate|].
    destruct (negb (Js.truthy _)); [discriminate|].
    destruct (Js.differs _ _); [discriminate|].
    destruct (parse_date _) as [deadline|]; [|discriminate].
    cbv zeta. destruct (negb (Prisma.task_data_ok _)); [discriminate|].
    destruct (Prisma.task_create st _) as [st1|] eqn:Hc; [|discriminate].
    apply task_create_inl in Hc. subst st1.
    destruct (Project.status p =? "assigned") eqn:Hs.
    + erewrite project_update_status_found by exact Hp.
      cbn [fst snd]. intros _. eexists. split; [reflexivity|].
      simpl. repeat split; auto.
      rewrite <- Hid at 1. unfold Prisma.project_findUnique. simpl.
      rewrite Hid. now apply project_updated_row.
    + cbn [fst snd]. intros _. eexists. split; [reflexivity|].
      simpl. repeat split; auto.
      unfold Prisma.project_findUnique in *. simpl. now rewrite Hid.
Qed.

Lemma C7_createTask_witness :
  Prisma.project_findUnique Demo.st_assigned "p1"
  = Some (Demo.p1 (Some "solver1") "assigned")
  /\ succeeded
       (fst (createTask Demo.trim Demo.parse_date Demo.st_assigned
               Demo.solver2
               (mkTaskBody (Some "p1") (Some "Header")
                  (Some "Top of the page") (Some "2030-01-01")) "t1"))
     = false
  /\ exists k,
       tasks (snd (createTask Demo.trim Demo.parse_date Demo.st_assigned
                     Demo.solver1
                     (mkTaskBody (Some "p1") (Some "Header")
                        (Some "Top of the page") (Some "2030-01-01")) "t1"))
       = tasks Demo.st_assigned ++ [k]
       /\ Task.status k = "pending"
       /\ Prisma.project_findUnique
            (snd (createTask Demo.trim Demo.parse_date Demo.st_assigned
                    Demo.solver1
                    (mkTaskBody (Some "p1") (Some "Header")
                       (Some "Top of the page") (Some "2030-01-01")) "t1"))
            "p1"
          = Some (Demo.p1 (Some "solver1") "in_progress").
Proof.
  split; [reflexivity | split].
  - destruct (@C7_createTask Demo.trim Demo.parse_date Demo.st_assigned
                Demo.solver2
                (mkTaskBody (Some "p1") (Some "Header")
                   (Some "Top of the page") (Some "2030-01-01")) "t1"
                (Demo.p1 (Some "solver1") "assigned") eq_refl)
      as [Hfail _].
    apply Hfail. discriminate.
  - destruct (@C7_createTask Demo.trim Demo.parse_date Demo.st_assigned
                Demo.solver1
                (mkTaskBody (Some "p1") (Some "Header")
                   (Some "Top of the page") (Some "2030-01-01")) "t1"
                (Demo.p1 (Some "solver1") "assigned") eq_refl)
      as [_ Hok].
    destruct (Hok eq_refl) as (k & Hk & _ & _ & _ & Hs & Hpr).
    exists k. repeat split; assumption.
Defined.

(** ** Requests *)

Lemma request_pair_found st q :
  In q (requests st) ->
  existsb (Request.pair_key (Request.projectId q) (Request.solverId q))
          (requests st) = true.
Proof.
  intros Hq. apply existsb_exists. exists q. split; [exact Hq|].
  unfold Request.pair_key. now rewrite !String.eqb_refl.
Qed.

(** C8, as the code has it: when a request of the solver for the project
    is in the store at the time of the insert, a second one always fails
    and adds no row, whatever the route saw when it read the project and
    when it looked for the request before (the three calls are separate
    round trips, and the first request may have been stored between
    them).  The answer is 'Request already exists' (status 400) when the
    caller is a problem solver and the project was read as open: from the
    pre-check when the first request was visible to it, and otherwise
    from the P2002 that the unique index on (projectId, solverId) raises
    at the insert, which the route maps to the same answer, provided the
    message is a text the store takes (a refused text makes the same call
    fail with 500 instead).  Served with no other request in between,
    the route answers from the pre-check.  The guards that come first
    (role, body, project found, project open) answer otherwise. *)
Theorem C8_second_request_fails st_project st_existing st u projectId
    message newId q :
  In q (requests st) ->
  Request.projectId q = field projectId ->
  Request.solverId q = req_id u ->
  let res :=
    createRequest_at st_project st_existing st u projectId message newId in
  succeeded (fst res) = false
  /\ snd res = st
  /\ (authorize ["problem_solver"] u = true ->
      Validator.notEmpty projectId = true ->
      (exists p,
         Prisma.project_findUnique st_project (field projectId) = Some p
         /\ Project.status p = "open") ->
      Prisma.request_findUnique_projectId_solverId st_existing
        (field projectId) (req_id u) <> None
      \/ Prisma.opt_text_ok message = true ->
      fst res = Json 400 "Request already exists")
  /\ (authorize ["problem_solver"] u = true ->
      Validator.notEmpty projectId = true ->
      (exists p,
         Prisma.project_findUnique st (field projectId) = Some p
         /\ Project.status p = "open") ->
      createRequest st u projectId message newId
      = (Json 400 "Request already exists", st))
  /\ Prisma.request_create st
       (Request.mk newId (field projectId) (req_id u) message "pending")
     = inr Prisma.P2002.
Proof.
  intros Hq Hqp Hqs. cbv zeta.
  pose proof (request_pair_found st q Hq) as Hex.
  rewrite Hqp, Hqs in Hex.
  assert (exists q', Prisma.request_findUnique_projectId_solverId st
                       (field projectId) (req_id u) = Some q')
    as [q' Hfind].
  { unfold Prisma.request_findUnique_projectId_solverId.
    rewrite find_existsb in Hex.
    destruct (find _ (requests st)) as [q'|]; [now exists q' | discriminate]. }
  assert (Prisma.request_create st
            (Request.mk newId (field projectId) (req_id u) message "pending")
          = inr Prisma.P2002) as Hstore.
  { unfold Prisma.request_create. simpl. rewrite Hex, orb_true_r.
    reflexivity. }
  unfold createRequest, createRequest_at, server_error. cbv zeta.
  rewrite Hstore, Hfind.
  split; [|split; [|split; [|split]]].
  - repeat next_case; reflexivity.
  - repeat next_case; reflexivity.
  - intros -> -> (p & -> & ->) Hsees. cbn [negb].
    change ("open" =? "open") with true. cbn [negb].
    destruct (Prisma.request_findUnique_projectId_solverId st_existing
                (field projectId) (req_id u)) as [e|] eqn:He;
      [reflexivity|].
    destruct Hsees as [Hsees | Hmsg]; [contradiction|].
    unfold Prisma.request_data_ok. cbn [Request.message].
    rewrite Hmsg. reflexivity.
  - intros -> -> (p & -> & ->). reflexivity.
  - reflexivity.
Qed.

(** solver1 has a request for p1.  A second one is refused by the
    pre-check when the route is served alone, and by the unique index
    when the route looked for the request before the first was stored. *)
Lemma C8_second_request_fails_witness :
  In (Demo.r1 "pending") (requests Demo.st_open)
  /\ createRequest Demo.st_open Demo.solver1 (Some "p1") (Some "again") "r3"
     = (Json 400 "Request already exists", Demo.st_open)
  /\ Prisma.request_findUnique_projectId_solverId Demo.st_posted "p1"
       "solver1" = None
  /\ createRequest_at Demo.st_posted Demo.st_posted Demo.st_open
       Demo.solver1 (Some "p1") (Some "again") "r3"
     = (Json 400 "Request already exists", Demo.st_open)
  /\ Prisma.request_create Demo.st_open
       (Request.mk "r3" "p1" "solver1" (Some "again") "pending")
     = inr Prisma.P2002.
Proof.
  assert (In (Demo.r1 "pending") (requests Demo.st_open)) as Hin
    by (left; reflexivity).
  destruct (@C8_second_request_fails Demo.st_posted Demo.st_posted
              Demo.st_open Demo.solver1 (Some "p1") (Some "again") "r3"
              (Demo.r1 "pending") Hin eq_refl eq_refl)
    as (_ & Hst & Hmsg & Halone & Hstore).
  split; [exact Hin | split; [|split; [reflexivity | split]]].
  - apply Halone; [reflexivity | reflexivity |].
    exists (Demo.p1 None "open"). split; reflexivity.
  - rewrite (surjective_pairing (createRequest_at _ _ _ _ _ _ _)).
    rewrite Hst, Hmsg; [reflexivity | reflexivity | reflexivity | |].
    + exists (Demo.p1 None "open"). split; reflexivity.
    + right. reflexivity.
  - exact Hstore.
Defined.

(** C8 fails as stated: solver2 has a request for p1, and p1 has been
    assigned since.  A second request is refused, but with 'Project is not
    open for requests', not with the answer for a duplicate. *)
Lemma C8_second_request_after_assignment :
  Prisma.request_findUnique_projectId_solverId Demo.st_assigned "p1"
    (req_id Demo.solver2) = Some (Demo.r2 "rejected")
  /\ createRequest Demo.st_assigned Demo.solver2 (Some "p1") None "r3"
     = (Json 400 "Project is not open for requests", Demo.st_assigned)
  /\ Json 400 "Project is not open for requests"
     <> Json 400 "Request already exists".
Proof. repeat split; try reflexivity. discriminate. Qed.

(** ** Submissions *)




Lemma found_exists (A : Type) (k : A -> bool) (l : list A) (x : A) :
  find k l = Some x -> existsb k l = true.
Proof. intros H. rewrite find_existsb, H. reflexivity. Qed.

Lemma not_found_exists (A : Type) (k : A -> bool) (l : list A) :
  find k l = None -> existsb k l = false.
Proof. intros H. rewrite find_existsb, H. reflexivity. Qed.

(** The insert of the route when the task has no submission yet. *)
Lemma submission_create_first st u f taskId message newId t p :
  wf st ->
  Prisma.task_findUnique st taskId = Some t ->
  Prisma.project_findUnique st (Task.projectId t) = Some p ->
  Project.assignedSolverId p = Some (req_id u) ->
  Prisma.submission_findUnique_taskId st taskId = None ->
  Prisma.submission_findUnique st newId = None ->
  Prisma.submission_create st
    (Submission.mk newId taskId (Task.projectId t) (req_id u) (path f)
       (originalname f) (size f) message "pending" None)
  = inl (set_submissions
           (submissions st
            ++ [Submission.mk newId taskId (Task.projectId t) (req_id u)
                  (path f) (originalname f) (size f) message "pending"
                  None]) st).
Proof.
  intros W Ht Hp Hs He Hfresh. unfold Prisma.submission_create. simpl.
  rewrite (not_found_exists _ _ Hfresh), (not_found_exists _ _ He).
  rewrite (found_exists _ _ Ht), (found_exists _ _ Hp).
  destruct (project_found _ _ Hp) as [Hin _].
  pose proof (fk_solver W p Hin) as Hu. rewrite Hs in Hu. simpl in Hu.
  rewrite Hu. reflexivity.
Qed.



(** * Further properties of the routes *)

(** ** The Prisma calls keep the store sound *)

(** Read the tables of a store that is written out. *)
Ltac tables :=
  cbn [users projects requests tasks submissions set_users set_projects
       set_requests set_tasks set_submissions] in *.

Lemma project_key_stable (f : Project.t -> Project.t) (i : string) :
  (forall p, Project.id (f p) = Project.id p) ->
  forall p, Project.key i (f p) = Project.key i p.
Proof. intros H p. unfold Project.key. now rewrite H. Qed.

Lemma task_key_stable (f : Task.t -> Task.t) (i : string) :
  (forall t, Task.id (f t) = Task.id t) ->
  forall t, Task.key i (f t) = Task.key i t.
Proof. intros H t. unfold Task.key. now rewrite H. Qed.

Lemma user_update_sound (st st' : Store) (i : string)
    (f : User.t -> User.t) :
  (forall x, User.id (f x) = User.id x) ->
  Prisma.user_update st i f = inl st' -> sound st -> sound st'.
Proof.
  intros Hf H S.
  pose proof (user_update_wf _ _ Hf H (sound_wf S)) as W.
  apply user_update_inl in H. subst st'.
  destruct S. constructor; tables; auto.
  now rewrite rewrite_rows_column.
Qed.

Lemma project_create_sound (st st' : Store) (p : Project.t) :
  Project.assignedSolverId p = None -> Project.status p = "open" ->
  Prisma.project_create st p = inl st' -> sound st -> sound st'.
Proof.
  intros Ha Ho H S.
  pose proof (project_create_wf _ Ha Ho H (sound_wf S)) as W.
  apply project_create_inl in H. subst st'.
  destruct S. constructor; tables; auto.
  - intros r Hr. apply existsb_app_l. auto.
  - intros t Ht. destruct (task_assigned0 t Ht) as (q & Hq & Hid & Hs).
    exists q. split; [apply in_or_app; now left | auto].
  - intros r Hr Hacc.
    destruct (accepted_assigned0 r Hr Hacc) as (q & Hq & Hid & Hs).
    exists q. split; [apply in_or_app; now left | auto].
  - intros q Hq Hst. apply in_app_or in Hq.
    destruct Hq as [Hq | [<- | []]]; [auto|].
    rewrite Ho in Hst. destruct Hst; discriminate.
  - intros q Hq. apply in_app_or in Hq.
    destruct Hq as [Hq | [<- | []]]; [auto|].
    rewrite Ho. simpl. auto.
  - intros q Hq. apply in_app_or in Hq.
    destruct Hq as [Hq | [<- | []]]; [auto|].
    rewrite Ha. discriminate.
Qed.

Lemma request_create_sound (st st' : Store) (r : Request.t) :
  Request.status r = "pending" ->
  Prisma.request_create st r = inl st' -> sound st -> sound st'.
Proof.
  intros Hp H S.
  pose proof (request_create_wf _ H (sound_wf S)) as W.
  unfold Prisma.request_create in H.
  destruct (_ || _) eqn:Huq; [discriminate|].
  destruct (negb _) eqn:Hfk; [discriminate|]. injection H as <-.
  apply orb_false_iff in Huq. destruct Huq as [Hpk _].
  apply negb_false_iff, andb_true_iff in Hfk. destruct Hfk as [Hfk _].
  destruct S. constructor; tables; auto.
  - rewrite map_app. simpl. apply NoDup_snoc; [assumption|].
    now apply existsb_false_notin.
  - intros q Hq. apply in_app_or in Hq.
    destruct Hq as [Hq | [<- | []]]; auto.
  - intros q Hq Hacc. apply in_app_or in Hq.
    destruct Hq as [Hq | [<- | []]]; [auto | congruence].
  - intros q Hq. apply in_app_or in Hq.
    destruct Hq as [Hq | [<- | []]]; [auto|].
    rewrite Hp. simpl. auto.
Qed.

Lemma task_create_sound (st st' : Store) (k : Task.t) :
  Task.status k = "pending" ->
  (exists p, In p (projects st)
             /\ Project.id p = Task.projectId k
             /\ Project.assignedSolverId p <> None) ->
  Prisma.task_create st k = inl st' -> sound st -> sound st'.
Proof.
  intros Hp Hproj H S.
  pose proof (task_create_wf _ H (sound_wf S)) as W.
  unfold Prisma.task_create in H.
  destruct (existsb _ (tasks st)) eqn:Hpk; [discriminate|].
  destruct (negb _); [discriminate|]. injection H as <-.
  destruct S. constructor; tables; auto.
  - rewrite map_app. simpl. apply NoDup_snoc; [assumption|].
    now apply existsb_false_notin.
  - intros t Ht. apply in_app_or in Ht.
    destruct Ht as [Ht | [<- | []]]; auto.
  - intros b Hb. destruct (submission_project0 b Hb) as (t & Ht & E).
    exists t. split; [apply in_or_app; now left | exact E].
  - intros p Hq Hst. destruct (started_has_task0 p Hq Hst) as (t & Ht & E).
    exists t. split; [apply in_or_app; now left | exact E].
  - intros t Ht. apply in_app_or in Ht.
    destruct Ht as [Ht | [<- | []]]; [auto|].
    rewrite Hp. simpl. auto.
Qed.

Lemma task_update_sound (st st' : Store) (i : string)
    (f : Task.t -> Task.t) :
  (forall t, Task.id (f t) = Task.id t) ->
  (forall t, Task.projectId (f t) = Task.projectId t) ->
  (forall t, In (Task.status t) task_statuses ->
             In (Task.status (f t)) task_statuses) ->
  Prisma.task_update st i f = inl st' -> sound st -> sound st'.
Proof.
  intros Hid Hpr Hst H S.
  pose proof (task_update_wf _ _ Hid H (sound_wf S)) as W.
  apply task_update_inl in H. subst st'.
  destruct S. constructor; tables; auto.
  - now rewrite rewrite_rows_column.
  - intros t Ht. apply rewrite_rows_in in Ht. destruct Ht as (t0 & Ht0 & ->).
    destruct (Task.key i t0); [rewrite Hpr|]; auto.
  - intros b Hb. destruct (submission_project0 b Hb) as (t & Ht & E1 & E2).
    exists (if Task.key i t then f t else t). split; [|split].
    + now apply rewrite_rows_intro.
    + destruct (Task.key i t); [rewrite Hid|]; exact E1.
    + destruct (Task.key i t); [rewrite Hpr|]; exact E2.
  - intros p Hq Hs. destruct (started_has_task0 p Hq Hs) as (t & Ht & E).
    exists (if Task.key i t then f t else t). split.
    + now apply rewrite_rows_intro.
    + destruct (Task.key i t); [rewrite Hpr|]; exact E.
  - intros t Ht. apply rewrite_rows_in in Ht. destruct Ht as (t0 & Ht0 & ->).
    destruct (Task.key i t0); auto.
Qed.

Lemma submission_create_sound (st st' : Store) (b : Submission.t) :
  Submission.status b = "pending" ->
  (exists p, In p (projects st)
             /\ Project.id p = Submission.projectId b
             /\ Project.assignedSolverId p <> None) ->
  (exists t, In t (tasks st)
             /\ Task.id t = Submission.taskId b
             /\ Task.projectId t = Submission.projectId b) ->
  Prisma.submission_create st b = inl st' -> sound st -> sound st'.
Proof.
  intros Hp Hproj Htask H S.
  pose proof (submission_create_wf _ Hproj H (sound_wf S)) as W.
  unfold Prisma.submission_create in H.
  destruct (_ || _) eqn:Huq; [discriminate|].
  destruct (negb _); [discriminate|]. injection H as <-.
  apply orb_false_iff in Huq. destruct Huq as [Hpk _].
  destruct S. constructor; tables; auto.
  - rewrite map_app. simpl. apply NoDup_snoc; [assumption|].
    now apply existsb_false_notin.
  - intros c Hc. apply in_app_or in Hc.
    destruct Hc as [Hc | [<- | []]]; auto.
  - intros c Hc. apply in_app_or in Hc.
    destruct Hc as [Hc | [<- | []]]; [auto|].
    rewrite Hp. simpl. auto.
Qed.

Lemma submission_rewrite_sound (st : Store) (w : Submission.t -> bool)
    (f : Submission.t -> Submission.t) :
  (forall b, Submission.id (f b) = Submission.id b) ->
  (forall b, Submission.taskId (f b) = Submission.taskId b) ->
  (forall b, Submission.projectId (f b) = Submission.projectId b) ->
  (forall b, In (Submission.status (f b)) submission_statuses) ->
  sound st ->
  sound (set_submissions (Prisma.rewrite_rows w f (submissions st)) st).
Proof.
  intros Hid Ht Hp Hs S.
  pose proof (submission_rewrite_wf w _ Ht Hp (sound_wf S)) as W.
  destruct S. constructor; tables; auto.
  - now rewrite rewrite_rows_column.
  - intros c Hc. apply rewrite_rows_in in Hc. destruct Hc as (b & Hb & ->).
    destruct (w b); [rewrite Ht, Hp|]; auto.
  - intros c Hc. apply rewrite_rows_in in Hc. destruct Hc as (b & Hb & ->).
    destruct (w b); auto.
Qed.

Lemma includes_in (l : list string) (s : string) :
  Js.includes l s = true -> In s l.
Proof.
  unfold Js.includes. intros H. apply existsb_exists in H.
  destruct H as (x & Hx & E). apply String.eqb_eq in E. now subst.
Qed.

Lemma in_includes (l : list string) (s : string) :
  In s l -> Js.includes l s = true.
Proof.
  unfold Js.includes. intros H. apply existsb_exists. exists s.
  split; [exact H | apply String.eqb_refl].
Qed.

(** A project moves to in_progress or completed. *)
Lemma project_started_sound (st st' : Store) (i s : string) :
  s = "in_progress" \/ s = "completed" ->
  (forall p, In p (projects st) -> Project.id p = i ->
             Project.assignedSolverId p <> None) ->
  (exists t, In t (tasks st) /\ Task.projectId t = i) ->
  Prisma.project_update st i (Project.with_status s) = inl st' ->
  sound st -> sound st'.
Proof.
  intros Hs Hassigned Htask H S.
  assert (wf st') as W.
  { refine (@project_update_wf st st' i (Project.with_status s) _ _ _ H
              (sound_wf S)); [reflexivity | simpl; auto |].
    intros p Hp Hid. split.
    - intros E. destruct Hs; subst; discriminate.
    - intros E. exfalso. now apply (Hassigned p Hp Hid). }
  apply project_update_inl in H. subst st'.
  destruct S. constructor; tables; auto.
  - intros r Hr. rewrite rewrite_rows_existsb; auto.
  - intros t Ht. destruct (task_assigned0 t Ht) as (q & Hq & Hid & Ha).
    exists (if Project.key i q then Project.with_status s q else q).
    split; [now apply rewrite_rows_intro|].
    destruct (Project.key i q); auto.
  - intros r Hr Hacc.
    destruct (accepted_assigned0 r Hr Hacc) as (q & Hq & Hid & Ha).
    exists (if Project.key i q then Project.with_status s q else q).
    split; [now apply rewrite_rows_intro|].
    destruct (Project.key i q); auto.
  - intros q Hq Hst. apply rewrite_rows_in in Hq.
    destruct Hq as (p & Hp & ->).
    destruct (Project.key i p) eqn:Hk; [|auto].
    unfold Project.key in Hk. apply String.eqb_eq in Hk.
    destruct Htask as (t & Ht & E). exists t. split; [exact Ht|].
    simpl. congruence.
  - intros q Hq. apply rewrite_rows_in in Hq.
    destruct Hq as (p & Hp & ->).
    destruct (Project.key i p); [|auto].
    destruct Hs; subst; simpl; auto.
  - intros q Hq. apply rewrite_rows_in in Hq.
    destruct Hq as (p & Hp & ->).
    destruct (Project.key i p); simpl; auto.
Qed.

(** ** Every handler keeps the store sound *)

Section Soundness.

Variable trim : string -> string.
Variable parse_date : string -> option Z.

Lemma createProject_sound st u b newId :
  sound st -> sound (snd (createProject trim parse_date st u b newId)).
Proof.
  intros S. unfold createProject, server_error.
  repeat next_case; simpl; auto;
    eapply project_create_sound; eauto; reflexivity.
Qed.

Lemma createRequest_sound st u projectId message newId :
  sound st -> sound (snd (createRequest st u projectId message newId)).
Proof.
  intros S. unfold createRequest, createRequest_at, server_error.
  repeat next_case; simpl; auto.
  eapply request_create_sound; eauto. reflexivity.
Qed.

Lemma assignBuyer_sound st u id :
  sound st -> sound (snd (assignBuyer st u id)).
Proof.
  intros S. unfold assignBuyer, server_error.
  repeat next_case; simpl; auto.
  eapply user_update_sound; eauto; reflexivity.
Qed.

Lemma updateProfile_sound st u b :
  sound st -> sound (snd (updateProfile trim st u b)).
Proof.
  intros S. unfold updateProfile, server_error.
  repeat next_case; simpl; auto.
  eapply user_update_sound; eauto; reflexivity.
Qed.

Lemma assignSolver_sound st u id solverId :
  sound st -> sound (snd (assignSolver st u id solverId)).
Proof.
  intros S.
  pose proof (@assignSolver_wf st u id solverId (sound_wf S)) as W.
  revert W. unfold assignSolver, server_error.
  destruct (negb (authorize ["buyer"] u)); [auto|].
  destruct (negb (Validator.notEmpty solverId)) eqn:Hne; [auto|].
  destruct (Prisma.project_findUnique st id) as [p0|] eqn:Hp; [|auto].
  destruct (negb (Project.buyerId p0 =? req_id u)); [auto|].
  destruct (Prisma.project_update st id (Project.assign (field solverId)))
    as [st1|] eqn:Hup; [|auto].
  apply project_update_inl in Hup. subst st1.
  destruct (project_found _ _ Hp) as [Hin0 Hid0].
  unfold Prisma.request_updateMany. cbn [snd]. tables. rewrite Hid0.
  intros W.
  set (solver := field solverId) in *.
  set (w1 := fun r => (Request.projectId r =? id)
                      && (Request.solverId r =? solver)).
  set (w2 := fun r => (Request.projectId r =? id)
                      && negb (Request.solverId r =? solver)).
  assert (forall r', In r'
            (Prisma.rewrite_rows w2 (Request.with_status "rejected")
               (Prisma.rewrite_rows w1 (Request.with_status "accepted")
                  (requests st))) ->
          exists r, In r (requests st)
                    /\ Request.id r' = Request.id r
                    /\ Request.projectId r' = Request.projectId r
                    /\ Request.solverId r' = Request.solverId r
                    /\ (Request.status r' = "rejected"
                        \/ Request.status r' = "accepted"
                           /\ Request.projectId r = id
                           /\ Request.solverId r = solver
                        \/ Request.status r' = Request.status r
                           /\ Request.projectId r <> id)) as Hrows.
  { intros r' Hr'. apply rewrite_rows_in in Hr'.
    destruct Hr' as (r1 & Hr1 & ->). apply rewrite_rows_in in Hr1.
    destruct Hr1 as (r & Hr & ->). exists r. split; [exact Hr|].
    unfold w1, w2.
    destruct (Request.projectId r =? id) eqn:E1;
      destruct (Request.solverId r =? solver) eqn:E2; simpl;
      rewrite ?E1, ?E2; simpl; repeat split; auto.
    - right. left. apply String.eqb_eq in E1, E2. auto.
    - right. right. apply String.eqb_neq in E1. auto.
    - right. right. apply String.eqb_neq in E1. auto. }
  destruct S. constructor; tables; auto.
  - rewrite !rewrite_rows_column by reflexivity. assumption.
  - intros r' Hr'. destruct (Hrows r' Hr') as (r & Hr & _ & E & _).
    rewrite rewrite_rows_existsb by reflexivity. rewrite E. auto.
  - intros t Ht. destruct (task_assigned0 t Ht) as (q & Hq & Hid & Ha).
    exists (if Project.key id q then Project.assign solver q else q).
    split; [now apply rewrite_rows_intro|].
    destruct (Project.key id q); simpl; auto. split; [auto | discriminate].
  - intros r' Hr' Hacc.
    destruct (Hrows r' Hr') as (r & Hr & _ & Ep & Es & Hst).
    rewrite Ep, Es. destruct Hst as [E | [(_ & E1 & E2) | (E1 & E2)]].
    + congruence.
    + exists (Project.assign solver p0). split; [|split].
      * replace (Project.assign solver p0)
          with (if Project.key id p0 then Project.assign solver p0
                else p0).
        -- now apply rewrite_rows_intro.
        -- unfold Project.key. now rewrite Hid0, String.eqb_refl.
      * simpl. congruence.
      * simpl. congruence.
    + rewrite E1 in Hacc.
      destruct (accepted_assigned0 r Hr Hacc) as (q & Hq & Hid & Ha).
      exists q. split; [|auto].
      replace q with (if Project.key id q then Project.assign solver q
                      else q) at 1.
      * now apply rewrite_rows_intro.
      * unfold Project.key. rewrite Hid.
        apply String.eqb_neq in E2. now rewrite E2.
  - intros q Hq Hst. apply rewrite_rows_in in Hq.
    destruct Hq as (p & Hp' & ->).
    destruct (Project.key id p); [|auto].
    simpl in Hst. destruct Hst; discriminate.
  - intros q Hq. apply rewrite_rows_in in Hq.
    destruct Hq as (p & Hp' & ->).
    destruct (Project.key id p); [|auto]. simpl. auto.
  - intros r' Hr'.
    destruct (Hrows r' Hr') as (r & Hr & _ & _ & _ & Hst).
    destruct Hst as [E | [(E & _) | (E & _)]]; rewrite E;
      [simpl; auto | simpl; auto | now apply request_status_ok0].
  - intros q Hq. apply rewrite_rows_in in Hq.
    destruct Hq as (p & Hp' & ->).
    destruct (Project.key id p); [|auto]. simpl. unfold solver.
    destruct solverId as [s|]; [|discriminate]. simpl in *.
    intros E. injection E as ->. discriminate.
Qed.

Lemma task_found (st : Store) (i : string) (t : Task.t) :
  Prisma.task_findUnique st i = Some t ->
  In t (tasks st) /\ Task.id t = i.
Proof.
  intros H. apply find_in in H. destruct H as [Hin Hk]. split; [exact Hin|].
  now apply String.eqb_eq.
Qed.

Lemma with_status_sound st st' i s :
  In s task_statuses ->
  Prisma.task_update st i (Task.with_status s) = inl st' ->
  sound st -> sound st'.
Proof.
  intros Hs H S.
  eapply task_update_sound; eauto; try reflexivity. intros; exact Hs.
Qed.

Lemma createSubmission_sound st u file taskId message newId :
  sound st -> sound (snd (createSubmission st u file taskId message newId)).
Proof.
  intros S. unfold createSubmission, server_error.
  destruct (negb (authorize _ u)); [auto|].
  destruct (negb (Validator.notEmpty taskId)); [auto|].
  destruct file as [f|]; [|auto].
  destruct (Prisma.task_findUnique st (field taskId)) as [t|] eqn:Ht;
    [|auto].
  destruct (Prisma.project_findUnique st (Task.projectId t)) as [p|] eqn:Hp;
    [|auto].
  destruct (Js.differs _ _) eqn:Hd; [auto|].
  assert (Project.assignedSolverId p <> None) as Ha
    by (destruct (Project.assignedSolverId p); discriminate).
  destruct (project_found _ _ Hp) as [Hpin Hpid].
  destruct (task_found _ _ Ht) as [Htin Htid].
  destruct (Prisma.submission_findUnique_taskId st (field taskId))
    as [e|] eqn:He.
  - cbv zeta. destruct (negb (Prisma.file_data_ok _ _ _ _)); [auto|].
    destruct (Prisma.submission_update_taskId st _ _) as [st1|] eqn:Hu;
      [|auto].
    assert (sound st1) as S1.
    { apply submission_update_taskId_inl in Hu. subst st1.
      apply submission_rewrite_sound; auto. intros; simpl; auto. }
    destruct (Prisma.task_update st1 _ _) as [st2|] eqn:Hu2; [|auto].
    cbn [snd]. eapply with_status_sound; eauto. simpl; tauto.
  - cbv zeta. destruct (negb (Prisma.submission_data_ok _)); [auto|].
    destruct (Prisma.submission_create st _) as [st1|] eqn:Hc; [|auto].
    assert (sound st1) as S1.
    { eapply submission_create_sound; eauto; [reflexivity | |].
      - exists p. auto.
      - exists t. auto. }
    destruct (Prisma.task_update st1 _ _) as [st2|] eqn:Hu2; [|auto].
    cbn [snd]. eapply with_status_sound; eauto. simpl; tauto.
Qed.

Lemma reviewSubmission_sound st u id status now :
  sound st -> sound (snd (reviewSubmission st u id status now)).
Proof.
  intros S. unfold reviewSubmission, server_error.
  destruct (negb (authorize _ u)); [auto|].
  destruct (negb (Validator.isIn _ status)) eqn:Hv; [auto|].
  destruct (Prisma.submission_findUnique st id) as [b|] eqn:Hb; [|auto].
  destruct (Prisma.project_findUnique st (Submission.projectId b))
    as [p|] eqn:Hp; [|auto].
  destruct (negb (Project.buyerId p =? req_id u)); [auto|].
  destruct (Prisma.submission_update st id _) as [st1|] eqn:Hu; [|auto].
  assert (In (field status) submission_statuses) as Hdom.
  { apply negb_false_iff in Hv. destruct status as [s|]; [|discriminate].
    unfold Validator.isIn in Hv. apply includes_in in Hv.
    simpl in *. tauto. }
  assert (sound st1) as S1.
  { apply submission_update_inl in Hu. subst st1.
    apply submission_rewrite_sound; auto. }
  assert (projects st1 = projects st /\ tasks st1 = tasks st) as [Ep1 Et1].
  { apply submission_update_inl in Hu. subst st1. split; reflexivity. }
  destruct (field status =? "accepted").
  - destruct (Prisma.task_update st1 _ _) as [st2|] eqn:Hu2; [|auto].
    assert (sound st2) as S2
      by (eapply with_status_sound; eauto; simpl; tauto).
    pose proof (task_update_inl _ _ _ Hu2) as E2.
    match goal with
    | |- context [if ?c then _ else _] => destruct c eqn:Hall
    end; [|auto].
    destruct (Prisma.project_update st2 _ _) as [st3|] eqn:Hu3; [|auto].
    cbn [snd].
    refine (@project_started_sound st2 st3 _ "completed"
              (or_intror eq_refl) _ _ Hu3 S2).
    + intros q Hq Hid. subst st2. tables. rewrite Ep1 in Hq.
      pose proof Hb as Hbin. apply find_in in Hbin.
      destruct Hbin as [Hbin _].
      destruct (submitted_assigned (sound_wf S) b Hbin)
        as (q' & Hq' & Hid' & Ha').
      assert (q = q')
        by (apply (@pk_same_row st q q' (sound_wf S) Hq Hq'); congruence).
      now subst.
    + apply andb_true_iff in Hall. destruct Hall as [_ Hlen].
      unfold Prisma.task_findMany in Hlen.
      destruct (filter _ (tasks st2)) as [|t l] eqn:Hf; [discriminate|].
      assert (In t (filter
                      (fun t0 => Task.projectId t0
                                 =? Submission.projectId b) (tasks st2)))
        as Hin by (rewrite Hf; now left).
      apply filter_In in Hin. destruct Hin as [Hin Hk].
      exists t. split; [exact Hin | now apply String.eqb_eq].
  - destruct (field status =? "rejected"); [|auto].
    destruct (Prisma.task_update st1 _ _) as [st2|] eqn:Hu2; [|auto].
    cbn [snd]. eapply with_status_sound; eauto. simpl; tauto.
Qed.

Lemma createTask_sound st u b newId :
  sound st -> sound (snd (createTask trim parse_date st u b newId)).
Proof.
  intros S. unfold createTask, server_error.
  destruct (negb (authorize _ u)); [auto|].
  destruct (negb (_ && _)); [auto|].
  destruct (Prisma.project_findUnique st (field (tb_projectId b)))
    as [p|] eqn:Hp; [|auto].
  destruct (negb (Js.truthy _)) eqn:Htr; [auto|].
  destruct (Js.differs _ _); [auto|].
  destruct (parse_date _) as [deadline|]; [|auto].
  assert (Project.assignedSolverId p <> None) as Ha
    by (destruct (Project.assignedSolverId p); discriminate).
  destruct (project_found _ _ Hp) as [Hpin Hpid].
  cbv zeta. destruct (negb (Prisma.task_data_ok _)); [auto|].
  destruct (Prisma.task_create st _) as [st1|] eqn:Hc; [|auto].
  assert (sound st1) as S1.
  { eapply task_create_sound; eauto; [reflexivity|]. exists p. auto. }
  pose proof (task_create_inl _ _ Hc) as E1.
  destruct (Project.status p =? "assigned"); [|auto].
  destruct (Prisma.project_update st1 _ _) as [st2|] eqn:Hu; [|auto].
  cbn [snd].
  refine (@project_started_sound st1 st2 _ "in_progress"
            (or_introl eq_refl) _ _ Hu S1).
  - intros q Hq Hid. subst st1. tables.
    assert (q = p)
      by (apply (@pk_same_row st q p (sound_wf S) Hq Hpin); congruence).
    now subst.
  - subst st1. tables. eexists. split.
    + apply in_or_app. right. left. reflexivity.
    + reflexivity.
Qed.

Lemma updateTask_sound st u id b :
  sound st -> sound (snd (updateTask parse_date st u id b)).
Proof.
  intros S. unfold updateTask, server_error.
  destruct (negb (Validator.optional_isIn _ (tp_status b))) eqn:Hv;
    [auto|].
  apply negb_false_iff in Hv.
  destruct (Prisma.task_findUnique st id) as [t|]; [|auto].
  destruct (solver_block u _ b no_update) as [d1|] eqn:H1; [|auto].
  destruct (buyer_block u _ b d1) as [d2|] eqn:H2; [|auto].
  pose proof (blocks_status _ _ _ H1 H2) as Hd.
  assert (forall dl k, In (Task.status k) task_statuses ->
                       In (Task.status (task_apply d2 dl k)) task_statuses)
    as Hdom.
  { intros dl k Hk.
    change (Task.status (task_apply d2 dl k))
      with (match tp_status d2 with
            | Some v => v
            | None => Task.status k
            end).
    rewrite Hd. destruct (tp_status b) as [s|]; [|exact Hk].
    destruct (Js.truthy (Some s) && may_set u s); [|exact Hk].
    unfold Validator.optional_isIn in Hv. now apply includes_in. }
  destruct (option_map parse_date (tp_deadline d2)) as [[dl|]|]; [|auto|];
    cbv zeta; (destruct (negb _); [auto|]).
  - destruct (Prisma.task_update st id _) as [st1|] eqn:Hu; [|auto].
    cbn [snd]. eapply task_update_sound; eauto; reflexivity.
  - destruct (Prisma.task_update st id _) as [st1|] eqn:Hu; [|auto].
    cbn [snd]. eapply task_update_sound; eauto; reflexivity.
Qed.

Lemma step_sound st a :
  sound st -> sound (step trim parse_date st a).
Proof.
  intros S. unfold step, handle. destruct a.
  - now apply createProject_sound.
  - now apply assignSolver_sound.
  - now apply createSubmission_sound.
  - now apply reviewSubmission_sound.
  - now apply createTask_sound.
  - now apply updateTask_sound.
  - now apply createRequest_sound.
  - now apply assignBuyer_sound.
  - now apply updateProfile_sound.
Qed.

Lemma initial_sound st : initial st -> sound st.
Proof.
  intros I. pose proof (initial_wf I) as W.
  destruct I as (Hu & Hp & Hr & Ht & Hs).
  constructor; rewrite ?Hp, ?Hr, ?Ht, ?Hs; simpl;
    first [assumption | apply NoDup_nil | intros ? []].
Qed.

Lemma reachable_sound st : reachable trim parse_date st -> sound st.
Proof.
  induction 1 as [st Hi | st a _ IH].
  - now apply initial_sound.
  - now apply step_sound.
Qed.

End Soundness.

(** ** What holds in every reachable store *)

Lemma unique_row_found (A : Type) (g : A -> string) (l : list A) (x : A) :
  NoDup (map g l) -> In x l -> find (fun y => g y =? g x) l = Some x.
Proof. apply find_unique. Qed.

Lemma project_of (st : Store) (p : Project.t) :
  wf st -> In p (projects st) ->
  Prisma.project_findUnique st (Project.id p) = Some p.
Proof.
  intros W Hp. exact (@find_unique _ Project.id _ _ (pk_projects W) Hp).
Qed.

Lemma task_of (st : Store) (t : Task.t) :
  sound st -> In t (tasks st) ->
  Prisma.task_findUnique st (Task.id t) = Some t.
Proof.
  intros S Ht. exact (@find_unique _ Task.id _ _ (pk_tasks S) Ht).
Qed.

(** X1: the status columns only ever hold the values the README lists
    for them. *)
Theorem status_columns_stay_in_range trim parse_date st :
  reachable trim parse_date st ->
  (forall p, In p (projects st) -> In (Project.status p) project_statuses)
  /\ (forall r, In r (requests st) ->
        In (Request.status r) request_statuses)
  /\ (forall t, In t (tasks st) -> In (Task.status t) task_statuses)
  /\ (forall b, In b (submissions st) ->
        In (Submission.status b) submission_statuses).
Proof.
  intros R. pose proof (reachable_sound R) as S.
  repeat split.
  - exact (project_status_ok S).
  - exact (request_status_ok S).
  - exact (task_status_ok S).
  - exact (submission_status_ok S).
Qed.

Lemma status_columns_stay_in_range_witness :
  reachable Demo.trim Demo.parse_date Demo.st_reviewed
  /\ In (Project.status (Demo.p1 (Some "solver1") "completed"))
        project_statuses
  /\ In (Request.status (Demo.r2 "rejected")) request_statuses
  /\ In (Task.status (Demo.t1 "completed")) task_statuses
  /\ In (Submission.status (Demo.s1 "accepted" (Some 1000%Z)))
        submission_statuses.
Proof.
  assert (reachable Demo.trim Demo.parse_date Demo.st_reviewed) as R
    by exact (demo_reachable Demo.reviewing).
  destruct (status_columns_stay_in_range R) as (Hp & Hr & Ht & Hb).
  split; [exact R | repeat split].
  - apply Hp. left. reflexivity.
  - apply Hr. right. left. reflexivity.
  - apply Ht. left. reflexivity.
  - apply Hb. left. reflexivity.
Defined.

Lemma filter_le (A : Type) (k k' : A -> bool) (l : list A) :
  (forall x, In x l -> k x = true -> k' x = true) ->
  (length (filter k l) <= length (filter k' l))%nat.
Proof.
  induction l as [|x l IH]; simpl; intros H; [lia|].
  assert (length (filter k l) <= length (filter k' l))%nat as IH'
    by (apply IH; intros y Hy; apply H; now right).
  destruct (k x) eqn:E.
  - rewrite (H x (or_introl eq_refl) E). simpl. lia.
  - destruct (k' x); simpl; lia.
Qed.

Lemma unique_column_at_most_one (A : Type) (g : A -> string) (l : list A)
    (s : string) :
  NoDup (map g l) ->
  (length (filter (fun y => (g y =? s)%string) l) <= 1)%nat.
Proof.
  induction l as [|y l IH]; simpl; intros Hnd; [lia|].
  inversion Hnd as [|? ? Hnotin Hnd']; subst.
  destruct (g y =? s) eqn:E; [|auto].
  apply String.eqb_eq in E. simpl.
  rewrite filter_none; [simpl; lia|].
  intros z Hz. apply String.eqb_neq. intros Ez. apply Hnotin.
  rewrite E, <- Ez. now apply in_map.
Qed.

(** X2: in every reachable store an accepted request is the request of
    the solver its project is assigned to, and no project has two accepted
    requests. *)
Theorem accepted_request_is_the_solvers trim parse_date st :
  reachable trim parse_date st ->
  (forall r, In r (requests st) -> Request.status r = "accepted" ->
     exists p,
       Prisma.project_findUnique st (Request.projectId r) = Some p
       /\ Project.assignedSolverId p = Some (Request.solverId r))
  /\ (forall projectId,
        (count_status "accepted" (requests_of st projectId) <= 1)%nat).
Proof.
  intros R. pose proof (reachable_sound R) as S.
  pose proof (sound_wf S) as W.
  assert (forall r, In r (requests st) -> Request.status r = "accepted" ->
            exists p,
              Prisma.project_findUnique st (Request.projectId r) = Some p
              /\ Project.assignedSolverId p = Some (Request.solverId r))
    as Hacc.
  { intros r Hr Ha.
    destruct (accepted_assigned S r Hr Ha) as (p & Hp & Hid & Hs).
    exists p. split; [|exact Hs]. rewrite <- Hid. now apply project_of. }
  split; [exact Hacc|].
  intros projectId. unfold count_status.
  destruct (Prisma.project_findUnique st projectId) as [p|] eqn:Hp.
  - destruct (Project.assignedSolverId p) as [s|] eqn:Hs.
    + etransitivity;
        [|apply (unique_column_at_most_one Request.solverId
                   (requests_of st projectId) s
                   (requests_of_unique projectId W))].
      apply filter_le. intros r Hr Ha.
      apply filter_In in Hr. destruct Hr as [Hr Hk].
      apply String.eqb_eq in Hk, Ha.
      destruct (Hacc r Hr Ha) as (q & Hq & Hqs).
      rewrite Hk, Hp in Hq. injection Hq as <-.
      apply String.eqb_eq. congruence.
    + rewrite filter_none; [simpl; lia|].
      intros r Hr. apply filter_In in Hr. destruct Hr as [Hr Hk].
      apply String.eqb_eq in Hk. apply String.eqb_neq. intros Ha.
      destruct (Hacc r Hr Ha) as (q & Hq & Hqs).
      rewrite Hk, Hp in Hq. injection Hq as <-. congruence.
  - rewrite filter_none; [simpl; lia|].
    intros r Hr. apply filter_In in Hr. destruct Hr as [Hr Hk].
    apply String.eqb_eq in Hk. apply String.eqb_neq. intros Ha.
    destruct (Hacc r Hr Ha) as (q & Hq & Hqs).
    rewrite Hk, Hp in Hq. discriminate.
Qed.

Lemma accepted_request_is_the_solvers_witness :
  reachable Demo.trim Demo.parse_date Demo.st_planned
  /\ (exists p,
        Prisma.project_findUnique Demo.st_planned "p1" = Some p
        /\ Project.assignedSolverId p = Some "solver1")
  /\ (count_status "accepted" (requests_of Demo.st_planned "p1") <= 1)%nat.
Proof.
  assert (reachable Demo.trim Demo.parse_date Demo.st_planned) as R
    by exact (demo_reachable Demo.planning).
  destruct (accepted_request_is_the_solvers R) as (Hacc & Hone).
  split; [exact R | split].
  - apply (Hacc (Demo.r1 "accepted")); [left|]; reflexivity.
  - apply Hone.
Defined.

(** X3: in every reachable store a task belongs to a project that has a
    solver and is no longer open, and a project that is in progress or
    completed has at least one task. *)
Theorem tasks_follow_assignment trim parse_date st :
  reachable trim parse_date st ->
  (forall t, In t (tasks st) ->
     exists p,
       Prisma.project_findUnique st (Task.projectId t) = Some p
       /\ Project.assignedSolverId p <> None
       /\ Project.status p <> "open")
  /\ (forall p, In p (projects st) ->
        Project.status p = "in_progress"
        \/ Project.status p = "completed" ->
        exists t, In t (tasks st) /\ Task.projectId t = Project.id p).
Proof.
  intros R. pose proof (reachable_sound R) as S.
  pose proof (sound_wf S) as W. split.
  - intros t Ht. destruct (task_assigned S t Ht) as (p & Hp & Hid & Ha).
    exists p. split; [|split; [exact Ha|]].
    + rewrite <- Hid. now apply project_of.
    + intros Ho. apply Ha. now apply (open_unassigned W p Hp).
  - exact (started_has_task S).
Qed.

Lemma tasks_follow_assignment_witness :
  reachable Demo.trim Demo.parse_date Demo.st_planned
  /\ (exists p,
        Prisma.project_findUnique Demo.st_planned "p1" = Some p
        /\ Project.assignedSolverId p <> None
        /\ Project.status p <> "open")
  /\ (exists t, In t (tasks Demo.st_planned) /\ Task.projectId t = "p1").
Proof.
  assert (reachable Demo.trim Demo.parse_date Demo.st_planned) as R
    by exact (demo_reachable Demo.planning).
  destruct (tasks_follow_assignment R) as (Ht & Hp).
  split; [exact R | split].
  - apply (Ht (Demo.t1 "pending")). left. reflexivity.
  - apply (Hp (Demo.p1 (Some "solver1") "in_progress")).
    + left. reflexivity.
    + left. reflexivity.
Defined.

(** X4: in every reachable store a submission names a task that exists,
    is filed under that task's project, and that project has a solver. *)
Theorem submissions_follow_tasks trim parse_date st :
  reachable trim parse_date st ->
  forall b, In b (submissions st) ->
    exists t p,
      Prisma.task_findUnique st (Submission.taskId b) = Some t
      /\ Task.projectId t = Submission.projectId b
      /\ Prisma.project_findUnique st (Submission.projectId b) = Some p
      /\ Project.assignedSolverId p <> None.
Proof.
  intros R b Hb. pose proof (reachable_sound R) as S.
  pose proof (sound_wf S) as W.
  destruct (submission_project S b Hb) as (t & Ht & Hid & Hpr).
  destruct (submitted_assigned W b Hb) as (p & Hp & Hpid & Ha).
  exists t, p. repeat split; auto.
  - rewrite <- Hid. now apply task_of.
  - rewrite <- Hpid. now apply project_of.
Qed.

Lemma submissions_follow_tasks_witness :
  reachable Demo.trim Demo.parse_date Demo.st_delivered
  /\ exists t p,
       Prisma.task_findUnique Demo.st_delivered "t1" = Some t
       /\ Task.projectId t = "p1"
       /\ Prisma.project_findUnique Demo.st_delivered "p1" = Some p
       /\ Project.assignedSolverId p <> None.
Proof.
  assert (reachable Demo.trim Demo.parse_date Demo.st_delivered) as R
    by exact (demo_reachable Demo.delivering).
  split; [exact R|].
  apply (submissions_follow_tasks R (Demo.s1 "pending" None)).
  left. reflexivity.
Defined.

(** ** Rows are kept *)

Section Grown.

Variable A : Type.
Variable R : A -> A -> Prop.
Hypothesis R_refl : forall x, R x x.
Hypothesis R_trans : forall x y z, R x y -> R y z -> R x z.

Lemma Forall2_same (l : list A) : Forall2 R l l.
Proof. induction l; constructor; auto. Qed.

Lemma Forall2_chain (l1 l2 l3 : list A) :
  Forall2 R l1 l2 -> Forall2 R l2 l3 -> Forall2 R l1 l3.
Proof.
  intros H. revert l3. induction H as [|x y l1 l2 Hxy _ IH];
    intros l3 H23; inversion H23; subst; constructor; eauto.
Qed.

Lemma grown_same (l : list A) : grown R l l.
Proof.
  exists l, []. split; [now rewrite app_nil_r | apply Forall2_same].
Qed.

Lemma grown_chain (l1 l2 l3 : list A) :
  grown R l1 l2 -> grown R l2 l3 -> grown R l1 l3.
Proof.
  intros (k1 & a1 & -> & H1) (k2 & a2 & -> & H2).
  apply Forall2_app_inv_l in H2.
  destruct H2 as (k2a & k2b & Ha & Hb & ->).
  exists k2a, (k2b ++ a2). split; [now rewrite app_assoc|].
  eapply Forall2_chain; eauto.
Qed.

Lemma grown_insert (l : list A) (x : A) : grown R l (l ++ [x]).
Proof. exists l, [x]. split; [reflexivity | apply Forall2_same]. Qed.

Lemma grown_rewrite (w : A -> bool) (f : A -> A) (l : list A) :
  (forall x, R x (f x)) -> grown R l (Prisma.rewrite_rows w f l).
Proof.
  intros Hf. exists (Prisma.rewrite_rows w f l), [].
  split; [now rewrite app_nil_r|].
  induction l as [|x l IH]; simpl; constructor; auto.
  destruct (w x); auto.
Qed.

End Grown.

Lemma project_step_refl p : project_step p p.
Proof. unfold project_step. tauto. Qed.

Lemma project_step_trans p q r :
  project_step p q -> project_step q r -> project_step p r.
Proof.
  unfold project_step. intros (A1 & A2 & A3 & A4 & A5 & A6 & A7)
    (B1 & B2 & B3 & B4 & B5 & B6 & B7).
  repeat split; try congruence; auto.
Qed.

Lemma request_step_refl r : request_step r r.
Proof. unfold request_step. tauto. Qed.

Lemma request_step_trans p q r :
  request_step p q -> request_step q r -> request_step p r.
Proof.
  unfold request_step. intros (A1 & A2 & A3 & A4 & A5)
    (B1 & B2 & B3 & B4 & B5).
  repeat split; try congruence; auto.
Qed.

Lemma task_step_refl t : task_step t t.
Proof. unfold task_step. tauto. Qed.

Lemma task_step_trans p q r :
  task_step p q -> task_step q r -> task_step p r.
Proof.
  unfold task_step. intros (A1 & A2 & A3) (B1 & B2 & B3).
  repeat split; congruence.
Qed.

Lemma submission_step_refl b : submission_step b b.
Proof. unfold submission_step. tauto. Qed.

Lemma submission_step_trans p q r :
  submission_step p q -> submission_step q r -> submission_step p r.
Proof.
  unfold submission_step. intros (A1 & A2 & A3 & A4) (B1 & B2 & B3 & B4).
  repeat split; congruence.
Qed.

Lemma kept_refl st : kept st st.
Proof.
  repeat split; apply grown_same;
    auto using project_step_refl, request_step_refl, task_step_refl,
      submission_step_refl.
Qed.

Lemma kept_trans st1 st2 st3 : kept st1 st2 -> kept st2 st3 -> kept st1 st3.
Proof.
  intros (A1 & A2 & A3 & A4) (B1 & B2 & B3 & B4). repeat split.
  - eapply grown_chain; eauto using project_step_trans.
  - eapply grown_chain; eauto using request_step_trans.
  - eapply grown_chain; eauto using task_step_trans.
  - eapply grown_chain; eauto using submission_step_trans.
Qed.

(** One table of a store after a request. *)
Ltac grow :=
  first
    [ apply grown_same;
      auto using project_step_refl, request_step_refl, task_step_refl,
        submission_step_refl
    | apply grown_insert;
      auto using project_step_refl, request_step_refl, task_step_refl,
        submission_step_refl
    | apply grown_rewrite; intros ?; repeat split;
      simpl; auto; discriminate
    | eapply grown_chain;
      [ exact request_step_trans
      |
      | apply grown_rewrite; intros ?; repeat split;
        simpl; auto; discriminate ];
      apply grown_rewrite; intros ?; repeat split;
      simpl; auto; discriminate ].

Lemma step_kept trim parse_date st a :
  kept st (step trim parse_date st a).
Proof.
  unfold step, handle.
  destruct a; cbv beta iota zeta delta
    [createProject assignSolver createSubmission reviewSubmission
     createTask updateTask createRequest createRequest_at assignBuyer
     updateProfile
     server_error Prisma.request_updateMany];
    repeat next_case; written; cbn [snd];
    try apply kept_refl; unfold kept; tables; repeat split; grow.
Qed.

Lemma run_kept trim parse_date st l :
  kept st (run trim parse_date st l).
Proof.
  revert st. induction l as [|a l IH]; intros st; simpl.
  - apply kept_refl.
  - eapply kept_trans; [apply step_kept | apply IH].
Qed.

(** X5: over every sequence of requests, no row of projects, requests,
    tasks or submissions is removed or moved, and a row keeps its
    identifier and the rows it points to.  A project keeps its buyer,
    title, description and deadline, keeps having a solver once it has
    one, and never goes back to open; a request keeps its message and
    never goes back to pending. *)
Theorem rows_are_kept trim parse_date st l :
  let st' := run trim parse_date st l in
  grown project_step (projects st) (projects st')
  /\ grown request_step (requests st) (requests st')
  /\ grown task_step (tasks st) (tasks st')
  /\ grown submission_step (submissions st) (submissions st').
Proof.
  intros st'. pose proof (run_kept trim parse_date st l) as K.
  unfold kept in K. exact K.
Qed.

Lemma find_grown (A : Type) (R : A -> A -> Prop) (g : A -> string)
    (i : string) (l l' : list A) (x : A) :
  (forall a b, R a b -> g b = g a) ->
  grown R l l' ->
  find (fun y => g y =? i) l = Some x ->
  exists x', find (fun y => g y =? i) l' = Some x' /\ R x x'.
Proof.
  intros Hg (k & added & -> & HF). revert x.
  induction HF as [|a b l k Hab _ IH]; simpl; intros x Hx; [discriminate|].
  rewrite (Hg a b Hab). destruct (g a =? i).
  - injection Hx as <-. exists b. auto.
  - auto.
Qed.

(** X6: a project that can be fetched by its identifier can still be
    fetched by it after any sequence of requests; it has the same buyer,
    still has a solver if it had one, and is open only if it was. *)
Theorem project_stays_fetchable trim parse_date st l id p :
  Prisma.project_findUnique st id = Some p ->
  exists p',
    Prisma.project_findUnique (run trim parse_date st l) id = Some p'
    /\ Project.buyerId p' = Project.buyerId p
    /\ (Project.assignedSolverId p <> None ->
        Project.assignedSolverId p' <> None)
    /\ (Project.status p' = "open" -> Project.status p = "open").
Proof.
  intros Hp.
  destruct (run_kept trim parse_date st l) as (Hgrown & _).
  destruct (@find_grown _ project_step Project.id id _ _ p
              (fun a b H => proj1 H) Hgrown Hp) as (p' & Hp' & Hstep).
  exists p'. split; [exact Hp'|].
  destruct Hstep as (_ & Hb & _ & _ & _ & Ha & Ho). auto.
Qed.

Lemma project_stays_fetchable_witness :
  Prisma.project_findUnique Demo.st_open "p1" = Some (Demo.p1 None "open")
  /\ exists p',
       Prisma.project_findUnique
         (run Demo.trim Demo.parse_date Demo.st_open
            [AssignSolver Demo.buyer1 "p1" (Some "solver2");
             AssignBuyer Demo.admin1 "solver2"]) "p1" = Some p'
       /\ Project.buyerId p' = "buyer1".
Proof.
  split; [reflexivity|].
  destruct (@project_stays_fetchable Demo.trim Demo.parse_date Demo.st_open
              [AssignSolver Demo.buyer1 "p1" (Some "solver2");
               AssignBuyer Demo.admin1 "solver2"] "p1"
              (Demo.p1 None "open") eq_refl) as (p' & Hp' & Hb & _).
  exists p'. split; [exact Hp' | exact Hb].
Defined.

(** ** Requests that fail *)

Lemma task_update_inr st i f e :
  Prisma.task_update st i f = inr e -> Prisma.task_findUnique st i = None.
Proof.
  unfold Prisma.task_update.
  destruct (Prisma.task_findUnique st i); [discriminate | reflexivity].
Qed.

Lemma project_update_status_inr st i s e :
  Prisma.project_update st i (Project.with_status s) = inr e ->
  Prisma.project_findUnique st i = None.
Proof.
  unfold Prisma.project_update.
  destruct (Prisma.project_findUnique st i); [|reflexivity].
  simpl. rewrite same_refl. discriminate.
Qed.

(** X7: in a well-formed store a request that is answered with an error
    has written nothing, whichever route it went to: the writes of a
    route happen only once all that can fail has passed. *)
Theorem failed_request_writes_nothing trim parse_date st a :
  wf st ->
  succeeded (fst (handle trim parse_date st a)) = false ->
  snd (handle trim parse_date st a) = st.
Proof.
  intros W. unfold handle.
  destruct a; cbv beta iota zeta delta
    [createProject assignSolver createSubmission reviewSubmission
     createTask updateTask createRequest createRequest_at assignBuyer
     updateProfile
     server_error];
    repeat next_case; cbn [fst snd]; intros Hfail;
    try reflexivity; try discriminate; exfalso; written;
    repeat match goal with
           | H : Prisma.task_update _ _ _ = inr _ |- _ =>
               apply task_update_inr in H
           | H : Prisma.project_update _ _ (Project.with_status _) = inr _
             |- _ => apply project_update_status_inr in H
           end;
    unfold Prisma.task_findUnique, Prisma.project_findUnique,
      Prisma.submission_findUnique in *;
    tables; try congruence.
  all: match goal with
       | H : find (Submission.key _) (submissions _) = Some ?b |- _ =>
           apply find_in in H; destruct H as [Hb _];
           pose proof (fk_task W b Hb) as Hfk;
           rewrite find_existsb in Hfk
       end.
  all: match goal with
       | H : find ?k ?l = None, H' : context [find ?k ?l] |- _ =>
           rewrite H in H'; discriminate
       end.
Qed.

Lemma failed_request_writes_nothing_witness :
  succeeded
    (fst (handle Demo.trim Demo.parse_date Demo.st_planned
            (ReviewSubmission Demo.buyer1 "s9" (Some "accepted") 5)))
  = false
  /\ snd (handle Demo.trim Demo.parse_date Demo.st_planned
            (ReviewSubmission Demo.buyer1 "s9" (Some "accepted") 5))
     = Demo.st_planned.
Proof.
  split; [reflexivity|].
  apply (@failed_request_writes_nothing Demo.trim Demo.parse_date
           Demo.st_planned
           (ReviewSubmission Demo.buyer1 "s9" (Some "accepted") 5)
           (demo_wf Demo.planning) eq_refl).
Defined.

(** ** The read routes *)

Lemma newest_first_in (A : Type) (l : list A) (x : A) :
  In x (newest_first l) <-> In x l.
Proof. unfold newest_first. symmetry. apply in_rev. Qed.

Lemma column_is_iff (a : option string) (b : string) :
  column_is a b = true <-> a = Some b.
Proof.
  unfold column_is. destruct a as [s|]; simpl.
  - rewrite negb_true_iff, negb_false_iff, String.eqb_eq.
    split; congruence.
  - split; discriminate.
Qed.

Lemma in_projects_iff (st : Store) (w : Project.t -> bool) (i : string) :
  in_projects st w i = true
  <-> exists p, In p (projects st) /\ w p = true /\ Project.id p = i.
Proof.
  unfold in_projects, Js.includes. rewrite existsb_exists. split.
  - intros (x & Hx & E). apply String.eqb_eq in E. subst x.
    apply in_map_iff in Hx. destruct Hx as (p & Hid & Hp).
    apply filter_In in Hp. destruct Hp as [Hp Hw]. exists p. auto.
  - intros (p & Hp & Hw & Hid). exists i. split.
    + rewrite <- Hid. apply in_map. apply filter_In. auto.
    + apply String.eqb_refl.
Qed.

Lemma truthy_named (a : option string) :
  a <> None -> a <> Some "" -> Js.truthy a = true.
Proof.
  destruct a as [s|]; simpl; intros H1 H2; [|congruence].
  destruct (s =? "") eqn:E; [|reflexivity].
  apply String.eqb_eq in E. congruence.
Qed.

(** X8: what GET /api/projects lists.  To a buyer, the projects it owns;
    to a problem solver, in a reachable store, the projects that have no
    solver yet and the projects assigned to it, so never a project that is
    assigned to another solver; to any other role, every project. *)
Theorem project_list_shows_open_or_own trim parse_date st u p :
  reachable trim parse_date st ->
  (req_role u = "buyer" ->
   (In p (listProjects st u)
    <-> In p (projects st) /\ Project.buyerId p = req_id u))
  /\ (req_role u = "problem_solver" ->
      (In p (listProjects st u)
       <-> In p (projects st)
           /\ (Project.assignedSolverId p = None
               \/ Project.assignedSolverId p = Some (req_id u))))
  /\ (req_role u <> "buyer" -> req_role u <> "problem_solver" ->
      (In p (listProjects st u) <-> In p (projects st))).
Proof.
  intros R. pose proof (reachable_wf R) as W.
  unfold listProjects. rewrite newest_first_in, filter_In.
  split; [|split].
  - intros ->. simpl. rewrite String.eqb_eq. reflexivity.
  - intros ->. simpl. rewrite orb_true_iff, String.eqb_eq, column_is_iff.
    split; intros [Hp H]; (split; [exact Hp|]); destruct H as [H | H];
      auto; left; now apply (open_unassigned W p Hp).
  - intros Hb Hs. apply String.eqb_neq in Hb, Hs. rewrite Hb, Hs.
    tauto.
Qed.

Lemma project_list_shows_open_or_own_witness :
  reachable Demo.trim Demo.parse_date Demo.st_planned
  /\ ~ In (Demo.p1 (Some "solver1") "in_progress")
          (listProjects Demo.st_planned Demo.solver2)
  /\ In (Demo.p1 (Some "solver1") "in_progress")
        (listProjects Demo.st_planned Demo.solver1).
Proof.
  assert (reachable Demo.trim Demo.parse_date Demo.st_planned) as R
    by exact (demo_reachable Demo.planning).
  split; [exact R | split].
  - destruct (@project_list_shows_open_or_own Demo.trim Demo.parse_date
                Demo.st_planned Demo.solver2
                (Demo.p1 (Some "solver1") "in_progress") R)
      as (_ & Hs & _).
    intros Hin. apply (Hs eq_refl) in Hin.
    destruct Hin as [_ [H | H]]; discriminate.
  - destruct (@project_list_shows_open_or_own Demo.trim Demo.parse_date
                Demo.st_planned Demo.solver1
                (Demo.p1 (Some "solver1") "in_progress") R)
      as (_ & Hs & _).
    apply (Hs eq_refl). split; [left; reflexivity | right; reflexivity].
Defined.

(** X9: in a reachable store, a project that GET /api/projects lists to
    a user is answered to that user by GET /api/projects/:id, and the
    answer carries that very row; to a user who is not a buyer the route
    answers every project, listed or not. *)
Theorem listed_project_can_be_fetched trim parse_date st u p :
  reachable trim parse_date st ->
  (In p (listProjects st u) ->
   exists requests tasks,
     getProject st u (Project.id p) = Sent (p, requests, tasks))
  /\ (req_role u <> "buyer" -> In p (projects st) ->
      exists requests tasks,
        getProject st u (Project.id p) = Sent (p, requests, tasks)).
Proof.
  intros R. pose proof (reachable_wf R) as W. split.
  - intros Hin. unfold listProjects in Hin.
    apply newest_first_in, filter_In in Hin. destruct Hin as [Hp Hw].
    unfold getProject. rewrite (@project_of st p W Hp).
    destruct (req_role u =? "buyer") eqn:Hb.
    + rewrite Hw. simpl. eauto.
    + simpl. eauto.
  - intros Hb Hp. apply String.eqb_neq in Hb.
    unfold getProject. rewrite (@project_of st p W Hp), Hb. simpl. eauto.
Qed.

Lemma listed_project_can_be_fetched_witness :
  reachable Demo.trim Demo.parse_date Demo.st_planned
  /\ (exists requests tasks,
        getProject Demo.st_planned Demo.buyer1 "p1"
        = Sent (Demo.p1 (Some "solver1") "in_progress", requests, tasks))
  /\ (exists requests tasks,
        getProject Demo.st_planned Demo.solver2 "p1"
        = Sent (Demo.p1 (Some "solver1") "in_progress", requests, tasks)).
Proof.
  assert (reachable Demo.trim Demo.parse_date Demo.st_planned) as R
    by exact (demo_reachable Demo.planning).
  split; [exact R | split].
  - apply (proj1 (@listed_project_can_be_fetched Demo.trim Demo.parse_date
                    Demo.st_planned Demo.buyer1
                    (Demo.p1 (Some "solver1") "in_progress") R)).
    left. reflexivity.
  - apply (proj2 (@listed_project_can_be_fetched Demo.trim Demo.parse_date
                    Demo.st_planned Demo.solver2
                    (Demo.p1 (Some "solver1") "in_progress") R)).
    + discriminate.
    + left. reflexivity.
Defined.

(** X10: in a reachable store, what GET /api/projects/:id answers is the
    project with that identifier, all the requests of the project and all
    its tasks: the test on [assignedSolverId] before the tasks are read
    leaves no task out. *)
Theorem fetched_project_is_complete trim parse_date st u id p rs ts :
  reachable trim parse_date st ->
  getProject st u id = Sent (p, rs, ts) ->
  Prisma.project_findUnique st id = Some p
  /\ (forall r, In r rs <-> In r (requests st) /\ Request.projectId r = id)
  /\ (forall t, In t ts <-> In t (tasks st) /\ Task.projectId t = id).
Proof.
  intros R. pose proof (reachable_sound R) as S.
  pose proof (sound_wf S) as W. unfold getProject.
  destruct (Prisma.project_findUnique st id) as [p0|] eqn:Hp;
    [|discriminate].
  destruct (_ && _); [discriminate|]. intros H. injection H as -> <- <-.
  destruct (project_found _ _ Hp) as [Hin Hid].
  split; [reflexivity | split].
  - intros r. rewrite newest_first_in. unfold Prisma.request_findMany.
    rewrite filter_In, String.eqb_eq, Hid. reflexivity.
  - intros t. destruct (Js.truthy (Project.assignedSolverId p)) eqn:Ht.
    + rewrite newest_first_in. unfold Prisma.task_findMany.
      rewrite filter_In, String.eqb_eq, Hid. reflexivity.
    + split; [intros []|]. intros [Htin Htp]. exfalso.
      destruct (task_assigned S t Htin) as (q & Hq & Hqid & Ha).
      assert (q = p)
        by (apply (@pk_same_row st q p W Hq Hin); congruence).
      subst q.
      rewrite (truthy_named Ha (solver_named S p Hin)) in Ht.
      discriminate.
Qed.

Lemma fetched_project_is_complete_witness :
  reachable Demo.trim Demo.parse_date Demo.st_planned
  /\ getProject Demo.st_planned Demo.solver1 "p1"
     = Sent (Demo.p1 (Some "solver1") "in_progress",
             [Demo.r2 "rejected"; Demo.r1 "accepted"],
             [Demo.t1 "pending"])
  /\ (forall t, In t [Demo.t1 "pending"]
                <-> In t (tasks Demo.st_planned) /\ Task.projectId t = "p1").
Proof.
  assert (reachable Demo.trim Demo.parse_date Demo.st_planned) as R
    by exact (demo_reachable Demo.planning).
  split; [exact R | split; [reflexivity|]].
  apply (@fetched_project_is_complete Demo.trim Demo.parse_date
           Demo.st_planned Demo.solver1 "p1"
           (Demo.p1 (Some "solver1") "in_progress")
           [Demo.r2 "rejected"; Demo.r1 "accepted"] [Demo.t1 "pending"]
           R eq_refl).
Defined.

Lemma guarded_passed (role : string) (u : ReqUser)
    (project : option Project.t) (denied : Project.t -> bool) :
  guarded role u project denied = None ->
  req_role u = role ->
  exists p, project = Some p /\ denied p = false.
Proof.
  unfold guarded. intros H E. subst role. rewrite String.eqb_refl in H.
  destruct project as [p|]; [|discriminate].
  destruct (denied p) eqn:E; [discriminate|]. eauto.
Qed.

Lemma same_string (a b : string) : negb (a =? b) = false -> a = b.
Proof. rewrite negb_false_iff. apply String.eqb_eq. Qed.

(** X11: which read routes test the owner of the project when a buyer
    calls.  GET /api/projects/:id, GET /api/tasks/project/:projectId,
    GET /api/requests/project/:projectId and
    GET /api/submissions/:id/download answer a buyer only for a project
    it owns, and the four lists hold only rows of its projects.
    GET /api/tasks/:id makes no test: it answers the buyer with any task
    there is, whoever owns the project.  GET /api/submissions/task/:taskId
    answers no submission to a buyer: every answer of it is a refusal. *)
Theorem buyer_access_by_route on_disk st u :
  req_role u = "buyer" ->
  (forall id p rs ts,
     getProject st u id = Sent (p, rs, ts) ->
     Project.buyerId p = req_id u)
  /\ (forall projectId ts,
        tasksByProject st u projectId = Sent ts ->
        exists p, Prisma.project_findUnique st projectId = Some p
                  /\ Project.buyerId p = req_id u)
  /\ (forall projectId rs,
        requestsByProject st u projectId = Sent rs ->
        exists p, Prisma.project_findUnique st projectId = Some p
                  /\ Project.buyerId p = req_id u)
  /\ (forall id file,
        download on_disk st u id = Sent file ->
        exists b p,
          Prisma.submission_findUnique st id = Some b
          /\ Prisma.project_findUnique st (Submission.projectId b) = Some p
          /\ Project.buyerId p = req_id u)
  /\ (forall p, In p (listProjects st u) -> Project.buyerId p = req_id u)
  /\ (forall t, In t (listTasks st u) ->
        exists p, In p (projects st)
                  /\ Project.id p = Task.projectId t
                  /\ Project.buyerId p = req_id u)
  /\ (forall r, In r (listRequests st u) ->
        exists p, In p (projects st)
                  /\ Project.id p = Request.projectId r
                  /\ Project.buyerId p = req_id u)
  /\ (forall b, In b (listSubmissions st u) ->
        exists p, In p (projects st)
                  /\ Project.id p = Submission.projectId b
                  /\ Project.buyerId p = req_id u)
  /\ (forall id t,
        Prisma.task_findUnique st id = Some t -> getTask st u id = Sent t)
  /\ (forall taskId, exists r, submissionByTask st u taskId = Refused r).
Proof.
  intros Hrole.
  assert (forall i, in_projects st (fun p => Project.buyerId p =? req_id u)
                      i = true ->
                    exists p, In p (projects st)
                              /\ Project.id p = i
                              /\ Project.buyerId p = req_id u) as Hown.
  { intros i H. apply in_projects_iff in H.
    destruct H as (p & Hp & Hw & Hid). apply String.eqb_eq in Hw. eauto. }
  split; [|split; [|split; [|split; [|split; [|split; [|split;
    [|split; [|split]]]]]]]].
  - intros id p rs ts. unfold getProject. rewrite Hrole. simpl.
    destruct (Prisma.project_findUnique st id) as [p0|]; [|discriminate].
    destruct (negb _) eqn:E; [discriminate|].
    intros H. injection H as <- _ _. now apply same_string.
  - intros projectId ts. unfold tasksByProject. rewrite Hrole. simpl.
    destruct (Prisma.project_findUnique st projectId) as [p0|];
      [|discriminate].
    destruct (negb _) eqn:E; [discriminate|]. intros _.
    exists p0. split; [reflexivity | now apply same_string].
  - intros projectId rs. unfold requestsByProject. rewrite Hrole. simpl.
    destruct (Prisma.project_findUnique st projectId) as [p0|];
      [|discriminate].
    destruct (negb _) eqn:E; [discriminate|]. intros _.
    exists p0. split; [reflexivity | now apply same_string].
  - intros id file. unfold download.
    destruct (Prisma.submission_findUnique st id) as [b|]; [|discriminate].
    destruct (guarded "buyer" u _ _) eqn:G; [discriminate|]. intros _.
    destruct (guarded_passed _ _ _ G Hrole) as (p & Hp & Hd).
    exists b, p. repeat split; [exact Hp | now apply same_string].
  - intros p. unfold listProjects. rewrite Hrole, newest_first_in, filter_In.
    simpl. intros [_ H]. now apply String.eqb_eq.
  - intros t. unfold listTasks. rewrite Hrole, newest_first_in, filter_In.
    simpl. intros [_ H]. now apply Hown.
  - intros r. unfold listRequests. rewrite Hrole, newest_first_in, filter_In.
    simpl. intros [_ H]. now apply Hown.
  - intros b. unfold listSubmissions.
    rewrite Hrole, newest_first_in, filter_In.
    simpl. intros [_ H]. now apply Hown.
  - intros id t Ht. unfold getTask. now rewrite Ht.
  - intros taskId. unfold submissionByTask.
    destruct (Prisma.task_findUnique st taskId) as [t|]; [|eauto].
    destruct (guarded "buyer" u _ _); [eauto|].
    destruct (guarded "problem_solver" u _ _); eauto.
Qed.

(** A buyer who owns no project is refused the tasks of p1 and reads its
    task t1 all the same; the owner is refused the submission of t1. *)
Lemma buyer_access_by_route_witness :
  tasksByProject Demo.st_delivered (mkReqUser "buyer2" "buyer") "p1"
  = Refused (Json 403 "Not authorized")
  /\ getTask Demo.st_delivered (mkReqUser "buyer2" "buyer") "t1"
     = Sent (Demo.t1 "submitted")
  /\ exists r, submissionByTask Demo.st_delivered Demo.buyer1 "t1"
               = Refused r.
Proof.
  destruct (@buyer_access_by_route (fun _ => true) Demo.st_delivered
              (mkReqUser "buyer2" "buyer") eq_refl)
    as (_ & _ & _ & _ & _ & _ & _ & _ & Htask & _).
  destruct (@buyer_access_by_route (fun _ => true) Demo.st_delivered
              Demo.buyer1 eq_refl)
    as (_ & _ & _ & _ & _ & _ & _ & _ & _ & Hsub).
  split; [reflexivity | split].
  - apply Htask. reflexivity.
  - apply Hsub.
Defined.

Lemma not_differs (a : option string) (b : string) :
  Js.differs a b = false -> a = Some b.
Proof.
  intros H. apply column_is_iff. unfold column_is. now rewrite H.
Qed.

(** X12: which read routes test the solver of the project when a problem
    solver calls.  GET /api/tasks/project/:projectId answers only for a
    project assigned to the caller and GET /api/submissions/:id/download
    only for a submission the caller filed; the lists hold only the tasks
    of projects assigned to the caller and the requests and submissions
    the caller made.  The other routes make no test of the solver:
    GET /api/projects/:id answers any project with its requests and, when
    it has a solver, its tasks; GET /api/requests/project/:projectId
    answers the requests of any project; GET /api/tasks/:id answers any
    task.  GET /api/submissions/task/:taskId answers no submission:
    every answer of it is a refusal. *)
Theorem solver_access_by_route on_disk st u :
  req_role u = "problem_solver" ->
  (forall projectId ts,
     tasksByProject st u projectId = Sent ts ->
     exists p, Prisma.project_findUnique st projectId = Some p
               /\ Project.assignedSolverId p = Some (req_id u))
  /\ (forall id file,
        download on_disk st u id = Sent file ->
        exists b,
          Prisma.submission_findUnique st id = Some b
          /\ Submission.solverId b = req_id u
          /\ on_disk (Submission.filePath b) = true
          /\ file = (Submission.filePath b, Submission.fileName b))
  /\ (forall t, In t (listTasks st u) ->
        exists p, In p (projects st)
                  /\ Project.id p = Task.projectId t
                  /\ Project.assignedSolverId p = Some (req_id u))
  /\ (forall r, In r (listRequests st u) -> Request.solverId r = req_id u)
  /\ (forall b, In b (listSubmissions st u) ->
        Submission.solverId b = req_id u)
  /\ (forall id p,
        Prisma.project_findUnique st id = Some p ->
        getProject st u id
        = Sent (p,
                newest_first
                  (Prisma.request_findMany st
                     (fun r => Request.projectId r =? Project.id p)),
                if Js.truthy (Project.assignedSolverId p)
                then newest_first
                       (Prisma.task_findMany st
                          (fun t => Task.projectId t =? Project.id p))
                else []))
  /\ (forall projectId p,
        Prisma.project_findUnique st projectId = Some p ->
        requestsByProject st u projectId
        = Sent (newest_first
                  (Prisma.request_findMany st
                     (fun r => Request.projectId r =? projectId))))
  /\ (forall id t,
        Prisma.task_findUnique st id = Some t -> getTask st u id = Sent t)
  /\ (forall taskId, exists r, submissionByTask st u taskId = Refused r).
Proof.
  intros Hrole.
  split; [|split; [|split; [|split; [|split; [|split; [|split;
    [|split]]]]]]].
  - intros projectId ts. unfold tasksByProject. rewrite Hrole. simpl.
    destruct (Prisma.project_findUnique st projectId) as [p0|];
      [|discriminate].
    destruct (Js.differs _ _) eqn:E; [discriminate|]. intros _.
    exists p0. split; [reflexivity | now apply not_differs].
  - intros id file. unfold download.
    destruct (Prisma.submission_findUnique st id) as [b|]; [|discriminate].
    destruct (guarded "buyer" u _ _); [discriminate|].
    rewrite Hrole. simpl.
    destruct (negb (Submission.solverId b =? req_id u)) eqn:E;
      [discriminate|].
    destruct (negb (on_disk _)) eqn:D; [discriminate|].
    intros H. injection H as <-. exists b.
    repeat split; [now apply same_string | now apply negb_false_iff].
  - intros t. unfold listTasks. rewrite Hrole, newest_first_in, filter_In.
    simpl. intros [_ H]. apply in_projects_iff in H.
    destruct H as (p & Hp & Hw & Hid). apply column_is_iff in Hw. eauto.
  - intros r. unfold listRequests. rewrite Hrole, newest_first_in, filter_In.
    simpl. intros [_ H]. now apply String.eqb_eq.
  - intros b. unfold listSubmissions.
    rewrite Hrole, newest_first_in, filter_In.
    simpl. intros [_ H]. now apply String.eqb_eq.
  - intros id p Hp. unfold getProject. rewrite Hp, Hrole. reflexivity.
  - intros projectId p Hp. unfold requestsByProject.
    rewrite Hp, Hrole. reflexivity.
  - intros id t Ht. unfold getTask. now rewrite Ht.
  - intros taskId. unfold submissionByTask.
    destruct (Prisma.task_findUnique st taskId) as [t|]; [|eauto].
    destruct (guarded "buyer" u _ _); [eauto|].
    destruct (guarded "problem_solver" u _ _); eauto.
Qed.

(** solver2 is not the solver of p1: it is refused the tasks of p1 by the
    route for the tasks of a project, and gets them with the project. *)
Lemma solver_access_by_route_witness :
  tasksByProject Demo.st_delivered Demo.solver2 "p1"
  = Refused (Json 403 "Not authorized")
  /\ getProject Demo.st_delivered Demo.solver2 "p1"
     = Sent (Demo.p1 (Some "solver1") "in_progress",
             [Demo.r2 "rejected"; Demo.r1 "accepted"],
             [Demo.t1 "submitted"])
  /\ exists r, submissionByTask Demo.st_delivered Demo.solver1 "t1"
               = Refused r.
Proof.
  destruct (@solver_access_by_route (fun _ => true) Demo.st_delivered
              Demo.solver2 eq_refl)
    as (_ & _ & _ & _ & _ & Hproject & _).
  destruct (@solver_access_by_route (fun _ => true) Demo.st_delivered
              Demo.solver1 eq_refl)
    as (_ & _ & _ & _ & _ & _ & _ & _ & Hsub).
  split; [reflexivity | split].
  - rewrite (Hproject "p1" (Demo.p1 (Some "solver1") "in_progress")
               eq_refl).
    reflexivity.
  - apply Hsub.
Defined.

(** X13: in a reachable store the task list and the per-project view
    agree for every caller: GET /api/tasks lists a task exactly when
    GET /api/tasks/project/:projectId answers the caller for the task's
    project, and then the task is in that answer. *)
Theorem task_list_agrees_with_project_view trim parse_date st u t :
  reachable trim parse_date st ->
  (In t (listTasks st u)
   <-> exists ts,
         tasksByProject st u (Task.projectId t) = Sent ts /\ In t ts).
Proof.
  intros R. pose proof (reachable_sound R) as S.
  pose proof (sound_wf S) as W.
  unfold listTasks, tasksByProject.
  rewrite newest_first_in, filter_In. split.
  - intros [Ht Hw].
    destruct (task_assigned S t Ht) as (q & Hq & Hqid & _).
    rewrite <- Hqid, (@project_of st q W Hq), Hqid.
    assert (forall w, in_projects st w (Task.projectId t) = true ->
                      w q = true) as Hsel.
    { intros w H. apply in_projects_iff in H.
      destruct H as (p & Hp & Hwp & Hid).
      assert (p = q)
        by (apply (@pk_same_row st p q W Hp Hq); congruence).
      now subst. }
    destruct (req_role u =? "buyer") eqn:Hb.
    + apply Hsel in Hw. rewrite Hw. simpl.
      assert ((req_role u =? "problem_solver") = false) as ->.
      { apply String.eqb_eq in Hb. now rewrite Hb. }
      simpl. eexists. split; [reflexivity|].
      apply newest_first_in, filter_In. split; [exact Ht|].
      apply String.eqb_refl.
    + simpl. destruct (req_role u =? "problem_solver") eqn:Hs.
      * apply Hsel in Hw. unfold column_is in Hw.
        apply negb_true_iff in Hw. rewrite Hw. simpl.
        eexists. split; [reflexivity|].
        apply newest_first_in, filter_In. split; [exact Ht|].
        apply String.eqb_refl.
      * simpl. eexists. split; [reflexivity|].
        apply newest_first_in, filter_In. split; [exact Ht|].
        apply String.eqb_refl.
  - intros (ts & H & Hin).
    destruct (Prisma.project_findUnique st (Task.projectId t)) as [q|]
      eqn:Hq; [|discriminate].
    destruct (project_found _ _ Hq) as [Hqin Hqid].
    destruct ((req_role u =? "buyer") && _) eqn:G1; [discriminate|].
    destruct ((req_role u =? "problem_solver") && _) eqn:G2;
      [discriminate|].
    injection H as <-.
    apply newest_first_in, filter_In in Hin. destruct Hin as [Ht _].
    split; [exact Ht|].
    destruct (req_role u =? "buyer") eqn:Hb.
    + apply in_projects_iff. exists q. repeat split; auto.
      simpl in G1. now apply negb_false_iff in G1.
    + destruct (req_role u =? "problem_solver") eqn:Hs; [|reflexivity].
      apply in_projects_iff. exists q. repeat split; auto.
      simpl in G2. unfold column_is. now rewrite G2.
Qed.

Lemma task_list_agrees_with_project_view_witness :
  reachable Demo.trim Demo.parse_date Demo.st_planned
  /\ (In (Demo.t1 "pending") (listTasks Demo.st_planned Demo.solver1)
      <-> exists ts,
            tasksByProject Demo.st_planned Demo.solver1 "p1" = Sent ts
            /\ In (Demo.t1 "pending") ts).
Proof.
  assert (reachable Demo.trim Demo.parse_date Demo.st_planned) as R
    by exact (demo_reachable Demo.planning).
  split; [exact R|].
  exact (@task_list_agrees_with_project_view Demo.trim Demo.parse_date
           Demo.st_planned Demo.solver1 (Demo.t1 "pending") R).
Defined.

(** ** Writing, then reading *)

Lemma find_snoc (A : Type) (k : A -> bool) (l : list A) (x : A) :
  find k (l ++ [x])
  = match find k l with
    | Some y => Some y
    | None => if k x then Some x else None
    end.
Proof.
  induction l as [|y l IH]; simpl; [reflexivity|].
  destruct (k y); [reflexivity | exact IH].
Qed.

Lemma filter_snoc (A : Type) (k : A -> bool) (l : list A) (x : A) :
  filter k (l ++ [x]) = filter k l ++ (if k x then [x] else []).
Proof. rewrite filter_app. reflexivity. Qed.

Lemma newest_first_snoc (A : Type) (l : list A) (x : A) :
  newest_first (l ++ [x]) = x :: newest_first l.
Proof. unfold newest_first. now rewrite rev_app_distr. Qed.

Lemma authorized_role (role : string) (u : ReqUser) :
  authorize [role] u = true -> req_role u = role.
Proof.
  unfold authorize, Js.includes. simpl. rewrite orb_false_r.
  apply String.eqb_eq.
Qed.

Lemma project_create_fresh st st' p :
  Prisma.project_create st p = inl st' ->
  Prisma.project_findUnique st (Project.id p) = None.
Proof.
  unfold Prisma.project_create, Prisma.project_findUnique.
  rewrite find_existsb.
  destruct (find _ (projects st)); [discriminate | reflexivity].
Qed.

(** X14: a project that POST /api/projects has created is open, has no
    solver and belongs to the caller, who is a buyer; no other table is
    written.  In a sound store the caller then gets it back by its
    identifier with no requests and no tasks, and finds it first in its
    list. *)
Theorem created_project_can_be_fetched trim parse_date st u b newId :
  sound st ->
  succeeded (fst (createProject trim parse_date st u b newId)) = true ->
  let st' := snd (createProject trim parse_date st u b newId) in
  req_role u = "buyer"
  /\ exists p,
       st' = set_projects (projects st ++ [p]) st
       /\ Project.id p = newId
       /\ Project.buyerId p = req_id u
       /\ Project.status p = "open"
       /\ Project.assignedSolverId p = None
       /\ Some (Project.title p) = trimmed trim (pb_title b)
       /\ getProject st' u newId = Sent (p, [], [])
       /\ listProjects st' u = p :: listProjects st u.
Proof.
  intros S. cbv zeta. unfold createProject, server_error.
  destruct (negb (authorize ["buyer"] u)) eqn:Ha; [discriminate|].
  apply negb_false_iff, authorized_role in Ha.
  destruct (negb (_ && _)) eqn:Hv; [discriminate|].
  apply negb_false_iff, andb_true_iff in Hv. destruct Hv as [Hv1 _].
  assert (Some (field (trimmed trim (pb_title b)))
          = trimmed trim (pb_title b)) as Htitle
    by (destruct (trimmed trim (pb_title b)); [reflexivity | discriminate]).
  set (deadline := if Js.truthy (pb_deadline b)
                   then Some (parse_date (field (pb_deadline b)))
                   else None).
  assert (forall row,
            Project.id row = newId -> Project.buyerId row = req_id u ->
            Project.status row = "open" ->
            Project.assignedSolverId row = None ->
            Some (Project.title row) = trimmed trim (pb_title b) ->
            succeeded
              (fst match Prisma.project_create st row with
                   | inl st1 => (Json 201 "", st1)
                   | inr _ => (Json 500 "Server error", st)
                   end) = true ->
            req_role u = "buyer"
            /\ exists p,
                 snd match Prisma.project_create st row with
                     | inl st1 => (Json 201 "", st1)
                     | inr _ => (Json 500 "Server error", st)
                     end = set_projects (projects st ++ [p]) st
                 /\ Project.id p = newId
                 /\ Project.buyerId p = req_id u
                 /\ Project.status p = "open"
                 /\ Project.assignedSolverId p = None
                 /\ Some (Project.title p) = trimmed trim (pb_title b)
                 /\ getProject
                      (snd match Prisma.project_create st row with
                           | inl st1 => (Json 201 "", st1)
                           | inr _ => (Json 500 "Server error", st)
                           end) u newId = Sent (p, [], [])
                 /\ listProjects
                      (snd match Prisma.project_create st row with
                           | inl st1 => (Json 201 "", st1)
                           | inr _ => (Json 500 "Server error", st)
                           end) u = p :: listProjects st u) as Hrow.
  { intros row Hid Hb Ho Hs Ht.
    destruct (Prisma.project_create st row) as [st1|] eqn:Hc;
      [|discriminate].
    pose proof (project_create_fresh _ _ Hc) as Hpk.
    apply project_create_inl in Hc. subst st1. intros _. cbn [snd].
    split; [exact Ha|]. exists row. repeat split; auto.
    - unfold getProject. unfold Prisma.project_findUnique in *. tables.
      rewrite find_snoc. rewrite Hid in Hpk. rewrite Hpk.
      unfold Project.key at 1. rewrite Hid, String.eqb_refl.
      rewrite Hb, String.eqb_refl, andb_false_r, Hs. simpl.
      unfold Prisma.request_findMany. tables.
      rewrite filter_none; [reflexivity|].
      intros r Hr. apply String.eqb_neq. intros E.
      pose proof (fk_request_project S r Hr) as Hfk.
      rewrite E, Hid, find_existsb, Hpk in Hfk. discriminate.
    - unfold listProjects. tables. rewrite Ha. simpl.
      rewrite filter_snoc, Hb, String.eqb_refl.
      now rewrite newest_first_snoc. }
  destruct deadline as [[d|]|]; [| discriminate |]; cbv zeta;
    (destruct (negb (Prisma.project_data_ok _)); [discriminate|]);
    apply Hrow; auto.
Qed.

Lemma demo_sound l : sound (Demo.after l).
Proof. eapply reachable_sound, demo_reachable. Qed.

Lemma created_project_can_be_fetched_witness :
  req_role Demo.buyer1 = "buyer"
  /\ exists p,
       Project.status p = "open"
       /\ Project.assignedSolverId p = None
       /\ getProject
            (snd (createProject Demo.trim Demo.parse_date Demo.st0
                    Demo.buyer1
                    (mkProjectBody (Some " Landing page ")
                       (Some "Build it") None) "p1"))
            Demo.buyer1 "p1" = Sent (p, [], []).
Proof.
  destruct (@created_project_can_be_fetched Demo.trim Demo.parse_date
              Demo.st0 Demo.buyer1
              (mkProjectBody (Some " Landing page ") (Some "Build it") None)
              "p1" (demo_sound []) eq_refl)
    as (Hrole & p & _ & _ & _ & Ho & Hs & _ & Hget & _).
  split; [exact Hrole|]. exists p. repeat split; assumption.
Defined.

Lemma request_create_fresh st st' r :
  Prisma.request_create st r = inl st' ->
  Prisma.request_findUnique_projectId_solverId st (Request.projectId r)
    (Request.solverId r) = None.
Proof.
  unfold Prisma.request_create,
    Prisma.request_findUnique_projectId_solverId.
  destruct (existsb (Request.key _) _); [discriminate|]. simpl.
  rewrite find_existsb.
  destruct (find _ (requests st)); [discriminate | reflexivity].
Qed.

(** X15: a request that POST /api/requests has created is pending, is
    the caller's, and is for a project that was open and for which the
    caller had no request; the caller is a problem solver.  The request
    is then first in the caller's list, and first in what
    GET /api/requests/project/:projectId answers to whoever could read
    the requests of that project before. *)
Theorem created_request_can_be_listed st u projectId message newId :
  succeeded (fst (createRequest st u projectId message newId)) = true ->
  let st' := snd (createRequest st u projectId message newId) in
  let row :=
    Request.mk newId (field projectId) (req_id u) message "pending" in
  req_role u = "problem_solver"
  /\ (exists p,
        Prisma.project_findUnique st (field projectId) = Some p
        /\ Project.status p = "open")
  /\ Prisma.request_findUnique_projectId_solverId st (field projectId)
       (req_id u) = None
  /\ st' = set_requests (requests st ++ [row]) st
  /\ listRequests st' u = row :: listRequests st u
  /\ (forall v rs,
        requestsByProject st v (field projectId) = Sent rs ->
        requestsByProject st' v (field projectId) = Sent (row :: rs)).
Proof.
  cbv zeta. unfold createRequest, createRequest_at, server_error.
  destruct (negb (authorize ["problem_solver"] u)) eqn:Ha; [discriminate|].
  apply negb_false_iff, authorized_role in Ha.
  destruct (negb (Validator.notEmpty projectId)); [discriminate|].
  destruct (Prisma.project_findUnique st (field projectId)) as [p|] eqn:Hp;
    [|discriminate].
  destruct (negb (Project.status p =? "open")) eqn:Ho; [discriminate|].
  apply same_string in Ho.
  destruct (Prisma.request_findUnique_projectId_solverId st _ _) eqn:He;
    [discriminate|].
  cbv zeta. destruct (negb (Prisma.request_data_ok _)); [discriminate|].
  destruct (Prisma.request_create st _) as [st1|[]] eqn:Hc;
    try discriminate.
  apply request_create_inl in Hc. subst st1. intros _. cbn [snd].
  split; [exact Ha|]. split; [eauto|]. split; [reflexivity|].
  split; [reflexivity|]. split.
  - unfold listRequests. tables. rewrite Ha. simpl.
    rewrite filter_snoc. simpl. rewrite String.eqb_refl.
    now rewrite newest_first_snoc.
  - intros v rs. unfold requestsByProject, Prisma.project_findUnique,
      Prisma.request_findMany. tables.
    fold (Prisma.project_findUnique st (field projectId)). rewrite Hp.
    destruct (_ && _); [discriminate|]. intros H. injection H as <-.
    rewrite filter_snoc. simpl. rewrite String.eqb_refl.
    now rewrite newest_first_snoc.
Qed.

Lemma created_request_can_be_listed_witness :
  listRequests
    (snd (createRequest Demo.st_open
            (mkReqUser "solver3" "problem_solver") (Some "p1") None "r3"))
    (mkReqUser "solver3" "problem_solver")
  = [Request.mk "r3" "p1" "solver3" None "pending"]
  /\ requestsByProject
       (snd (createRequest Demo.st_open
               (mkReqUser "solver3" "problem_solver") (Some "p1") None
               "r3")) Demo.buyer1 "p1"
     = Sent [Request.mk "r3" "p1" "solver3" None "pending";
             Demo.r2 "pending"; Demo.r1 "pending"].
Proof.
  destruct (@created_request_can_be_listed Demo.st_open
              (mkReqUser "solver3" "problem_solver") (Some "p1") None "r3"
              eq_refl) as (_ & _ & _ & _ & Hlist & Hby).
  split.
  - exact Hlist.
  - apply (Hby Demo.buyer1 [Demo.r2 "pending"; Demo.r1 "pending"]).
    reflexivity.
Defined.

Lemma task_create_fresh st st' k :
  Prisma.task_create st k = inl st' ->
  Prisma.task_findUnique st (Task.id k) = None.
Proof.
  unfold Prisma.task_create, Prisma.task_findUnique.
  rewrite find_existsb.
  destruct (find _ (tasks st)); [discriminate | reflexivity].
Qed.

Lemma solver_is_no_buyer (u : ReqUser) :
  req_role u = "problem_solver" -> (req_role u =? "buyer") = false.
Proof. intros ->. reflexivity. Qed.

(** X16: a task that POST /api/tasks has created is pending and is the
    last row of the tasks table.  The caller, a problem solver, gets it
    back by its identifier, and GET /api/tasks/project/:projectId answers
    the caller with the new task in front of the tasks it answered
    before. *)
Theorem created_task_can_be_listed trim parse_date st u b newId :
  succeeded (fst (createTask trim parse_date st u b newId)) = true ->
  let st' := snd (createTask trim parse_date st u b newId) in
  req_role u = "problem_solver"
  /\ exists k ts,
       tasks st' = tasks st ++ [k]
       /\ Task.id k = newId
       /\ Task.status k = "pending"
       /\ getTask st' u newId = Sent k
       /\ tasksByProject st u (field (tb_projectId b)) = Sent ts
       /\ tasksByProject st' u (field (tb_projectId b)) = Sent (k :: ts).
Proof.
  cbv zeta. unfold createTask, server_error.
  destruct (negb (authorize ["problem_solver"] u)) eqn:Ha; [discriminate|].
  apply negb_false_iff, authorized_role in Ha.
  destruct (negb (_ && _)); [discriminate|].
  destruct (Prisma.project_findUnique st (field (tb_projectId b)))
    as [p|] eqn:Hp; [|discriminate].
  destruct (negb (Js.truthy _)); [discriminate|].
  destruct (Js.differs _ _) eqn:Hd; [discriminate|].
  destruct (parse_date _) as [deadline|]; [|discriminate].
  cbv zeta. destruct (negb (Prisma.task_data_ok _)); [discriminate|].
  destruct (Prisma.task_create st _) as [st1|] eqn:Hc; [|discriminate].
  pose proof (task_create_fresh _ _ Hc) as Hfresh. simpl in Hfresh.
  apply task_create_inl in Hc. subst st1.
  assert (tasksByProject st u (field (tb_projectId b))
          = Sent (newest_first
                    (Prisma.task_findMany st
                       (fun t => Task.projectId t
                                 =? field (tb_projectId b))))) as Hbefore.
  { unfold tasksByProject. rewrite Hp, Ha, Hd. reflexivity. }
  assert (forall st2,
            tasks st2
            = tasks st
              ++ [Task.mk newId (field (tb_projectId b)) (req_id u)
                    (field (trimmed trim (tb_title b)))
                    (field (trimmed trim (tb_description b))) deadline
                    "pending"] ->
            (exists p', Prisma.project_findUnique st2
                          (field (tb_projectId b)) = Some p'
                        /\ Project.assignedSolverId p'
                           = Project.assignedSolverId p) ->
            req_role u = "problem_solver"
            /\ exists k ts,
                 tasks st2 = tasks st ++ [k]
                 /\ Task.id k = newId
                 /\ Task.status k = "pending"
                 /\ getTask st2 u newId = Sent k
                 /\ tasksByProject st u (field (tb_projectId b)) = Sent ts
                 /\ tasksByProject st2 u (field (tb_projectId b))
                    = Sent (k :: ts)) as Hend.
  { intros st2 Ht (p' & Hp' & Hs'). split; [exact Ha|].
    eexists. eexists. split; [exact Ht|].
    split; [reflexivity|]. split; [reflexivity|]. split; [|split].
    - unfold getTask, Prisma.task_findUnique. rewrite Ht, find_snoc.
      unfold Prisma.task_findUnique in Hfresh. rewrite Hfresh.
      unfold Task.key. simpl. now rewrite String.eqb_refl.
    - exact Hbefore.
    - unfold tasksByProject. rewrite Hp', Ha, Hs', Hd. simpl.
      unfold Prisma.task_findMany. rewrite Ht, filter_snoc. simpl.
      rewrite String.eqb_refl. now rewrite newest_first_snoc. }
  destruct (Project.status p =? "assigned").
  - erewrite project_update_status_found by exact Hp. intros _.
    cbn [snd]. apply Hend; [reflexivity|].
    exists (Project.with_status "in_progress" p). split; [|reflexivity].
    unfold Prisma.project_findUnique. tables.
    now apply project_updated_row.
  - intros _. cbn [snd]. apply Hend; [reflexivity|].
    exists p. split; [exact Hp | reflexivity].
Qed.

Lemma created_task_can_be_listed_witness :
  exists k,
    Task.status k = "pending"
    /\ getTask
         (snd (createTask Demo.trim Demo.parse_date Demo.st_planned
                 Demo.solver1
                 (mkTaskBody (Some "p1") (Some "Footer") (Some "Links")
                    (Some "2030-01-01")) "t2")) Demo.solver1 "t2"
       = Sent k
    /\ tasksByProject
         (snd (createTask Demo.trim Demo.parse_date Demo.st_planned
                 Demo.solver1
                 (mkTaskBody (Some "p1") (Some "Footer") (Some "Links")
                    (Some "2030-01-01")) "t2")) Demo.solver1 "p1"
       = Sent [k; Demo.t1 "pending"].
Proof.
  destruct (@created_task_can_be_listed Demo.trim Demo.parse_date
              Demo.st_planned Demo.solver1
              (mkTaskBody (Some "p1") (Some "Footer") (Some "Links")
                 (Some "2030-01-01")) "t2" eq_refl)
    as (_ & k & ts & _ & _ & Hs & Hget & Hbefore & Hafter).
  exists k. split; [exact Hs | split; [exact Hget|]].
  vm_compute in Hbefore. injection Hbefore as <-. exact Hafter.
Defined.

Lemma submission_replaced_row st i f e :
  Prisma.submission_findUnique_taskId st i = Some e ->
  (forall b, Submission.taskId (f b) = Submission.taskId b) ->
  find (Submission.task_key i)
       (Prisma.rewrite_rows (Submission.task_key i) f (submissions st))
  = Some (f e).
Proof.
  intros H Hf. rewrite rewrite_rows_find.
  - unfold Prisma.submission_findUnique_taskId in H. rewrite H. simpl.
    apply find_in in H. destruct H as [_ ->]. reflexivity.
  - intros b. unfold Submission.task_key. now rewrite Hf.
Qed.

(** X17: after POST /api/submissions has succeeded, the task has a
    stored submission that is pending and carries the uploaded file,
    whether it is a new row or the rewritten one, and the task read back
    by its identifier is submitted.  The caller, a problem solver, finds
    the submission in GET /api/submissions when the row names the caller
    as its solver, which a new row always does.
    GET /api/submissions/task/:taskId does not give the submission back:
    it answers the caller with status 500. *)
Theorem filed_submission_can_be_listed st u file taskId message newId :
  succeeded (fst (createSubmission st u file taskId message newId)) = true ->
  let st' := snd (createSubmission st u file taskId message newId) in
  req_role u = "problem_solver"
  /\ exists f b' t',
       file = Some f
       /\ Prisma.submission_findUnique_taskId st' (field taskId) = Some b'
       /\ Submission.status b' = "pending"
       /\ Submission.filePath b' = path f
       /\ Submission.fileName b' = originalname f
       /\ Submission.fileSize b' = size f
       /\ (Submission.solverId b' = req_id u ->
           In b' (listSubmissions st' u))
       /\ (Prisma.submission_findUnique_taskId st (field taskId) = None ->
           Submission.solverId b' = req_id u)
       /\ getTask st' u (field taskId) = Sent t'
       /\ Task.status t' = "submitted"
       /\ submissionByTask st' u (field taskId)
          = Refused (Json 500 "Server error").
Proof.
  cbv zeta. unfold createSubmission, server_error.
  destruct (negb (authorize ["problem_solver"] u)) eqn:Ha; [discriminate|].
  apply negb_false_iff, authorized_role in Ha.
  destruct (negb (Validator.notEmpty taskId)); [discriminate|].
  destruct file as [f|]; [|discriminate].
  destruct (Prisma.task_findUnique st (field taskId)) as [t|] eqn:Ht;
    [|discriminate].
  destruct (Prisma.project_findUnique st (Task.projectId t)) as [p|] eqn:Hp;
    [|discriminate].
  destruct (Js.differs _ _) eqn:Hd; [discriminate|].
  assert (forall subs b',
            find (Submission.task_key (field taskId)) subs = Some b' ->
            let st' :=
              set_tasks
                (Prisma.rewrite_rows (Task.key (field taskId))
                   (Task.with_status "submitted") (tasks st))
                (set_submissions subs st) in
            Prisma.submission_findUnique_taskId st' (field taskId) = Some b'
            /\ (Submission.solverId b' = req_id u ->
                In b' (listSubmissions st' u))
            /\ getTask st' u (field taskId)
               = Sent (Task.with_status "submitted" t)
            /\ submissionByTask st' u (field taskId)
               = Refused (Json 500 "Server error")) as Hread.
  { intros subs b' Hb'. cbv zeta.
    split; [exact Hb'|]. split; [|split].
    - intros Hmine. unfold listSubmissions. tables.
      rewrite Ha. simpl. rewrite newest_first_in, filter_In.
      split; [exact (proj1 (find_in _ _ Hb'))|].
      rewrite Hmine. apply String.eqb_refl.
    - unfold getTask, Prisma.task_findUnique. tables.
      now rewrite (@task_updated_row st (field taskId) "submitted" t Ht).
    - unfold submissionByTask, Prisma.task_findUnique,
        Prisma.project_findUnique.
      tables.
      rewrite (@task_updated_row st (field taskId) "submitted" t Ht).
      simpl Task.projectId.
      fold (Prisma.project_findUnique st (Task.projectId t)). rewrite Hp.
      unfold guarded. rewrite (@solver_is_no_buyer u Ha), Ha, Hd.
      now rewrite String.eqb_refl. }
  destruct (Prisma.submission_findUnique_taskId st (field taskId))
    as [e|] eqn:He; cbv zeta; (destruct (negb _); [discriminate|]).
  - unfold Prisma.submission_update_taskId. rewrite He.
    erewrite task_update_found by exact Ht. intros _. cbn [snd].
    split; [exact Ha|].
    destruct (Hread _ _ (@submission_replaced_row st (field taskId)
                           (Submission.replace_file (path f)
                              (originalname f) (size f)
                              (Js.or_else message (Submission.message e)))
                           e He (fun _ => eq_refl)))
      as (Hs & Hl & Hg & Hr).
    eexists. eexists. eexists. split; [reflexivity|].
    split; [exact Hs|]. split; [reflexivity|]. split; [reflexivity|].
    split; [reflexivity|]. split; [reflexivity|]. split; [exact Hl|].
    split; [discriminate|]. split; [exact Hg|].
    split; [reflexivity | exact Hr].
  - destruct (Prisma.submission_create st _) as [st1|] eqn:Hc;
      [|discriminate].
    apply submission_create_inl in Hc. subst st1.
    erewrite task_update_found by exact Ht. intros _. cbn [snd].
    split; [exact Ha|].
    destruct (Hread (submissions st
                     ++ [Submission.mk newId (field taskId)
                           (Task.projectId t) (req_id u) (path f)
                           (originalname f) (size f) message "pending"
                           None])
                (Submission.mk newId (field taskId) (Task.projectId t)
                   (req_id u) (path f) (originalname f) (size f) message
                   "pending" None)) as (Hs & Hl & Hg & Hr).
    { rewrite find_snoc. unfold Prisma.submission_findUnique_taskId in He.
      rewrite He. unfold Submission.task_key. simpl.
      now rewrite String.eqb_refl. }
    eexists. eexists. eexists. split; [reflexivity|].
    split; [exact Hs|]. split; [reflexivity|]. split; [reflexivity|].
    split; [reflexivity|]. split; [reflexivity|]. split; [exact Hl|].
    split; [reflexivity|]. split; [exact Hg|].
    split; [reflexivity | exact Hr].
Qed.

Lemma filed_submission_can_be_listed_witness :
  exists b' t',
    In b'
      (listSubmissions
         (snd (createSubmission Demo.st_reviewed Demo.solver1
                 (Some Demo.zip2) (Some "t1") None "s2")) Demo.solver1)
    /\ Submission.status b' = "pending"
    /\ Submission.fileName b' = "work-v2.zip"
    /\ getTask
         (snd (createSubmission Demo.st_reviewed Demo.solver1
                 (Some Demo.zip2) (Some "t1") None "s2")) Demo.solver1 "t1"
       = Sent t'
    /\ Task.status t' = "submitted"
    /\ submissionByTask
         (snd (createSubmission Demo.st_reviewed Demo.solver1
                 (Some Demo.zip2) (Some "t1") None "s2")) Demo.solver1 "t1"
       = Refused (Json 500 "Server error").
Proof.
  destruct (@filed_submission_can_be_listed Demo.st_reviewed Demo.solver1
              (Some Demo.zip2) (Some "t1") None "s2" eq_refl)
    as (_ & f & b' & t' & Hf & Hs & Hst & _ & Hname & _ & Hl & _ & Hg & Hts
        & Hr).
  injection Hf as <-.
  exists b', t'. split.
  - apply Hl. vm_compute in Hs. injection Hs as <-. reflexivity.
  - repeat split; assumption.
Defined.

(** ** Users *)


Lemma rewrite_rows_same (A : Type) (w : A -> bool) (f : A -> A)
    (l : list A) :
  (forall x, f x = x) -> Prisma.rewrite_rows w f l = l.
Proof.
  intros Hf. unfold Prisma.rewrite_rows. rewrite <- (map_id l) at 2.
  apply map_ext. intros x. destruct (w x); auto.
Qed.

Lemma other_user_row st i j f :
  (forall x, User.id (f x) = User.id x) -> j <> i ->
  find (User.key j) (Prisma.rewrite_rows (User.key i) f (users st))
  = find (User.key j) (users st).
Proof.
  intros Hf Hji. rewrite rewrite_rows_find.
  - destruct (find (User.key j) (users st)) as [x|] eqn:E; [|reflexivity].
    simpl. apply find_in in E. destruct E as [_ E].
    unfold User.key in *. apply String.eqb_eq in E.
    rewrite E. apply String.eqb_neq in Hji. now rewrite Hji.
  - intros x. unfold User.key. now rewrite Hf.
Qed.

Lemma own_user_row st i f x :
  (forall x, User.id (f x) = User.id x) ->
  Prisma.user_findUnique st i = Some x ->
  find (User.key i) (Prisma.rewrite_rows (User.key i) f (users st))
  = Some (f x).
Proof.
  intros Hf H. rewrite rewrite_rows_find.
  - unfold Prisma.user_findUnique in H. rewrite H. simpl.
    apply find_in in H. destruct H as [_ ->]. reflexivity.
  - intros y. unfold User.key. now rewrite Hf.
Qed.



(** X19: PUT /api/users/profile writes the caller's own row and nothing
    else.  If the caller is no user, or the body carries a text that the
    store refuses, it answers 500 and writes nothing.  When it succeeds,
    the caller is read back with the same identifier and role, each
    profile field that the body carries replaced (the text fields
    trimmed) and each field it does not carry as it was; every other user
    is read back as before. *)
Theorem profile_update_is_the_callers trim st u b :
  (Prisma.user_findUnique st (req_id u) = None ->
   updateProfile trim st u b = (Json 500 "Server error", st))
  /\ (profile_data_ok trim b = false ->
      updateProfile trim st u b = (Json 500 "Server error", st))
  /\ (succeeded (fst (updateProfile trim st u b)) = true ->
      let st' := snd (updateProfile trim st u b) in
      fst (updateProfile trim st u b)
      = Json 200 "Profile updated successfully"
      /\ st' = set_users (users st') st
      /\ (forall v j, j <> req_id u -> getUser st' v j = getUser st v j)
      /\ exists x x',
           Prisma.user_findUnique st (req_id u) = Some x
           /\ (forall v, getUser st' v (req_id u) = Sent x')
           /\ User.id x' = User.id x
           /\ User.role x' = User.role x
           /\ User.bio x'
              = match pr_bio b with
                | Some v => Some (trim v)
                | None => User.bio x
                end
           /\ User.skills x'
              = match pr_skills b with
                | Some v => v
                | None => User.skills x
                end
           /\ User.experience x'
              = match pr_experience b with
                | Some v => Some (trim v)
                | None => User.experience x
                end
           /\ User.portfolio x'
              = match pr_portfolio b with
                | Some v => Some (trim v)
                | None => User.portfolio x
                end).
Proof.
  unfold updateProfile, Prisma.user_update, server_error.
  split; [|split].
  - intros ->. now destruct (negb _).
  - intros ->. reflexivity.
  - destruct (negb (profile_data_ok trim b)); [discriminate|].
    destruct (Prisma.user_findUnique st (req_id u)) as [x|] eqn:Hx;
      [|discriminate].
    intros _. cbv zeta. cbn [fst snd].
    split; [reflexivity|]. split; [reflexivity|]. split.
    + intros v j Hj. unfold getUser, Prisma.user_findUnique. tables.
      now rewrite other_user_row.
    + exists x, (profile_apply trim b x). split; [reflexivity|]. split.
      * intros v. unfold getUser, Prisma.user_findUnique. tables.
        now rewrite (@own_user_row st (req_id u) (profile_apply trim b) x).
      * unfold profile_apply, trimmed. simpl.
        repeat split;
          [destruct (pr_bio b) | destruct (pr_experience b)
           | destruct (pr_portfolio b)]; reflexivity.
Qed.

Lemma profile_update_is_the_callers_witness :
  exists x',
    (forall v,
       getUser
         (snd (updateProfile Demo.trim Demo.st_open Demo.solver1
                 (mkProfileBody (Some "  Rocq and OCaml ") None None None)))
         v "solver1" = Sent x')
    /\ User.role x' = "problem_solver"
    /\ User.bio x' = Some "Rocq and OCaml".
Proof.
  destruct (@profile_update_is_the_callers Demo.trim Demo.st_open
              Demo.solver1
              (mkProfileBody (Some "  Rocq and OCaml ") None None None))
    as (_ & _ & Hok).
  destruct (Hok eq_refl)
    as (_ & _ & _ & x & x' & Hx & Hget & _ & Hrole & Hbio & _).
  vm_compute in Hx. injection Hx as <-.
  exists x'. split; [exact Hget | split; [exact Hrole | exact Hbio]].
Defined.

(** ** Updating a task *)

Lemma blocks_fields u project b d1 d2 :
  solver_block u project b no_update = inl d1 ->
  buyer_block u project b d1 = inl d2 ->
  (req_role u = "problem_solver" ->
   (exists p, project = Some p
              /\ Project.assignedSolverId p = Some (req_id u))
   /\ tp_title d2 = (if Js.truthy (tp_title b) then tp_title b else None)
   /\ tp_description d2
      = (if Js.truthy (tp_description b) then tp_description b else None)
   /\ tp_deadline d2
      = (if Js.truthy (tp_deadline b) then tp_deadline b else None))
  /\ (req_role u <> "problem_solver" ->
      tp_title d2 = None /\ tp_description d2 = None
      /\ tp_deadline d2 = None)
  /\ (req_role u = "buyer" ->
      exists p, project = Some p /\ Project.buyerId p = req_id u)
  /\ (req_role u <> "problem_solver" -> req_role u <> "buyer" ->
      d2 = no_update).
Proof.
  unfold solver_block, buyer_block. intros H1 H2.
  destruct (req_role u =? "problem_solver") eqn:E1;
    destruct (req_role u =? "buyer") eqn:E2.
  - apply String.eqb_eq in E1, E2. rewrite E1 in E2. discriminate.
  - apply String.eqb_eq in E1. apply String.eqb_neq in E2.
    destruct project as [p|]; [|discriminate].
    destruct (Js.differs (Project.assignedSolverId p) (req_id u)) eqn:Hd;
      [discriminate|].
    injection H1 as <-. injection H2 as <-. cbn.
    repeat split; try congruence.
    exists p. split; [reflexivity | now apply not_differs].
  - apply String.eqb_neq in E1. apply String.eqb_eq in E2.
    injection H1 as <-.
    destruct project as [p|]; [|discriminate].
    destruct (negb (Project.buyerId p =? req_id u)) eqn:Hb; [discriminate|].
    injection H2 as <-. cbn.
    repeat split; try congruence.
    exists p. split; [reflexivity | now apply same_string].
  - apply String.eqb_neq in E1, E2.
    injection H1 as <-. injection H2 as <-. cbn.
    repeat split; congruence.
Qed.

Lemma other_task_row st i j f :
  (forall x, Task.id (f x) = Task.id x) -> j <> i ->
  find (Task.key j) (Prisma.rewrite_rows (Task.key i) f (tasks st))
  = find (Task.key j) (tasks st).
Proof.
  intros Hf Hji. rewrite rewrite_rows_find.
  - destruct (find (Task.key j) (tasks st)) as [x|] eqn:E; [|reflexivity].
    simpl. apply find_in in E. destruct E as [_ E].
    unfold Task.key in *. apply String.eqb_eq in E.
    rewrite E. apply String.eqb_neq in Hji. now rewrite Hji.
  - intros x. unfold Task.key. now rewrite Hf.
Qed.

Lemma own_task_row st i f x :
  (forall x, Task.id (f x) = Task.id x) ->
  Prisma.task_findUnique st i = Some x ->
  find (Task.key i) (Prisma.rewrite_rows (Task.key i) f (tasks st))
  = Some (f x).
Proof.
  intros Hf H. rewrite rewrite_rows_find.
  - unfold Prisma.task_findUnique in H. rewrite H. simpl.
    apply find_in in H. destruct H as [_ ->]. reflexivity.
  - intros y. unfold Task.key. now rewrite Hf.
Qed.

Lemma set_tasks_same st : set_tasks (tasks st) st = st.
Proof. now destruct st. Qed.

Lemma task_apply_nothing k : task_apply no_update None k = k.
Proof. now destruct k. Qed.

(** X20: what PUT /api/tasks/:id may change.  When it succeeds the task
    existed and is read back with the same identifier, project and owner;
    no other task and no other table is written.  A problem solver
    succeeds only on a task of a project assigned to it, and then the
    title and the description are the ones of the body where the body
    carries a non-empty one, and the stored ones otherwise.  A buyer
    succeeds only on a task of a project it owns.  Whoever is no problem
    solver leaves title, description and deadline as they were, and a
    caller that is neither problem solver nor buyer changes nothing at
    all. *)
Theorem task_update_is_scoped parse_date st u id b :
  succeeded (fst (updateTask parse_date st u id b)) = true ->
  let st' := snd (updateTask parse_date st u id b) in
  exists t t',
    Prisma.task_findUnique st id = Some t
    /\ Prisma.task_findUnique st' id = Some t'
    /\ st' = set_tasks (tasks st') st
    /\ (forall j, j <> id ->
        Prisma.task_findUnique st' j = Prisma.task_findUnique st j)
    /\ Task.id t' = Task.id t
    /\ Task.projectId t' = Task.projectId t
    /\ Task.userId t' = Task.userId t
    /\ (req_role u = "problem_solver" ->
        (exists p,
           Prisma.project_findUnique st (Task.projectId t) = Some p
           /\ Project.assignedSolverId p = Some (req_id u))
        /\ Task.title t'
           = (if Js.truthy (tp_title b) then field (tp_title b)
              else Task.title t)
        /\ Task.description t'
           = (if Js.truthy (tp_description b) then field (tp_description b)
              else Task.description t)
        /\ (Js.truthy (tp_deadline b) = false ->
            Task.deadline t' = Task.deadline t))
    /\ (req_role u = "buyer" ->
        exists p,
          Prisma.project_findUnique st (Task.projectId t) = Some p
          /\ Project.buyerId p = req_id u)
    /\ (req_role u <> "problem_solver" ->
        Task.title t' = Task.title t
        /\ Task.description t' = Task.description t
        /\ Task.deadline t' = Task.deadline t)
    /\ (req_role u <> "problem_solver" -> req_role u <> "buyer" ->
        st' = st).
Proof.
  unfold updateTask, server_error.
  destruct (negb (Validator.optional_isIn _ (tp_status b)));
    [discriminate|].
  destruct (Prisma.task_findUnique st id) as [t|] eqn:Ht; [|discriminate].
  cbv zeta.
  destruct (solver_block u _ b no_update) as [d1|r] eqn:H1;
    [|intros H; cbn [fst] in H;
      unfold solver_block in H1;
      destruct (req_role u =? "problem_solver"); [|discriminate];
      destruct (Prisma.project_findUnique st (Task.projectId t));
      [destruct (Js.differs _ _); [|discriminate]|];
      injection H1 as <-; discriminate].
  destruct (buyer_block u _ b d1) as [d2|r] eqn:H2;
    [|intros H; cbn [fst] in H;
      unfold buyer_block in H2;
      destruct (req_role u =? "buyer"); [|discriminate];
      destruct (Prisma.project_findUnique st (Task.projectId t));
      [destruct (negb _); [|discriminate]|];
      injection H2 as <-; discriminate].
  destruct (blocks_fields _ _ _ H1 H2) as (Hs & Hn & Hb & Hnone).
  set (deadline := option_map parse_date (tp_deadline d2)).
  assert (Hdl : tp_deadline d2 = None -> deadline = None)
    by (unfold deadline; now intros ->).
  clearbody deadline.
  destruct deadline as [[z|]|]; [| discriminate |]; cbv zeta;
    (destruct (negb _); [discriminate|]);
    (rewrite (@task_update_found st id _ t Ht); intros _; cbn [fst snd];
     exists t;
     eexists; split; [reflexivity|];
     split; [unfold Prisma.task_findUnique; tables;
             apply (@own_task_row st id _ t); [reflexivity | exact Ht]|];
     split; [reflexivity|];
     split; [intros j Hj; unfold Prisma.task_findUnique; tables;
             now apply other_task_row|];
     split; [reflexivity|]; split; [reflexivity|]; split; [reflexivity|]).
  - split; [|split; [exact Hb|split]].
    + intros Hr. destruct (Hs Hr) as (Hp & Ht1 & Ht2 & Ht3).
      split; [exact Hp|]. unfold task_apply. cbn.
      rewrite Ht1, Ht2.
      split; [|split].
      * destruct (tp_title b) as [v|];
          [destruct (Js.truthy (Some v))|]; reflexivity.
      * destruct (tp_description b) as [v|];
          [destruct (Js.truthy (Some v))|]; reflexivity.
      * intros Hf. rewrite Hf in Ht3. apply Hdl in Ht3. discriminate.
    + intros Hr. destruct (Hn Hr) as (_ & _ & Ht3).
      apply Hdl in Ht3. discriminate.
    + intros Hr. destruct (Hn Hr) as (_ & _ & Ht3).
      apply Hdl in Ht3. discriminate.
  - split; [|split; [exact Hb|split]].
    + intros Hr. destruct (Hs Hr) as (Hp & Ht1 & Ht2 & Ht3).
      split; [exact Hp|]. unfold task_apply. cbn.
      rewrite Ht1, Ht2.
      split; [|split].
      * destruct (tp_title b) as [v|];
          [destruct (Js.truthy (Some v))|]; reflexivity.
      * destruct (tp_description b) as [v|];
          [destruct (Js.truthy (Some v))|]; reflexivity.
      * reflexivity.
    + intros Hr. destruct (Hn Hr) as (Ht1 & Ht2 & _).
      unfold task_apply. cbn. now rewrite Ht1, Ht2.
    + intros Hr Hr'. rewrite (Hnone Hr Hr').
      rewrite rewrite_rows_same by apply task_apply_nothing.
      apply set_tasks_same.
Qed.

Lemma task_update_is_scoped_witness :
  exists t',
    Prisma.task_findUnique
      (snd (updateTask Demo.parse_date Demo.st_planned Demo.solver1 "t1"
              (mkTaskPatch (Some "Banner") (Some "") None
                 (Some "in_progress"))))
      "t1" = Some t'
    /\ Task.title t' = "Banner"
    /\ Task.description t' = "Top of the page"
    /\ Task.deadline t' = 1893456000000%Z.
Proof.
  destruct (@task_update_is_scoped Demo.parse_date Demo.st_planned
              Demo.solver1 "t1"
              (mkTaskPatch (Some "Banner") (Some "") None
                 (Some "in_progress")) eq_refl)
    as (t & t' & Ht & Ht' & _ & _ & _ & _ & _ & Hs & _).
  injection Ht as <-.
  destruct (Hs eq_refl) as (_ & H1 & H2 & H3).
  exists t'. split; [exact Ht'|]. split; [exact H1|].
  split; [exact H2 | exact (H3 eq_refl)].
Defined.

(** ** From an open project to a completed one *)

Lemma role_authorized (role : string) (u : ReqUser) :
  req_role u = role -> authorize [role] u = true.
Proof.
  intros <-. unfold authorize, Js.includes. simpl.
  now rewrite String.eqb_refl.
Qed.

Lemma named (s : string) : s <> "" -> Validator.notEmpty (Some s) = true.
Proof.
  intros H. simpl. apply String.eqb_neq in H. now rewrite H.
Qed.

Lemma own_project_row st i f p :
  (forall x, Project.id (f x) = Project.id x) ->
  find (Project.key i) (projects st) = Some p ->
  find (Project.key i)
       (Prisma.rewrite_rows (Project.key i) f (projects st))
  = Some (f p).
Proof.
  intros Hf H. rewrite rewrite_rows_find.
  - rewrite H. simpl. apply find_in in H. destruct H as [_ ->]. reflexivity.
  - intros y. unfold Project.key. now rewrite Hf.
Qed.

(** What POST /api/requests asks for. *)
Lemma createRequest_does st u pid msg rid p :
  req_role u = "problem_solver" ->
  pid <> "" ->
  Prisma.project_findUnique st pid = Some p ->
  Project.status p = "open" ->
  Prisma.request_findUnique_projectId_solverId st pid (req_id u) = None ->
  existsb (Request.key rid) (requests st) = false ->
  Prisma.user_exists st (req_id u) = true ->
  Prisma.opt_text_ok msg = true ->
  createRequest st u (Some pid) msg rid
  = (Json 201 "",
     set_requests
       (requests st ++ [Request.mk rid pid (req_id u) msg "pending"]) st).
Proof.
  intros Hr Hpid Hp Ho Hnone Hfresh Hu Hmsg.
  unfold createRequest, createRequest_at.
  rewrite (@role_authorized _ _ Hr), (@named _ Hpid). cbn [negb field].
  rewrite Hp, Ho, String.eqb_refl, Hnone. cbn [negb]. cbv zeta.
  unfold Prisma.request_data_ok. cbn [Request.message]. rewrite Hmsg.
  cbn [negb].
  unfold Prisma.request_create.
  cbn [Request.id Request.projectId Request.solverId].
  unfold Prisma.request_findUnique_projectId_solverId in Hnone.
  unfold Prisma.project_findUnique in Hp.
  rewrite Hfresh, (not_found_exists _ _ Hnone), (found_exists _ _ Hp), Hu.
  reflexivity.
Qed.

(** What PUT /api/projects/:id/assign asks for, and what it writes. *)
Lemma assignSolver_does st u pid s p :
  req_role u = "buyer" ->
  s <> "" ->
  Prisma.project_findUnique st pid = Some p ->
  Project.buyerId p = req_id u ->
  Prisma.user_exists st s = true ->
  assignSolver st u pid (Some s)
  = (Json 200 "Project assigned successfully",
     Prisma.request_updateMany
       (Prisma.request_updateMany
          (set_projects
             (Prisma.rewrite_rows (Project.key pid) (Project.assign s)
                (projects st)) st)
          (fun r => (Request.projectId r =? pid) && (Request.solverId r =? s))
          (Request.with_status "accepted"))
       (fun r => (Request.projectId r =? pid)
                 && negb (Request.solverId r =? s))
       (Request.with_status "rejected")).
Proof.
  intros Hr Hs Hp Ho Hu. unfold assignSolver.
  rewrite (@role_authorized _ _ Hr), (@named _ Hs). cbn [negb field].
  rewrite Hp, Ho, String.eqb_refl. cbn [negb].
  unfold Prisma.project_update. rewrite Hp.
  cbn [Project.assign Project.assignedSolverId Prisma.fk_user].
  rewrite Hu, orb_true_r. cbn [negb].
  destruct (project_found _ _ Hp) as [_ ->]. reflexivity.
Qed.

(** What POST /api/tasks asks for on a project that is assigned and has
    no task yet, and what it writes. *)
Lemma createTask_does trim parse_date st u tb tid pid p z :
  req_role u = "problem_solver" ->
  tb_projectId tb = Some pid -> pid <> "" ->
  Validator.notEmpty (trimmed trim (tb_title tb)) = true ->
  Validator.notEmpty (trimmed trim (tb_description tb)) = true ->
  Validator.notEmpty (tb_deadline tb) = true ->
  parse_date (field (tb_deadline tb)) = Some z ->
  Prisma.project_findUnique st pid = Some p ->
  Project.assignedSolverId p = Some (req_id u) ->
  req_id u <> "" ->
  Prisma.user_exists st (req_id u) = true ->
  Prisma.task_findUnique st tid = None ->
  Project.status p = "assigned" ->
  Prisma.text_ok (field (trimmed trim (tb_title tb))) = true ->
  Prisma.text_ok (field (trimmed trim (tb_description tb))) = true ->
  Prisma.date_ok z = true ->
  createTask trim parse_date st u tb tid
  = (Json 201 "",
     set_projects
       (Prisma.rewrite_rows (Project.key pid)
          (Project.with_status "in_progress") (projects st))
       (set_tasks
          (tasks st
           ++ [Task.mk tid pid (req_id u)
                 (field (trimmed trim (tb_title tb)))
                 (field (trimmed trim (tb_description tb))) z "pending"])
          st)).
Proof.
  intros Hr Hb Hpid H1 H2 H3 Hz Hp Ha Hu He Hfresh Hs Ht1 Ht2 Hd.
  unfold createTask.
  rewrite (@role_authorized _ _ Hr), Hb, (@named _ Hpid), H1, H2, H3.
  cbn [negb andb field]. rewrite Hp, Ha.
  apply String.eqb_neq in Hu. cbn [Js.truthy Js.differs].
  rewrite Hu, String.eqb_refl. cbn [negb]. rewrite Hz. cbv zeta.
  unfold Prisma.task_data_ok.
  cbn [Task.title Task.description Task.deadline].
  rewrite Ht1, Ht2, Hd. cbn [negb andb].
  unfold Prisma.task_create. cbn [Task.id Task.projectId Task.userId].
  unfold Prisma.task_findUnique in Hfresh.
  pose proof Hp as Hp'. unfold Prisma.project_findUnique in Hp'.
  rewrite (not_found_exists _ _ Hfresh), (found_exists _ _ Hp'), He.
  cbn [negb andb]. rewrite Hs, String.eqb_refl.
  unfold Prisma.project_update, Prisma.project_findUnique. tables.
  rewrite Hp'. cbn [Project.with_status Project.assignedSolverId].
  rewrite Ha. cbn [Js.same]. rewrite String.eqb_refl. reflexivity.
Qed.

(** What POST /api/submissions asks for on a task without a submission,
    and what it writes. *)
Lemma createSubmission_does st u f tid msg sid t p :
  req_role u = "problem_solver" ->
  tid <> "" ->
  Prisma.task_findUnique st tid = Some t ->
  Prisma.project_findUnique st (Task.projectId t) = Some p ->
  Project.assignedSolverId p = Some (req_id u) ->
  Prisma.user_exists st (req_id u) = true ->
  Prisma.submission_findUnique_taskId st tid = None ->
  Prisma.submission_findUnique st sid = None ->
  Prisma.file_data_ok (path f) (originalname f) (size f) msg = true ->
  createSubmission st u (Some f) (Some tid) msg sid
  = (Json 201 "Submission created successfully",
     set_tasks
       (Prisma.rewrite_rows (Task.key tid) (Task.with_status "submitted")
          (tasks st))
       (set_submissions
          (submissions st
           ++ [Submission.mk sid tid (Task.projectId t) (req_id u) (path f)
                 (originalname f) (size f) msg "pending" None]) st)).
Proof.
  intros Hr Htid Ht Hp Ha Hu Hnone Hfresh Hfile. unfold createSubmission.
  rewrite (@role_authorized _ _ Hr), (@named _ Htid). cbn [negb field].
  rewrite Ht, Hp, Ha. cbn [Js.differs]. rewrite String.eqb_refl.
  cbn [negb]. rewrite Hnone. cbv zeta.
  unfold Prisma.submission_data_ok.
  cbn [Submission.filePath Submission.fileName Submission.fileSize
       Submission.message].
  rewrite Hfile. cbn [negb].
  unfold Prisma.submission_create.
  cbn [Submission.id Submission.taskId Submission.projectId
       Submission.solverId].
  unfold Prisma.submission_findUnique_taskId in Hnone.
  unfold Prisma.submission_findUnique in Hfresh.
  pose proof Ht as Ht'. unfold Prisma.task_findUnique in Ht'.
  unfold Prisma.project_findUnique in Hp.
  rewrite (not_found_exists _ _ Hfresh), (not_found_exists _ _ Hnone),
    (found_exists _ _ Ht'), (found_exists _ _ Hp), Hu.
  cbn [negb andb orb].
  unfold Prisma.task_update, Prisma.task_findUnique. tables.
  now rewrite Ht'.
Qed.

(** Accepting the submission of the last task of a project that is not
    completed yet: what the review route asks for, and what it writes. *)
Lemma reviewSubmission_completes st u sid now b p t :
  req_role u = "buyer" ->
  Prisma.submission_findUnique st sid = Some b ->
  Prisma.project_findUnique st (Submission.projectId b) = Some p ->
  Project.buyerId p = req_id u ->
  Prisma.task_findUnique st (Submission.taskId b) = Some t ->
  Task.projectId t = Submission.projectId b ->
  (forall t', In t' (tasks st) ->
     Task.projectId t' = Submission.projectId b ->
     Task.id t' = Submission.taskId b \/ Task.status t' = "completed") ->
  reviewSubmission st u sid (Some "accepted") now
  = (Json 200 "Submission accepted successfully",
     set_projects
       (Prisma.rewrite_rows (Project.key (Submission.projectId b))
          (Project.with_status "completed") (projects st))
       (set_tasks
          (Prisma.rewrite_rows (Task.key (Submission.taskId b))
             (Task.with_status "completed") (tasks st))
          (set_submissions
             (Prisma.rewrite_rows (Submission.key sid)
                (Submission.review "accepted" now) (submissions st))
             st))).
Proof.
  intros Hr Hb Hp Ho Ht Hin Hrest. unfold reviewSubmission.
  rewrite (@role_authorized _ _ Hr).
  cbv zeta. cbn [Validator.isIn Js.includes existsb negb field].
  change ("accepted" =? "accepted") with true.
  cbn [orb negb]. rewrite Hb, Hp, Ho, String.eqb_refl. cbn [negb].
  unfold Prisma.submission_update. rewrite Hb.
  unfold Prisma.task_update at 1.
  unfold Prisma.task_findUnique at 1. tables.
  pose proof Ht as Ht'. unfold Prisma.task_findUnique in Ht'.
  rewrite Ht'.
  unfold Prisma.task_findMany. tables.
  set (mine := fun t0 => Task.projectId t0 =? Submission.projectId b).
  set (done := Prisma.rewrite_rows (Task.key (Submission.taskId b))
                 (Task.with_status "completed") (tasks st)).
  assert (Hall : forallb (fun t0 => Task.status t0 =? "completed")
                   (filter mine done) = true).
  { apply forallb_forall. intros x Hx. apply filter_In in Hx.
    destruct Hx as [Hx Hm]. apply rewrite_rows_in in Hx.
    destruct Hx as (y & Hy & ->).
    destruct (Task.key (Submission.taskId b) y) eqn:Hk; [reflexivity|].
    unfold mine in Hm. apply String.eqb_eq in Hm.
    destruct (Hrest y Hy Hm) as [E | E].
    - unfold Task.key in Hk. rewrite E, String.eqb_refl in Hk.
      discriminate.
    - now rewrite E. }
  assert (Hsome : (0 <? length (filter mine done))%nat = true).
  { apply Nat.ltb_lt.
    assert (In (Task.with_status "completed" t) (filter mine done)).
    { apply filter_In. split.
      - destruct (find_in _ _ Ht') as [Hi Hk].
        pose proof (@rewrite_rows_intro _ (Task.key (Submission.taskId b))
                      (Task.with_status "completed") (tasks st) t Hi) as H.
        now rewrite Hk in H.
      - unfold mine. cbn [Task.with_status Task.projectId].
        rewrite Hin. apply String.eqb_refl. }
    destruct (filter mine done); [contradiction | simpl; lia]. }
  rewrite Hall, Hsome. cbn [andb].
  unfold Prisma.project_update, Prisma.project_findUnique. tables.
  unfold Prisma.project_findUnique in Hp. rewrite Hp.
  cbn [Project.with_status Project.assignedSolverId].
  destruct (Project.assignedSolverId p) as [s|]; cbn [Js.same];
    rewrite ?String.eqb_refl; reflexivity.
Qed.

Lemma open_project_has_no_task st i p t :
  sound st ->
  Prisma.project_findUnique st i = Some p -> Project.status p = "open" ->
  In t (tasks st) -> Task.projectId t <> i.
Proof.
  intros S Hp Ho Ht E.
  destruct (project_found _ _ Hp) as [Hin Hid].
  destruct (task_assigned S t Ht) as (q & Hq & Hqid & Hsolver).
  assert (q = p)
    by (apply (@pk_same_row st q p (sound_wf S) Hq Hin); congruence).
  subst q. apply Hsolver. now apply (open_unassigned (sound_wf S) p Hin).
Qed.

Lemma unknown_task_has_no_submission st i :
  sound st ->
  Prisma.task_findUnique st i = None ->
  Prisma.submission_findUnique_taskId st i = None.
Proof.
  intros S Hnone. unfold Prisma.submission_findUnique_taskId.
  destruct (find (Submission.task_key i) (submissions st)) as [b|] eqn:E;
    [|reflexivity].
  apply find_in in E. destruct E as [Hin Hk].
  unfold Submission.task_key in Hk. apply String.eqb_eq in Hk.
  pose proof (fk_task (sound_wf S) b Hin) as Hfk. rewrite Hk in Hfk.
  unfold Prisma.task_findUnique in Hnone.
  rewrite (not_found_exists _ _ Hnone) in Hfk. discriminate.
Qed.

(** X21: an open project can always be taken to completion.  In any store
    reached from the registered users, take an open project of a buyer, a
    registered problem solver who has not yet asked for it, and
    identifiers that are not in use, and let the texts, the deadline and
    the file be values the store takes.  Then the five requests of the
    workflow succeed one after the other: the solver's request (201), the
    buyer's assignment (200), the solver's task (201), the solver's
    submission (201) and the buyer's acceptance (200).  Afterwards the
    project is completed and assigned to the solver, the solver's request
    is accepted, the task is completed and the submission is accepted
    with the time of the review. *)
Theorem open_project_can_be_completed trim parse_date st bu su p pid msg
    rid tb tid z file note sid now :
  reachable trim parse_date st ->
  req_role bu = "buyer" ->
  req_role su = "problem_solver" ->
  req_id su <> "" ->
  Prisma.user_exists st (req_id su) = true ->
  Prisma.project_findUnique st pid = Some p ->
  pid <> "" ->
  Project.status p = "open" ->
  Project.buyerId p = req_id bu ->
  Prisma.request_findUnique_projectId_solverId st pid (req_id su) = None ->
  existsb (Request.key rid) (requests st) = false ->
  Prisma.task_findUnique st tid = None ->
  tid <> "" ->
  tb_projectId tb = Some pid ->
  Validator.notEmpty (trimmed trim (tb_title tb)) = true ->
  Validator.notEmpty (trimmed trim (tb_description tb)) = true ->
  Validator.notEmpty (tb_deadline tb) = true ->
  parse_date (field (tb_deadline tb)) = Some z ->
  Prisma.submission_findUnique st sid = None ->
  Prisma.opt_text_ok msg = true ->
  Prisma.text_ok (field (trimmed trim (tb_title tb))) = true ->
  Prisma.text_ok (field (trimmed trim (tb_description tb))) = true ->
  Prisma.date_ok z = true ->
  Prisma.file_data_ok (path file) (originalname file) (size file) note
  = true ->
  let asked := createRequest st su (Some pid) msg rid in
  let assigned := assignSolver (snd asked) bu pid (Some (req_id su)) in
  let planned := createTask trim parse_date (snd assigned) su tb tid in
  let delivered :=
    createSubmission (snd planned) su (Some file) (Some tid) note sid in
  let reviewed :=
    reviewSubmission (snd delivered) bu sid (Some "accepted") now in
  map code
    [fst asked; fst assigned; fst planned; fst delivered; fst reviewed]
  = [201; 200; 201; 201; 200]%nat
  /\ exists p' r' t' b',
       Prisma.project_findUnique (snd reviewed) pid = Some p'
       /\ Project.status p' = "completed"
       /\ Project.assignedSolverId p' = Some (req_id su)
       /\ Prisma.request_findUnique_projectId_solverId (snd reviewed) pid
            (req_id su) = Some r'
       /\ Request.status r' = "accepted"
       /\ Prisma.task_findUnique (snd reviewed) tid = Some t'
       /\ Task.status t' = "completed"
       /\ Prisma.submission_findUnique (snd reviewed) sid = Some b'
       /\ Submission.status b' = "accepted"
       /\ Submission.reviewedAt b' = Some now.
Proof.
  intros R Hbu Hsu Hname Huser Hp Hpid Hopen Howner Hnone Hrid Htid Htname
    Hbody H1 H2 H3 Hz Hsid Hmsg Htitle Hdescr Hdate Hfile.
  pose proof (reachable_sound R) as S.
  pose proof (@open_project_has_no_task st pid p) as Hnotask.
  pose proof (@unknown_task_has_no_submission st tid S Htid) as Hnosub.
  destruct (project_found _ _ Hp) as [_ Hid].
  intros asked assigned planned delivered reviewed.
  subst asked assigned planned delivered reviewed.
  (* the request *)
  rewrite (@createRequest_does st su pid msg rid p Hsu Hpid Hp Hopen Hnone
             Hrid Huser Hmsg) in *.
  cbn [snd fst] in *.
  set (st1 := set_requests (requests st ++ _) st) in *.
  (* the assignment *)
  rewrite (@assignSolver_does st1 bu pid (req_id su) p Hbu Hname Hp Howner
             Huser) in *.
  cbn [snd fst] in *.
  set (st2 := Prisma.request_updateMany
                (Prisma.request_updateMany _ _ _) _ _) in *.
  assert (Hp2 : Prisma.project_findUnique st2 pid
                = Some (Project.assign (req_id su) p)).
  { unfold Prisma.project_findUnique, st2, Prisma.request_updateMany, st1.
    tables. now apply own_project_row. }
  (* the task *)
  rewrite (@createTask_does trim parse_date st2 su tb tid pid
             (Project.assign (req_id su) p) z Hsu Hbody Hpid H1 H2 H3 Hz
             Hp2 eq_refl Hname Huser Htid eq_refl Htitle Hdescr Hdate)
    in *.
  cbn [snd fst] in *.
  set (k := Task.mk tid pid (req_id su) _ _ z "pending") in *.
  set (st3 := set_projects _ (set_tasks _ st2)) in *.
  assert (Hk3 : Prisma.task_findUnique st3 tid = Some k).
  { unfold Prisma.task_findUnique, st3, st2, Prisma.request_updateMany, st1.
    tables. rewrite find_snoc.
    unfold Prisma.task_findUnique in Htid. rewrite Htid.
    unfold Task.key, k. cbn [Task.id]. now rewrite String.eqb_refl. }
  assert (Hp3 : Prisma.project_findUnique st3 (Task.projectId k)
                = Some (Project.with_status "in_progress"
                          (Project.assign (req_id su) p))).
  { unfold Prisma.project_findUnique, st3. tables. cbn [k Task.projectId].
    apply (@own_project_row st2 pid (Project.with_status "in_progress"));
      [reflexivity | exact Hp2]. }
  (* the submission *)
  rewrite (@createSubmission_does st3 su file tid note sid k _ Hsu Htname
             Hk3 Hp3 eq_refl Huser Hnosub Hsid Hfile) in *.
  cbn [snd fst] in *.
  set (b := Submission.mk sid tid _ _ _ _ _ note "pending" None) in *.
  set (st4 := set_tasks _ (set_submissions _ st3)) in *.
  assert (Hb4 : Prisma.submission_findUnique st4 sid = Some b).
  { unfold Prisma.submission_findUnique, st4. tables. rewrite find_snoc.
    unfold Prisma.submission_findUnique in Hsid.
    unfold st3, st2, Prisma.request_updateMany, st1. tables.
    rewrite Hsid. unfold Submission.key, b. cbn [Submission.id].
    now rewrite String.eqb_refl. }
  assert (Hp4 : Prisma.project_findUnique st4 (Submission.projectId b)
                = Some (Project.with_status "in_progress"
                          (Project.assign (req_id su) p)))
    by exact Hp3.
  assert (Hk4 : Prisma.task_findUnique st4 (Submission.taskId b)
                = Some (Task.with_status "submitted" k)).
  { unfold Prisma.task_findUnique, st4. tables. cbn [b Submission.taskId].
    apply (@own_task_row st3 tid (Task.with_status "submitted") k);
      [reflexivity | exact Hk3]. }
  assert (Hrest : forall t', In t' (tasks st4) ->
            Task.projectId t' = Submission.projectId b ->
            Task.id t' = Submission.taskId b
            \/ Task.status t' = "completed").
  { intros t' Hin E. left. cbn [b Submission.taskId Submission.projectId
                                  k Task.projectId] in *.
    unfold st4 in Hin. tables. apply rewrite_rows_in in Hin.
    destruct Hin as (y & Hy & ->).
    assert (Hy' : Task.id y = tid /\ Task.projectId y = pid \/ In y (tasks st)).
    { unfold st3, st2, Prisma.request_updateMany, st1 in Hy. tables.
      apply in_app_or in Hy. destruct Hy as [Hy | [<- | []]];
        [now right | now left]. }
    destruct Hy' as [[Hy1 _] | Hy'].
    - now destruct (Task.key tid y).
    - exfalso. apply (Hnotask y S Hp Hopen Hy').
      now destruct (Task.key tid y). }
  (* the review *)
  rewrite (@reviewSubmission_completes st4 bu sid now b _ _ Hbu Hb4 Hp4
             Howner Hk4 eq_refl Hrest).
  cbn [snd fst map code]. split; [reflexivity|].
  cbn [b Submission.taskId Submission.projectId k Task.projectId].
  eexists _, _, _, _.
  split.
  { unfold Prisma.project_findUnique. tables.
    apply (@own_project_row st4 pid (Project.with_status "completed"));
      [reflexivity | exact Hp3]. }
  split; [reflexivity|]. split; [reflexivity|].
  split.
  { unfold Prisma.request_findUnique_projectId_solverId. tables.
    unfold st4, st3, st2, Prisma.request_updateMany, st1. tables.
    rewrite !rewrite_rows_find by reflexivity.
    rewrite find_snoc.
    unfold Prisma.request_findUnique_projectId_solverId in Hnone.
    rewrite Hnone.
    unfold Request.pair_key at 1.
    cbn [Request.projectId Request.solverId].
    rewrite !String.eqb_refl. cbn [andb option_map].
    cbn [Request.projectId Request.solverId Request.with_status].
    rewrite !String.eqb_refl. cbn [andb negb]. reflexivity. }
  split; [reflexivity|].
  split.
  { unfold Prisma.task_findUnique. tables.
    apply (@own_task_row st4 tid (Task.with_status "completed")
             (Task.with_status "submitted" k)); [reflexivity | exact Hk4]. }
  split; [reflexivity|].
  split.
  { unfold Prisma.submission_findUnique. tables.
    rewrite rewrite_rows_find by reflexivity.
    unfold Prisma.submission_findUnique in Hb4. rewrite Hb4.
    cbn [option_map]. unfold Submission.key at 1. cbn [b Submission.id].
    rewrite String.eqb_refl. reflexivity. }
  split; reflexivity.
Qed.

Lemma open_project_can_be_completed_witness :
  exists p',
    Prisma.project_findUnique
      (run Demo.trim Demo.parse_date Demo.st_open
         [CreateRequest (mkReqUser "solver3" "problem_solver") (Some "p1")
            None "r3";
          AssignSolver Demo.buyer1 "p1" (Some "solver3");
          CreateTask (mkReqUser "solver3" "problem_solver")
            (mkTaskBody (Some "p1") (Some "Header") (Some "Top of the page")
               (Some "2030-01-01")) "t1";
          CreateSubmission (mkReqUser "solver3" "problem_solver")
            (Some Demo.zip) (Some "t1") None "s1";
          ReviewSubmission Demo.buyer1 "s1" (Some "accepted") 7])
      "p1" = Some p'
    /\ Project.status p' = "completed"
    /\ Project.assignedSolverId p' = Some "solver3".
Proof.
  assert (Hname : "solver3" <> "") by discriminate.
  assert (Hpid : "p1" <> "") by discriminate.
  assert (Htid : "t1" <> "") by discriminate.
  destruct (@open_project_can_be_completed Demo.trim Demo.parse_date
              Demo.st_open Demo.buyer1
              (mkReqUser "solver3" "problem_solver") (Demo.p1 None "open")
              "p1" None "r3"
              (mkTaskBody (Some "p1") (Some "Header")
                 (Some "Top of the page") (Some "2030-01-01"))
              "t1" 1893456000000%Z Demo.zip None "s1" 7%Z
              (demo_reachable Demo.posting) eq_refl eq_refl Hname eq_refl
              eq_refl Hpid eq_refl eq_refl eq_refl eq_refl eq_refl Htid
              eq_refl eq_refl eq_refl eq_refl eq_refl eq_refl eq_refl
              eq_refl eq_refl eq_refl eq_refl)
    as (_ & p' & _ & _ & _ & Hp' & Hs & Ha & _).
  exists p'. split; [exact Hp' | split; [exact Hs | exact Ha]].
Defined.
